(** * Killfeed row analysis (python/ora/killfeed.py)

    A shallow embedding of [KillfeedAnalyzer] and [KillfeedIconMatch].

    Conventions of the embedding:
    - Python integers are [Z]; list and array indices follow Python's
      rules (a negative index counts from the end, an index outside the
      sequence raises [IndexError]).
    - Python floats are the rationals they denote ([Q]); the code only
      compares scores, it never computes with them.  The literal [0.6] is
      the binary64 number nearest to 6/10, see [SCORE_THRESHOLD].
    - A Python exception is the [Raise] branch of [Result].
    - OpenCV and the helpers of [util] are not part of this file of the
      repository: they are the methods of the class [Externals]. *)

From Stdlib Require Import String.
From Stdlib Require Import List ZArith QArith Bool Lia Permutation.
Import ListNotations.
Open Scope Z_scope.

(** ** Exceptions *)

Inductive PyError : Type :=
| IndexError
| ValueError
| KeyError
| ZeroDivisionError
| CvError.

Inductive Result (A : Type) : Type :=
| Ok (a : A)
| Raise (e : PyError).
Arguments Ok {A} a.
Arguments Raise {A} e.

Definition bind {A B : Type} (r : Result A) (k : A -> Result B) : Result B :=
  match r with
  | Ok a => k a
  | Raise e => Raise e
  end.

Notation "x <- r ;; k" := (bind r (fun x => k))
  (at level 61, r at next level, right associativity).

Fixpoint mapM {A B : Type} (f : A -> Result B) (l : list A) : Result (list B) :=
  match l with
  | [] => Ok []
  | a :: l' => b <- f a ;; bs <- mapM f l' ;; Ok (b :: bs)
  end.

(** ** Python sequences *)

(** [range(lo, hi)] *)
Definition range (lo hi : Z) : list Z :=
  map (fun k => lo + Z.of_nat k) (seq 0 (Z.to_nat (hi - lo))).

(** [l[i]] *)
Definition py_index {A : Type} (l : list A) (i : Z) : Result A :=
  let n := Z.of_nat (length l) in
  let j := if i <? 0 then i + n else i in
  if (0 <=? j) && (j <? n)
  then match nth_error l (Z.to_nat j) with
       | Some a => Ok a
       | None => Raise IndexError
       end
  else Raise IndexError.

(** The bound of a slice, as Python and numpy normalise it: a negative
    bound counts from the end, and the bound is clipped to [0, len]. *)
Definition slice_bound (n i : Z) : Z :=
  let j := if i <? 0 then i + n else i in
  Z.max 0 (Z.min n j).

(** [l[lo:hi]] *)
Definition py_slice {A : Type} (l : list A) (lo hi : Z) : list A :=
  let n := Z.of_nat (length l) in
  let a := slice_bound n lo in
  let b := slice_bound n hi in
  firstn (Z.to_nat (b - a)) (skipn (Z.to_nat a) l).

(** [l[lo:hi] = vals] on a Python list: the slice is replaced by [vals],
    whatever their lengths. *)
Definition py_slice_assign {A : Type} (l : list A) (lo hi : Z) (vals : list A)
  : list A :=
  let n := Z.of_nat (length l) in
  let a := slice_bound n lo in
  let b := Z.max a (slice_bound n hi) in
  firstn (Z.to_nat a) l ++ vals ++ skipn (Z.to_nat b) l.

(** [a[lo:hi] = vals] on a one-dimensional numpy array: the shape is kept;
    [vals] must have the length of the slice, or length one. *)
Definition np_slice_assign {A : Type} (l : list A) (lo hi : Z) (vals : list A)
  : Result (list A) :=
  let n := Z.of_nat (length l) in
  let a := slice_bound n lo in
  let b := Z.max a (slice_bound n hi) in
  let k := Z.to_nat (b - a) in
  match vals with
  | [v] => Ok (firstn (Z.to_nat a) l ++ repeat v k ++ skipn (Z.to_nat b) l)
  | _ => if Nat.eqb (length vals) k
         then Ok (firstn (Z.to_nat a) l ++ vals ++ skipn (Z.to_nat b) l)
         else Raise ValueError
  end.

(** [[v] * k] *)
Definition py_repeat {A : Type} (v : A) (k : Z) : list A :=
  repeat v (Z.to_nat k).

(** [l.count(True)] *)
Definition count_true (l : list bool) : Z :=
  Z.of_nat (length (filter (fun b => b) l)).

(** ** Floats as rationals *)

Definition Qlt_bool (a b : Q) : bool := negb (Qle_bool b a).

(** [max(seq)] of the builtins: the first of the largest elements;
    [ValueError] on an empty sequence. *)
Definition py_max (l : list Q) : Result Q :=
  match l with
  | [] => Raise ValueError
  | a :: l' => Ok (fold_left (fun m v => if Qlt_bool m v then v else m) l' a)
  end.

(** ** Data model *)

(** A pixel: its three channels. *)
Definition Color : Type := (Z * Z * Z)%type.

(** A colour image: rows of pixels. *)
Definition Image : Type := list (list Color).

(** A single-channel 8-bit array with its [shape[1]]. *)
Record Gray : Type := mkGray {
  gray_width : nat;
  gray_rows : list (list Z)
}.

Record FrameStructure : Type := mkFrameStructure {
  KILLFEED_MAX_WIDTH : Z;
  KILLFEED_CHARACTER2_MAX_WIDTH : Z
}.

(** [ICONS_CHARACTER] is a dict; the list is its iteration order. *)
Record KillfeedIcons : Type := mkKillfeedIcons {
  ICON_CHARACTER_WIDTH : Z;
  ICON_CHARACTER_HEIGHT : Z;
  ICONS_CHARACTER : list (string * Image)
}.

Record Game : Type := mkGame {
  color_team1 : Color;
  color_team2 : Color;
  name_team1 : string;
  name_team2 : string
}.

Inductive Event : Type :=
| SUICIDE
| RESURRECTION
| ELIMINATION.

(** [overwatch.Killfeed]: the arguments its constructor is called with;
    an argument that is not passed is [None]. *)
Record Killfeed : Type := mkKillfeed {
  kf_id : string;
  kf_time : Q;
  kf_team1 : option string;
  kf_team2 : option string;
  kf_character1 : option string;
  kf_character2 : option string;
  kf_event : Event
}.

Record FrameAnalyzer : Type := mkFrameAnalyzer {
  fa_fstruc : FrameStructure;
  killfeed_icons : KillfeedIcons;
  fa_time : Q;
  game : Game
}.

Record KillfeedIconMatch : Type := mkKillfeedIconMatch {
  object_name : string;
  score : Q;
  x : Z
}.

(** The attributes of a [KillfeedAnalyzer] instance. *)
Record KillfeedAnalyzer : Type := mkKillfeedAnalyzer {
  killfeed_image : Image;
  fstruc : FrameStructure;
  icons : KillfeedIcons;
  time : Q;
  frame_analyzer : FrameAnalyzer;
  killfeed : option Killfeed
}.

(** [KillfeedAnalyzer.__init__] *)
Definition __init__ (killfeed_image : Image) (fa : FrameAnalyzer)
  : KillfeedAnalyzer :=
  {| killfeed_image := killfeed_image;
     fstruc := fa_fstruc fa;
     icons := killfeed_icons fa;
     time := fa_time fa;
     frame_analyzer := fa;
     killfeed := None |}.

Definition RIGHT : Z := 1.
Definition LEFT : Z := 0.

(** ** External collaborators *)

(** - [Canny img lo hi] is [cv2.Canny(img, lo, hi)];
    - [matchTemplate img templ] is the row of
      [cv2.matchTemplate(img, templ, cv2.TM_CCOEFF_NORMED)]: the row image
      has the height of the templates, so that the Result has one row;
    - [crop_by_limit] and [color_distance] are the helpers of [util]. *)
Class Externals : Type := {
  Canny : Image -> Z -> Z -> Gray;
  matchTemplate : Image -> Image -> list Q;
  crop_by_limit : Image -> Z -> Z -> Z -> Z -> Image;
  color_distance : Color -> Color -> Q
}.

(** ** Edge validation *)

(** [sum(edge_image[i, j-1: j+1])] for [j >= 1], zero in column 0. *)
Definition edge_span_at (row : list Z) (j : nat) : Z :=
  match j with
  | O => 0
  | S k => nth k row 0 + nth j row 0
  end.

(** [edge_span.sum(0)] *)
Definition edge_span_sum (e : Gray) : list Z :=
  map (fun j => fold_right (fun row s => edge_span_at row j + s) 0 (gray_rows e))
      (seq 0 (gray_width e)).

(** One turn of the loop of [_validate_edge]. *)
Definition edge_valid_at (edge_sum : list Q) (threshold_left threshold_right : Q)
  (i : Z) : Result bool :=
  let edge_scores_left := py_slice edge_sum (i - 2) (i + 2) in
  let edge_scores_right := py_slice edge_sum (i + 33) (i + 37) in
  ml <- py_max edge_scores_left ;;
  if Qle_bool threshold_left ml
  then mr <- py_max edge_scores_right ;; Ok (Qle_bool threshold_right mr)
  else Ok false.

Definition _validate_edge `{Externals} (self : KillfeedAnalyzer)
  (killfeed_image : Image) : Result (list bool) :=
  let edge_image := Canny killfeed_image 100 200 in
  let h := ICON_CHARACTER_HEIGHT (icons self) in
  let edge_sum :=
    map (fun s => inject_Z s / inject_Z (255 * h))%Q (edge_span_sum edge_image) in
  if h =? 0 then Raise ZeroDivisionError else
  let threshold_left := ((inject_Z h - 2) / inject_Z h)%Q in
  let threshold_right := ((inject_Z h - 5) / inject_Z h)%Q in
  flags <- mapM (edge_valid_at edge_sum threshold_left threshold_right)
                (range 2 (KILLFEED_MAX_WIDTH (fstruc self) - 38)) ;;
  Ok ([false; false] ++ flags ++ repeat false 6).

(** ** Template matching *)

(** The max value and its column of [cv2.minMaxLoc], which reports the
    first position of the largest value; an empty array is an error of
    OpenCV. *)
Fixpoint argmax_from (l : list Q) (i : Z) (best : Q) (best_i : Z) : Q * Z :=
  match l with
  | [] => (best, best_i)
  | v :: l' =>
      if Qlt_bool best v
      then argmax_from l' (i + 1) v i
      else argmax_from l' (i + 1) best best_i
  end.

Definition minMaxLoc (a : list Q) : Result (Q * Z) :=
  match a with
  | [] => Raise CvError
  | v :: l => Ok (argmax_from l 1 v 0)
  end.

Fixpoint foldM {A S : Type} (f : S -> A -> Result S) (l : list A) (s : S)
  : Result S :=
  match l with
  | [] => Ok s
  | a :: l' => s' <- f s a ;; foldM f l' s'
  end.

Definition _match_template_score `{Externals} (image1 image2 : Image)
  : Result Q :=
  py_index (matchTemplate image1 image2) 0.

(** The body of the loop of [_get_icons_weights_full]: the two best
    columns of one template. *)
Definition full_step `{Externals} (self : KillfeedAnalyzer)
  (killfeed_image : Image) (edge_validation : list bool)
  (acc : list KillfeedIconMatch) (item : string * Image)
  : Result (list KillfeedIconMatch) :=
  let '(name, object_icon) := item in
  let match_result := matchTemplate killfeed_image object_icon in
  r1 <- minMaxLoc match_result ;;
  let '(max_val, max_loc) := r1 in
  e1 <- py_index edge_validation max_loc ;;
  let acc := if e1 : bool
             then acc ++ [mkKillfeedIconMatch name max_val max_loc]
             else acc in
  let half_mask_width := 5 in
  let mask_index_left := Z.max (max_loc - half_mask_width) 0 in
  let mask_index_right :=
    Z.min (max_loc + half_mask_width + 1)
          (KILLFEED_MAX_WIDTH (fstruc self) - ICON_CHARACTER_WIDTH (icons self)) in
  match_result <-
    np_slice_assign match_result mask_index_left mask_index_right
                    (py_repeat (-1)%Q (mask_index_right - mask_index_left)) ;;
  r2 <- minMaxLoc match_result ;;
  let '(max_val, max_loc) := r2 in
  e2 <- py_index edge_validation max_loc ;;
  Ok (if e2 : bool
      then acc ++ [mkKillfeedIconMatch name max_val max_loc]
      else acc).

Definition _get_icons_weights_full `{Externals} (self : KillfeedAnalyzer)
  (killfeed_image : Image) (edge_validation : list bool)
  : Result (list KillfeedIconMatch) :=
  foldM (full_step self killfeed_image edge_validation)
        (ICONS_CHARACTER (icons self)) [].

(** The inner loop of [_get_icons_weights_discrete]: the best template
    for one patch. *)
Definition best_icon_step `{Externals} (to_compare : Image)
  (best : string * Q) (item : string * Image) : Result (string * Q) :=
  let '(best_name, best_score) := best in
  let '(name, object_icon) := item in
  s <- _match_template_score to_compare object_icon ;;
  Ok (if Qlt_bool best_score s then (name, s) else (best_name, best_score)).

(** The outer loop of [_get_icons_weights_discrete]: one match per column
    that passes the edge validation. *)
Definition discrete_step `{Externals} (self : KillfeedAnalyzer)
  (killfeed_image : Image) (edge_validation : list bool)
  (result_raw : list KillfeedIconMatch) (col : Z)
  : Result (list KillfeedIconMatch) :=
  e <- py_index edge_validation col ;;
  if negb e then Ok result_raw else
  let to_compare :=
    crop_by_limit killfeed_image 0 (ICON_CHARACTER_HEIGHT (icons self))
                  col (ICON_CHARACTER_WIDTH (icons self)) in
  best <- foldM (best_icon_step to_compare) (ICONS_CHARACTER (icons self))
                (EmptyString, (-1)%Q) ;;
  let '(best_name, best_score) := best in
  Ok (result_raw ++ [mkKillfeedIconMatch best_name best_score col]).

(** [l.sort(key=KillfeedIconMatch.get_score, reverse=True)]: stable, the
    largest score first. *)
Fixpoint insert_desc (m : KillfeedIconMatch) (l : list KillfeedIconMatch)
  : list KillfeedIconMatch :=
  match l with
  | [] => [m]
  | y :: l' =>
      if Qlt_bool (score m) (score y) then y :: insert_desc m l' else m :: l
  end.

Definition sort_by_score_desc (l : list KillfeedIconMatch)
  : list KillfeedIconMatch :=
  fold_right insert_desc [] l.

(** The suppression loop of [_get_icons_weights_discrete]; the state is
    [(mask, result)]. *)
Definition suppress_step (st : list bool * list KillfeedIconMatch)
  (m : KillfeedIconMatch) : Result (list bool * list KillfeedIconMatch) :=
  let '(mask, acc) := st in
  covered <- py_index mask (x m) ;;
  if covered : bool then Ok (mask, acc) else
  let mask_left_index := Z.max 0 (x m - 5) in
  let mask_right_index := Z.min (Z.of_nat (length mask)) (x m + 5) in
  Ok (py_slice_assign mask mask_left_index mask_right_index
        (py_repeat true (mask_right_index - mask_left_index)),
      acc ++ [m]).

Definition suppress (n : nat) (result_raw : list KillfeedIconMatch)
  : Result (list KillfeedIconMatch) :=
  st <- foldM suppress_step result_raw (repeat false n, []) ;;
  Ok (snd st).

Definition _get_icons_weights_discrete `{Externals} (self : KillfeedAnalyzer)
  (killfeed_image : Image) (edge_validation : list bool)
  : Result (list KillfeedIconMatch) :=
  result_raw <-
    foldM (discrete_step self killfeed_image edge_validation)
          (range 0 (Z.of_nat (length edge_validation))) [] ;;
  suppress (length edge_validation) (sort_by_score_desc result_raw).

Definition _get_icons_weights `{Externals} (self : KillfeedAnalyzer)
  (killfeed_image : Image) (edge_validation : list bool)
  : Result (list KillfeedIconMatch) :=
  let valid_pixel_count := count_true edge_validation in
  if valid_pixel_count <=? 7
  then _get_icons_weights_discrete self killfeed_image edge_validation
  else _get_icons_weights_full self killfeed_image edge_validation.

(** ** Selection of the best matches *)

(** [l.insert(i, v)] for [0 <= i], [l.pop()] and [l.append(v)] *)
Definition py_insert {A : Type} (l : list A) (i : nat) (v : A) : list A :=
  firstn i l ++ v :: skipn i l.

Definition py_pop {A : Type} (l : list A) : Result (list A) :=
  match l with
  | [] => Raise IndexError
  | _ => Ok (removelast l)
  end.

Definition py_append {A : Type} (l : list A) (v : A) : list A := l ++ [v].

(** The placeholder [KillfeedIconMatch("", -1, -1)] *)
Definition no_match : KillfeedIconMatch :=
  mkKillfeedIconMatch EmptyString (-1)%Q (-1).

(** The body of the first loop of [get_killfeed]. *)
Definition top3_step (best_matches : list KillfeedIconMatch)
  (item : KillfeedIconMatch) : Result (list KillfeedIconMatch) :=
  b0 <- py_index best_matches 0 ;;
  if Qlt_bool (score b0) (score item)
  then py_pop (py_insert best_matches 0 item)
  else
    b1 <- py_index best_matches 1 ;;
    if Qlt_bool (score b1) (score item)
    then py_pop (py_insert best_matches 1 item)
    else
      b2 <- py_index best_matches 2 ;;
      if Qlt_bool (score b2) (score item)
      then l <- py_pop best_matches ;; Ok (py_append l item)
      else Ok best_matches.

Definition top3 (icons_weights : list KillfeedIconMatch)
  : Result (list KillfeedIconMatch) :=
  foldM top3_step icons_weights [no_match; no_match; no_match].

(** The float literal [0.6]: the binary64 number nearest to 6/10. *)
Definition SCORE_THRESHOLD : Q := 5404319552844595 # 9007199254740992.

(** The body of the second loop of [get_killfeed]. *)
Definition accept_step (edge_validation : list bool)
  (matched_icons : list KillfeedIconMatch) (item : KillfeedIconMatch)
  : Result (list KillfeedIconMatch) :=
  if Qlt_bool (score item) SCORE_THRESHOLD then Ok matched_icons else
  e <- py_index edge_validation (x item) ;;
  Ok (if e : bool then py_append matched_icons item else matched_icons).

Definition accept (edge_validation : list bool)
  (best_matches : list KillfeedIconMatch) : Result (list KillfeedIconMatch) :=
  foldM (accept_step edge_validation) best_matches [].

(** ** Teams and events *)

(** The column that [_get_icon_team] reads: its first [if] statement. *)
Definition sample_column (self : KillfeedAnalyzer) (icon : KillfeedIconMatch)
  (position : Z) : Result Z :=
  if position =? LEFT then Ok (x icon - 5)
  else if position =? RIGHT
       then Ok (x icon + ICON_CHARACTER_WIDTH (icons self) + 5)
       else Raise KeyError.

Definition _get_icon_team `{Externals} (self : KillfeedAnalyzer)
  (icon : KillfeedIconMatch) (position : Z) : Result string :=
  col <- sample_column self icon position ;;
  row <- py_index (killfeed_image self) 0 ;;
  color <- py_index row col ;;
  let g := game (frame_analyzer self) in
  let team1_distance := color_distance color (color_team1 g) in
  let team2_distance := color_distance color (color_team2 g) in
  if Qle_bool team1_distance team2_distance
  then Ok (name_team1 g)
  else Ok (name_team2 g).

Definition _generate_killfeed `{Externals} (self : KillfeedAnalyzer)
  (matched_icons : list KillfeedIconMatch) : Result Killfeed :=
  if Nat.eqb (length matched_icons) 1
  then
    m0 <- py_index matched_icons 0 ;;
    team <- _get_icon_team self m0 RIGHT ;;
    Ok (mkKillfeed "test" (time self) None (Some team)
                   None (Some (object_name m0)) SUICIDE)
  else
    m0 <- py_index matched_icons 0 ;;
    m1 <- py_index matched_icons 1 ;;
    let matched_icons :=
      if x m1 <? x m0 then [m1; m0] else matched_icons in
    m0 <- py_index matched_icons 0 ;;
    team1 <- _get_icon_team self m0 LEFT ;;
    m1 <- py_index matched_icons 1 ;;
    team2 <- _get_icon_team self m1 RIGHT ;;
    let event := if String.eqb team1 team2 then RESURRECTION else ELIMINATION in
    Ok (mkKillfeed "test" (time self) (Some team1) (Some team2)
                   (Some (object_name m0)) (Some (object_name m1)) event).

(** The matches that [get_killfeed] accepts: its two loops. *)
Definition matched_icons `{Externals} (self : KillfeedAnalyzer)
  : Result (list bool * list KillfeedIconMatch) :=
  edge_validation <- _validate_edge self (killfeed_image self) ;;
  icons_weights <-
    _get_icons_weights self (killfeed_image self) edge_validation ;;
  best_matches <- top3 icons_weights ;;
  matched <- accept edge_validation best_matches ;;
  Ok (edge_validation, matched).

(** The decision of [get_killfeed] on the accepted matches; [None] is the
    bare [return]. *)
Definition decide_killfeed `{Externals} (self : KillfeedAnalyzer)
  (matched : list KillfeedIconMatch) : Result (option Killfeed) :=
  match length matched with
  | O => Ok None
  | S O =>
      m0 <- py_index matched 0 ;;
      if x m0 <? KILLFEED_MAX_WIDTH (fstruc self)
                 - KILLFEED_CHARACTER2_MAX_WIDTH (fstruc self)
      then Ok None
      else k <- _generate_killfeed self matched ;; Ok (Some k)
  | _ => k <- _generate_killfeed self (py_slice matched 0 2) ;; Ok (Some k)
  end.

(** [get_killfeed]: the value returned (or the exception raised) and the
    instance after the call.  The [title] argument only labels debugging
    output and is left out.  No statement of the method assigns an
    attribute of [self]. *)
Definition get_killfeed `{Externals} (self : KillfeedAnalyzer)
  : Result (option Killfeed) * KillfeedAnalyzer :=
  match killfeed self with
  | Some k => (Ok (Some k), self)
  | None =>
      (em <- matched_icons self ;; decide_killfeed self (snd em), self)
  end.

(** ** A stand-in for OpenCV, to run the analysis on concrete rows

    - an edge is a white pixel;
    - a template is recognised by the green and red channels of its first
      pixel, and a pixel of the row carrying them matches the template
      with the score [blue / 100];
    - the distance of two colours is the square of their Euclidean
      distance, which orders colours as the Euclidean distance does. *)

Definition WHITE : Color := (255, 255, 255).
Definition BLACK : Color := (0, 0, 0).

Definition color_eqb (a b : Color) : bool :=
  let '(a1, a2, a3) := a in
  let '(b1, b2, b3) := b in
  (a1 =? b1) && (a2 =? b2) && (a3 =? b3).

Definition stub_Canny (img : Image) (lo hi : Z) : Gray :=
  mkGray (length (hd [] img))
         (map (map (fun px => if color_eqb px WHITE then 255 else 0)) img).

Definition stub_score (px key : Color) : Q :=
  let '(b, g, r) := px in
  let '(_, kg, kr) := key in
  if (g =? kg) && (r =? kr) then inject_Z b / 100 else 0.

Definition stub_matchTemplate (img templ : Image) : list Q :=
  let row := hd [] img in
  let key := hd BLACK (hd [] templ) in
  map (fun px => stub_score px key)
      (firstn (length row - length (hd [] templ) + 1) row).

Definition stub_crop_by_limit (img : Image) (top h left w : Z) : Image :=
  map (fun row => py_slice row left (left + w)) (py_slice img top (top + h)).

Definition euclid2 (a b : Color) : Q :=
  let '(a1, a2, a3) := a in
  let '(b1, b2, b3) := b in
  inject_Z ((a1 - b1) * (a1 - b1) + (a2 - b2) * (a2 - b2) + (a3 - b3) * (a3 - b3)).

Definition stub_cv : Externals :=
  {| Canny := stub_Canny;
     matchTemplate := stub_matchTemplate;
     crop_by_limit := stub_crop_by_limit;
     color_distance := euclid2 |}.

(** [paint row spots]: the row with the listed columns repainted. *)
Fixpoint paint (row : list Color) (spots : list (nat * Color)) : list Color :=
  match spots with
  | [] => row
  | (c, col) :: spots' =>
      paint (firstn c row ++ col :: skipn (S c) row) spots'
  end.

(** A row image of six equal lines, 100 pixels wide. *)
Definition row_image (spots : list (nat * Color)) : Image :=
  repeat (paint (repeat BLACK 100) spots) 6.

Definition template (g r : Z) : Image := repeat (repeat (0, g, r) 38) 6.

Definition BLUE_TEAM : Color := (255, 0, 0).
Definition RED_TEAM : Color := (0, 0, 255).

Definition stub_frame (g : Game) : FrameAnalyzer :=
  {| fa_fstruc := mkFrameStructure 100 60;
     killfeed_icons :=
       mkKillfeedIcons 38 6 [("ana"%string, template 1 1);
                             ("genji"%string, template 2 2)];
     fa_time := 12;
     game := g |}.

Definition stub_game : Game := mkGame BLUE_TEAM RED_TEAM "blue" "red".

(** A blank row. *)
Definition blank_row : KillfeedAnalyzer :=
  __init__ (row_image []) (stub_frame stub_game).

(** The float literal [0.5999]: the binary64 number nearest to it. *)
Definition SCORE_0_5999 : Q := 5403418832919121 # 9007199254740992.

(** A mask of twenty columns that is valid at column 4 only, and three
    best matches to select from. *)
Definition mask_at_4 : list bool :=
  repeat false 4 ++ [true] ++ repeat false 15.

Definition three_candidates : list KillfeedIconMatch :=
  [mkKillfeedIconMatch "ana" (9 # 10) 4;
   mkKillfeedIconMatch "genji" (7 # 10) 9;
   no_match].

(** ** Rows to run the analysis on

    In the rows below an icon at column c comes with a white line one
    column before it and a white line at column c + 34, which is what
    [_validate_edge] looks for; the pixels at c - 5 and at c + 43 carry the
    colours of the teams. *)

Definition analyzer (spots : list (nat * Color)) (g : Game) : KillfeedAnalyzer :=
  __init__ (row_image spots) (stub_frame g).

Definition ana_icon : Color := (90, 1, 1).
Definition genji_icon : Color := (80, 2, 2).
Definition bluish : Color := (250, 0, 0).
Definition reddish : Color := (0, 0, 250).

(** One icon at column 50, right of column 100 - 60. *)
Definition ana_alone : list (nat * Color) :=
  [(49, WHITE); (84, WHITE); (50, ana_icon); (93, bluish)]%nat.

(** One icon at column 20, left of column 100 - 60. *)
Definition ana_half_shown : list (nat * Color) :=
  [(19, WHITE); (54, WHITE); (20, ana_icon); (63, bluish)]%nat.

(** Two icons at columns 10 and 50, of different teams; ten columns pass
    the edge validation (dense scorer). *)
Definition ana_kills_genji : list (nat * Color) :=
  [(9, WHITE); (44, WHITE); (49, WHITE); (84, WHITE);
   (10, ana_icon); (50, genji_icon); (5, bluish); (93, reddish)]%nat.

(** Two icons at columns 10 and 50, of the same team; six columns pass
    the edge validation (sparse scorer). *)
Definition ana_revives_genji : list (nat * Color) :=
  [(9, WHITE); (46, WHITE); (49, WHITE); (86, WHITE);
   (10, ana_icon); (50, genji_icon); (5, bluish); (93, bluish)]%nat.

(** Two templates that match two columns apart (dense scorer). *)
Definition two_columns_apart : list (nat * Color) :=
  [(49, WHITE); (54, WHITE); (84, WHITE); (89, WHITE);
   (50, ana_icon); (52, genji_icon); (45, bluish); (95, reddish)]%nat.

(** One icon at column 60: the column 60 + 38 + 5 is outside the row. *)
Definition ana_at_right_end : list (nat * Color) :=
  [(59, WHITE); (94, WHITE); (60, ana_icon)]%nat.

(** Two icons at columns 3 and 50: the column 3 - 5 is negative. *)
Definition ana_at_left_end : list (nat * Color) :=
  [(2, WHITE); (37, WHITE); (3, ana_icon); (49, WHITE); (84, WHITE);
   (50, genji_icon); (98, reddish); (93, reddish)]%nat.

(** Two icons; the pixel left of the first one is black, as far from
    [BLUE_TEAM] as from [RED_TEAM]; the pixel right of the second one is
    reddish. *)
Definition ana_no_colour_genji_red : list (nat * Color) :=
  [(9, WHITE); (44, WHITE); (49, WHITE); (84, WHITE);
   (10, ana_icon); (50, genji_icon); (93, reddish)]%nat.

(** One icon at column 50 whose best template scores 0.5 only. *)
Definition faint_icon : Color := (50, 1, 1).

Definition faint_ana : list (nat * Color) :=
  [(49, WHITE); (84, WHITE); (50, faint_icon)]%nat.

(** ** The pixel read for the team of an icon *)

(** The pixel that [_get_icon_team] reads for an icon and a position. *)
Definition sampled_pixel (self : KillfeedAnalyzer) (icon : KillfeedIconMatch)
  (position : Z) : Result Color :=
  col <- sample_column self icon position ;;
  row <- py_index (killfeed_image self) 0 ;;
  py_index row col.

(** The icons that [get_killfeed] hands to [_get_icon_team] for the
    accepted matches, each with its position, in the order of the calls:
    none when no match is accepted or when the single match is left of
    [KILLFEED_MAX_WIDTH - KILLFEED_CHARACTER2_MAX_WIDTH]; the single match
    with [RIGHT]; of the first two matches, the one with the smaller column
    with [LEFT], then the other with [RIGHT]. *)
Definition classified_icons (self : KillfeedAnalyzer)
  (matched : list KillfeedIconMatch) : list (KillfeedIconMatch * Z) :=
  match matched with
  | [] => []
  | [m] =>
      if x m <? KILLFEED_MAX_WIDTH (fstruc self)
                - KILLFEED_CHARACTER2_MAX_WIDTH (fstruc self)
      then []
      else [(m, RIGHT)]
  | m0 :: m1 :: _ =>
      if x m1 <? x m0 then [(m1, LEFT); (m0, RIGHT)]
      else [(m0, LEFT); (m1, RIGHT)]
  end.

(** The values obtained before the first exception. *)
Fixpoint until_error {A : Type} (l : list (Result A)) : list A :=
  match l with
  | Ok a :: l' => a :: until_error l'
  | _ => []
  end.

(** The pixels that [get_killfeed] reads to classify the accepted
    matches: a read that raises ends the call. *)
Definition pixels_read (self : KillfeedAnalyzer)
  (matched : list KillfeedIconMatch) : list Color :=
  until_error
    (map (fun mp => sampled_pixel self (fst mp) (snd mp))
         (classified_icons self matched)).

(** A pixel at the same distance from the two team colours. *)
Definition equidistant `{Externals} (g : Game) (px : Color) : Prop :=
  (color_distance px (color_team1 g) == color_distance px (color_team2 g))%Q.

(** ** Changes of an instance from outside *)

(** The game with the two reference colours exchanged. *)
Definition swap_colors (g : Game) : Game :=
  {| color_team1 := color_team2 g;
     color_team2 := color_team1 g;
     name_team1 := name_team1 g;
     name_team2 := name_team2 g |}.

Definition swap_frame_colors (fa : FrameAnalyzer) : FrameAnalyzer :=
  {| fa_fstruc := fa_fstruc fa;
     killfeed_icons := killfeed_icons fa;
     fa_time := fa_time fa;
     game := swap_colors (game fa) |}.

(** The label of the other team. *)
Definition swap_label (g : Game) (t : string) : string :=
  if String.eqb t (name_team1 g) then name_team2 g
  else if String.eqb t (name_team2 g) then name_team1 g
  else t.

(** The event with each team label exchanged, and its kind read again
    from the labels. *)
Definition swap_labels (g : Game) (k : Killfeed) : Killfeed :=
  {| kf_id := kf_id k;
     kf_time := kf_time k;
     kf_team1 := option_map (swap_label g) (kf_team1 k);
     kf_team2 := option_map (swap_label g) (kf_team2 k);
     kf_character1 := kf_character1 k;
     kf_character2 := kf_character2 k;
     kf_event := kf_event k |}.

(** [self.killfeed_image = img], assigned by a caller. *)
Definition set_killfeed_image (self : KillfeedAnalyzer) (img : Image)
  : KillfeedAnalyzer :=
  {| killfeed_image := img;
     fstruc := fstruc self;
     icons := icons self;
     time := time self;
     frame_analyzer := frame_analyzer self;
     killfeed := killfeed self |}.

(** ** Predicates of the statements *)

(** [insert_behind x l]: [x] placed in a list in descending order of
    score, behind the entries that score as much as [x]. *)
Fixpoint insert_behind (m : KillfeedIconMatch) (l : list KillfeedIconMatch)
  : list KillfeedIconMatch :=
  match l with
  | [] => [m]
  | y :: l' =>
      if Qlt_bool (score y) (score m) then m :: l else y :: insert_behind m l'
  end.

(** The normalized sums of the spanned edge image, one for each column:
    [edge_sum] in [_validate_edge]. *)
Definition normalized_edge_sum `{Externals} (self : KillfeedAnalyzer)
  (img : Image) : list Q :=
  map (fun s => inject_Z s / inject_Z (255 * ICON_CHARACTER_HEIGHT (icons self)))%Q
      (edge_span_sum (Canny img 100 200)).

(** One of the sums at the columns from [lo] to [hi - 1] is at least [t]. *)
Definition window_reaches (sums : list Q) (lo hi : Z) (t : Q) : Prop :=
  exists j v, lo <= j < hi /\ nth_error sums (Z.to_nat j) = Some v
              /\ (t <= v)%Q.

(** What the scan has kept after the candidates [seen]: three matches in
    the order of their scores, and everything else scores no more than the
    third. *)
Definition three_best (seen best : list KillfeedIconMatch) : Prop :=
  exists a b c rest,
    best = [a; b; c]
    /\ (score b <= score a)%Q /\ (score c <= score b)%Q
    /\ Permutation ([no_match; no_match; no_match] ++ seen) (best ++ rest)
    /\ (forall m, In m rest -> (score m <= score c)%Q).

(** Two matches at least five columns apart. *)
Definition apart5 (a b : KillfeedIconMatch) : Prop := 5 <= Z.abs (x a - x b).

(** The mask covers the window of the match [a]: the columns from
    [x a - 5] to [x a + 4]. *)
Definition covers (mask : list bool) (a : KillfeedIconMatch) : Prop :=
  forall c, 0 <= c -> x a - 5 <= c < x a + 5 ->
            c < Z.of_nat (length mask) ->
            nth_error mask (Z.to_nat c) = Some true.

(** The state of the suppression loop on a mask of [n] columns: every
    accepted match is a column of the mask, its window is covered, a
    covered column lies in the window of an accepted match, and the
    accepted matches are five columns apart. *)
Definition suppress_inv (n : nat)
  (st : list bool * list KillfeedIconMatch) : Prop :=
  length (fst st) = n
  /\ Forall (covers (fst st)) (snd st)
  /\ (forall c, 0 <= c -> nth_error (fst st) (Z.to_nat c) = Some true ->
                exists a, In a (snd st) /\ x a - 5 <= c < x a + 5)
  /\ ForallOrdPairs apart5 (snd st).

(** Two matches more than five columns apart. *)
Definition far5 (a b : KillfeedIconMatch) : Prop := 5 < Z.abs (x a - x b).

(** Two matches of one template are more than five columns apart. *)
Definition same_template_far (a b : KillfeedIconMatch) : Prop :=
  object_name a = object_name b -> far5 a b.

(** The matches of a list that carry a given name, and the templates of
    a library under a given name. *)
Definition matches_named (name : string) (l : list KillfeedIconMatch)
  : list KillfeedIconMatch :=
  filter (fun m => String.eqb (object_name m) name) l.

Definition templates_named (name : string) (items : list (string * Image))
  : list (string * Image) :=
  filter (fun item => String.eqb (fst item) name) items.

(** * Properties *)

(** Boolean comparisons of the code, turned into propositions for [lia]. *)
Ltac zbool :=
  repeat match goal with
  | H : (_ && _) = true |- _ => apply andb_true_iff in H; destruct H
  | H : (_ <? _) = true |- _ => apply Z.ltb_lt in H
  | H : (_ <? _) = false |- _ => apply Z.ltb_ge in H
  | H : (_ <=? _) = true |- _ => apply Z.leb_le in H
  | H : (_ <=? _) = false |- _ => apply Z.leb_gt in H
  | H : (_ =? _) = true |- _ => apply Z.eqb_eq in H
  | H : (_ =? _) = false |- _ => apply Z.eqb_neq in H
  end.

Ltac zlia := zbool; first [lia | exfalso; lia].

(** ** Sequences and loops *)

Lemma In_range (lo hi i : Z) : In i (range lo hi) <-> lo <= i < hi.
Proof.
  unfold range. rewrite in_map_iff. split.
  - intros (k & <- & Hk). apply in_seq in Hk. lia.
  - intros Hi. exists (Z.to_nat (i - lo)). split; [lia|].
    apply in_seq. lia.
Qed.

Lemma range_length (lo hi : Z) : length (range lo hi) = Z.to_nat (hi - lo).
Proof. unfold range. now rewrite length_map, length_seq. Qed.

Lemma mapM_length {A B : Type} (f : A -> Result B) (l : list A) (r : list B) :
  mapM f l = Ok r -> length r = length l.
Proof.
  revert r. induction l as [|a l IH]; intros r; simpl.
  - now intros [= <-].
  - destruct (f a) as [b|e]; simpl; [|discriminate].
    destruct (mapM f l) as [bs|e]; simpl; [|discriminate].
    intros [= <-]. simpl. now rewrite (IH bs).
Qed.

Lemma mapM_total {A B : Type} (f : A -> Result B) (l : list A) :
  (forall a, In a l -> exists b, f a = Ok b) -> exists r, mapM f l = Ok r.
Proof.
  induction l as [|a l IH]; intros Hf; simpl.
  - now exists [].
  - destruct (Hf a) as [b Hb]; [now left|].
    destruct IH as [bs Hbs]; [intros; apply Hf; now right|].
    exists (b :: bs). now rewrite Hb, Hbs.
Qed.

Lemma py_index_nonneg {A : Type} (l : list A) (i : Z) :
  0 <= i ->
  py_index l i = match nth_error l (Z.to_nat i) with
                 | Some a => Ok a
                 | None => Raise IndexError
                 end.
Proof.
  intros Hi. unfold py_index.
  destruct (i <? 0) eqn:E; [lia|].
  destruct ((0 <=? i) && (i <? Z.of_nat (length l))) eqn:E2; [reflexivity|].
  destruct (nth_error l (Z.to_nat i)) eqn:E3; [|reflexivity].
  assert (Z.to_nat i < length l)%nat by (apply nth_error_Some; congruence).
  lia.
Qed.

Lemma py_index_neg {A : Type} (l : list A) (i : Z) :
  i < 0 -> py_index l i = if 0 <=? i + Z.of_nat (length l)
                          then py_index l (i + Z.of_nat (length l))
                          else Raise IndexError.
Proof.
  intros Hi. unfold py_index.
  destruct (i <? 0) eqn:E; [|lia].
  destruct (0 <=? i + Z.of_nat (length l)) eqn:E2; simpl.
  - destruct (i + Z.of_nat (length l) <? 0) eqn:E3; [lia|].
    now rewrite E2.
  - reflexivity.
Qed.

Lemma py_index_Ok_range {A : Type} (l : list A) (i : Z) (a : A) :
  py_index l i = Ok a -> - Z.of_nat (length l) <= i < Z.of_nat (length l).
Proof.
  unfold py_index. destruct (i <? 0) eqn:E.
  - destruct ((0 <=? i + Z.of_nat (length l))
              && (i + Z.of_nat (length l) <? Z.of_nat (length l))) eqn:E2;
      [|discriminate]. lia.
  - destruct ((0 <=? i) && (i <? Z.of_nat (length l))) eqn:E2;
      [|discriminate]. lia.
Qed.

Lemma py_index_In {A : Type} (l : list A) (i : Z) (a : A) :
  py_index l i = Ok a -> In a l.
Proof.
  unfold py_index.
  destruct ((0 <=? _) && _); [|discriminate].
  destruct (nth_error l _) eqn:E; [|discriminate].
  intros [= <-]. eapply nth_error_In; eauto.
Qed.

Lemma py_slice_length {A : Type} (l : list A) (lo hi : Z) :
  0 <= lo -> 0 <= hi ->
  length (py_slice l lo hi) =
  Z.to_nat (Z.min (Z.of_nat (length l)) hi - Z.min (Z.of_nat (length l)) lo).
Proof.
  intros Hlo Hhi. unfold py_slice, slice_bound.
  rewrite length_firstn, length_skipn.
  destruct (lo <? 0) eqn:E1; [lia|].
  destruct (hi <? 0) eqn:E2; lia.
Qed.

(** ** Edge validation *)

Lemma py_max_total (l : list Q) : l <> [] -> exists m, py_max l = Ok m.
Proof. destruct l; [congruence|]. intros _. simpl. eauto. Qed.

Lemma edge_valid_at_total (edge_sum : list Q) (tl tr : Q) (i : Z) :
  2 <= i -> i + 33 < Z.of_nat (length edge_sum) ->
  exists b, edge_valid_at edge_sum tl tr i = Ok b.
Proof.
  intros H2 Hlen. unfold edge_valid_at.
  destruct (py_max_total (py_slice edge_sum (i - 2) (i + 2))) as [ml ->].
  { intros E. apply (f_equal (@length Q)) in E.
    rewrite py_slice_length in E by lia. simpl in E. lia. }
  destruct (py_max_total (py_slice edge_sum (i + 33) (i + 37))) as [mr ->].
  { intros E. apply (f_equal (@length Q)) in E.
    rewrite py_slice_length in E by lia. simpl in E. lia. }
  simpl. destruct (Qle_bool tl ml); eauto.
Qed.

Lemma py_index_tail_repeat {A : Type} (l : list A) (v : A) (m : nat) (k : Z) :
  - Z.of_nat m <= k < 0 -> py_index (l ++ repeat v m) k = Ok v.
Proof.
  intros Hk. rewrite py_index_neg by lia.
  rewrite length_app, repeat_length.
  destruct (0 <=? _) eqn:E; [|zlia].
  rewrite py_index_nonneg by lia.
  rewrite nth_error_app2 by lia.
  rewrite nth_error_repeat; [reflexivity|lia].
Qed.

(** The shape of every mask that [_validate_edge] returns. *)
Lemma validate_edge_shape `{Externals} (self : KillfeedAnalyzer) (img : Image)
  (mask : list bool) :
  _validate_edge self img = Ok mask ->
  length mask = (2 + Z.to_nat (KILLFEED_MAX_WIDTH (fstruc self) - 40) + 6)%nat
  /\ py_index mask 0 = Ok false
  /\ py_index mask 1 = Ok false
  /\ (forall k, -6 <= k < 0 -> py_index mask k = Ok false)
  /\ (forall i, 0 <= i -> py_index mask i = Ok true ->
        2 <= i < KILLFEED_MAX_WIDTH (fstruc self) - 38).
Proof.
  unfold _validate_edge.
  destruct (ICON_CHARACTER_HEIGHT (icons self) =? 0); [discriminate|].
  destruct (mapM _ _) as [flags|e] eqn:E; cbn [bind]; [|discriminate].
  set (m := [false; false] ++ flags ++ repeat false 6).
  intros [= <-]. subst m.
  apply mapM_length in E. rewrite range_length in E.
  assert (Hlen : length ([false; false] ++ flags ++ repeat false 6)
                 = (2 + Z.to_nat (KILLFEED_MAX_WIDTH (fstruc self) - 40) + 6)%nat).
  { rewrite !length_app, repeat_length, E. simpl. lia. }
  split; [exact Hlen|].
  split; [now rewrite py_index_nonneg by lia|].
  split; [now rewrite py_index_nonneg by lia|]. split.
  - intros k Hk.
    apply (py_index_tail_repeat ([false; false] ++ flags) false 6 k Hk).
  - intros i Hpos Hi. pose proof (py_index_Ok_range _ _ _ Hi) as Hr.
    rewrite Hlen in Hr.
    rewrite py_index_nonneg in Hi by lia.
    assert (Hc : i < 2 \/ 2 <= i < 2 + Z.of_nat (length flags)
                 \/ 2 + Z.of_nat (length flags) <= i) by lia.
    destruct Hc as [Hc|[Hc|Hc]]; [|lia|].
    + rewrite nth_error_app1 in Hi by (simpl; lia).
      destruct (Z.to_nat i) as [|[|n]] eqn:En; simpl in Hi;
        try discriminate; zlia.
    + rewrite nth_error_app2 in Hi by (simpl; lia).
      rewrite nth_error_app2 in Hi by (simpl; lia).
      destruct (nth_error (repeat false 6) _) eqn:E6; [|discriminate].
      apply nth_error_In, repeat_spec in E6. congruence.
Qed.

(** C1, as amended: whenever the template height is not zero and the edge
    image is at least [KILLFEED_MAX_WIDTH - 5] pixels wide, [_validate_edge]
    returns a mask of [2 + max(0, KILLFEED_MAX_WIDTH - 40) + 6] entries,
    that is [KILLFEED_MAX_WIDTH - 32] entries for a row of 40 pixels or more
    (not [KILLFEED_MAX_WIDTH] entries); its entries 0 and 1 and its last six
    entries are false. *)
Theorem validate_edge_mask `{Externals} (self : KillfeedAnalyzer) (img : Image) :
  ICON_CHARACTER_HEIGHT (icons self) <> 0 ->
  KILLFEED_MAX_WIDTH (fstruc self) - 5
    <= Z.of_nat (gray_width (Canny img 100 200)) ->
  exists mask,
    _validate_edge self img = Ok mask
    /\ Z.of_nat (length mask)
       = 2 + Z.max 0 (KILLFEED_MAX_WIDTH (fstruc self) - 40) + 6
    /\ (40 <= KILLFEED_MAX_WIDTH (fstruc self) ->
        Z.of_nat (length mask) = KILLFEED_MAX_WIDTH (fstruc self) - 32)
    /\ py_index mask 0 = Ok false
    /\ py_index mask 1 = Ok false
    /\ (forall k, -6 <= k < 0 -> py_index mask k = Ok false).
Proof.
  intros Hh Hw.
  assert (Hok : exists mask, _validate_edge self img = Ok mask).
  { unfold _validate_edge.
    destruct (ICON_CHARACTER_HEIGHT (icons self) =? 0) eqn:E; [zlia|].
    match goal with
    | |- context [mapM ?f ?l] => destruct (mapM_total f l) as [flags ->]
    end.
    - intros i Hi. apply In_range in Hi.
      apply edge_valid_at_total; [lia|].
      unfold edge_span_sum. rewrite !length_map, length_seq. lia.
    - cbn [bind]. eauto. }
  destruct Hok as [mask Hmask]. exists mask.
  destruct (validate_edge_shape self img mask Hmask) as (Hl & H0 & H1 & H6 & _).
  repeat split; auto; lia.
Qed.

Lemma validate_edge_mask_witness :
  ICON_CHARACTER_HEIGHT (icons blank_row) <> 0
  /\ KILLFEED_MAX_WIDTH (fstruc blank_row) - 5
     <= Z.of_nat (gray_width (stub_Canny (killfeed_image blank_row) 100 200))
  /\ exists mask,
       @_validate_edge stub_cv blank_row (killfeed_image blank_row) = Ok mask
       /\ Z.of_nat (length mask) = 2 + Z.max 0 (100 - 40) + 6
       /\ (40 <= 100 -> Z.of_nat (length mask) = 100 - 32)
       /\ py_index mask 0 = Ok false
       /\ py_index mask 1 = Ok false
       /\ (forall k, -6 <= k < 0 -> py_index mask k = Ok false).
Proof.
  assert (Hh : ICON_CHARACTER_HEIGHT (icons blank_row) <> 0)
    by (simpl; lia).
  assert (Hw : KILLFEED_MAX_WIDTH (fstruc blank_row) - 5
               <= Z.of_nat (gray_width
                              (stub_Canny (killfeed_image blank_row) 100 200)))
    by (vm_compute; discriminate).
  split; [exact Hh|]. split; [exact Hw|].
  exact (@validate_edge_mask stub_cv blank_row (killfeed_image blank_row) Hh Hw).
Defined.

(** C1, as stated, fails: on a row of 100 pixels the mask has 68 entries. *)
Lemma validate_edge_mask_shorter_than_row :
  exists mask,
    @_validate_edge stub_cv blank_row (killfeed_image blank_row) = Ok mask
    /\ Z.of_nat (length mask) = 68
    /\ Z.of_nat (length mask) <> KILLFEED_MAX_WIDTH (fstruc blank_row).
Proof.
  eexists. split; [vm_compute; reflexivity|].
  split; [reflexivity|]. vm_compute. discriminate.
Qed.

(** ** Comparison of scores *)

Lemma Qlt_bool_true (a b : Q) : Qlt_bool a b = true <-> (a < b)%Q.
Proof.
  unfold Qlt_bool. rewrite negb_true_iff. split.
  - intros E. apply Qnot_le_lt. intros Hle.
    apply Qle_bool_iff in Hle. congruence.
  - intros Hlt. destruct (Qle_bool b a) eqn:E; [|reflexivity].
    apply Qle_bool_iff in E. exfalso. apply (Qlt_not_le _ _ Hlt E).
Qed.

Lemma Qlt_bool_false (a b : Q) : Qlt_bool a b = false <-> (b <= a)%Q.
Proof.
  unfold Qlt_bool. rewrite negb_false_iff. apply Qle_bool_iff.
Qed.

(** ** The three best matches *)

Lemma top3_step_three (a b c item : KillfeedIconMatch) :
  top3_step [a; b; c] item =
  Ok (if Qlt_bool (score a) (score item) then [item; a; b]
      else if Qlt_bool (score b) (score item) then [a; item; b]
      else if Qlt_bool (score c) (score item) then [a; b; item]
      else [a; b; c]).
Proof.
  unfold top3_step.
  change (py_index [a; b; c] 0) with (Ok a).
  change (py_index [a; b; c] 1) with (Ok b).
  change (py_index [a; b; c] 2) with (Ok c).
  cbn [bind].
  destruct (Qlt_bool (score a) (score item)); [reflexivity|].
  destruct (Qlt_bool (score b) (score item)); [reflexivity|].
  destruct (Qlt_bool (score c) (score item)); reflexivity.
Qed.

Lemma three_best_step (seen best : list KillfeedIconMatch)
  (item : KillfeedIconMatch) :
  three_best seen best ->
  exists best', top3_step best item = Ok best'
                /\ three_best (seen ++ [item]) best'.
Proof.
  intros (a & b & c & rest & -> & Hab & Hbc & Hperm & Hrest).
  rewrite top3_step_three. eexists. split; [reflexivity|].
  assert (Hp : Permutation ([no_match; no_match; no_match] ++ seen ++ [item])
                           (item :: a :: b :: c :: rest)).
  { rewrite app_assoc. etransitivity; [apply Permutation_app_comm|].
    simpl. apply perm_skip. exact Hperm. }
  destruct (Qlt_bool (score a) (score item)) eqn:Ea.
  - apply Qlt_bool_true in Ea.
    exists item, a, b, (c :: rest). repeat split; auto.
    + now apply Qlt_le_weak.
    + intros m [<-|Hm]; [exact Hbc|].
      eapply Qle_trans; [apply Hrest, Hm|exact Hbc].
  - apply Qlt_bool_false in Ea.
    destruct (Qlt_bool (score b) (score item)) eqn:Eb.
    + apply Qlt_bool_true in Eb.
      exists a, item, b, (c :: rest). repeat split; auto.
      * now apply Qlt_le_weak.
      * etransitivity; [exact Hp|]. apply perm_swap.
      * intros m [<-|Hm]; [exact Hbc|].
        eapply Qle_trans; [apply Hrest, Hm|exact Hbc].
    + apply Qlt_bool_false in Eb.
      destruct (Qlt_bool (score c) (score item)) eqn:Ec.
      * apply Qlt_bool_true in Ec.
        exists a, b, item, (c :: rest). repeat split; auto.
        -- etransitivity; [exact Hp|].
           etransitivity; [apply perm_swap|]. apply perm_skip, perm_swap.
        -- intros m [<-|Hm]; [now apply Qlt_le_weak|].
           eapply Qle_trans; [apply Hrest, Hm|now apply Qlt_le_weak].
      * apply Qlt_bool_false in Ec.
        exists a, b, c, (item :: rest). repeat split; auto.
        -- etransitivity; [exact Hp|].
           etransitivity; [apply perm_swap|].
           etransitivity; [apply perm_skip, perm_swap|].
           do 2 apply perm_skip. apply perm_swap.
        -- intros m [<-|Hm]; [exact Ec|]. now apply Hrest.
Qed.

Lemma three_best_scan (items seen best : list KillfeedIconMatch) :
  three_best seen best ->
  exists best', foldM top3_step items best = Ok best'
                /\ three_best (seen ++ items) best'.
Proof.
  revert seen best. induction items as [|item items IH]; intros seen best Hinv.
  - exists best. rewrite app_nil_r. now split.
  - destruct (three_best_step seen best item Hinv) as (best1 & E1 & Hinv1).
    destruct (IH _ _ Hinv1) as (best' & E' & Hinv').
    exists best'. simpl. rewrite E1. cbn [bind]. split; [exact E'|].
    now rewrite <- app_assoc in Hinv'.
Qed.

Lemma three_best_init : three_best [] [no_match; no_match; no_match].
Proof.
  exists no_match, no_match, no_match, []. repeat split.
  - apply Qle_refl.
  - apply Qle_refl.
  - now rewrite app_nil_r.
  - intros m [].
Qed.


Example top3_ties_keep_the_earlier :
  top3 [mkKillfeedIconMatch "a" (7 # 10) 1; mkKillfeedIconMatch "b" (7 # 10) 2;
        mkKillfeedIconMatch "c" (7 # 10) 3; mkKillfeedIconMatch "d" (7 # 10) 4;
        mkKillfeedIconMatch "e" (8 # 10) 5]
  = Ok [mkKillfeedIconMatch "e" (8 # 10) 5; mkKillfeedIconMatch "a" (7 # 10) 1;
        mkKillfeedIconMatch "b" (7 # 10) 2].
Proof. reflexivity. Qed.

(** ** Acceptance *)

(** [SCORE_THRESHOLD] is the binary64 number nearest to 6/10: a multiple
    of 2^-53 below 6/10 and less than half a unit in the last place away. *)
Lemma SCORE_THRESHOLD_nearest :
  (SCORE_THRESHOLD <= 6 # 10)%Q
  /\ ((6 # 10) - SCORE_THRESHOLD < 1 # 18014398509481984)%Q.
Proof. split; [discriminate|reflexivity]. Qed.

Lemma accept_scan (ev : list bool) (best acc matched : list KillfeedIconMatch) :
  foldM (accept_step ev) best acc = Ok matched ->
  forall item,
    In item matched <->
    In item acc
    \/ (In item best /\ (SCORE_THRESHOLD <= score item)%Q
        /\ py_index ev (x item) = Ok true).
Proof.
  revert acc. induction best as [|b best IH]; intros acc; simpl.
  - intros [= <-] item. split; [now left|]. now intros [?|([] & _)].
  - unfold accept_step at 1.
    destruct (Qlt_bool (score b) SCORE_THRESHOLD) eqn:Es; cbn [bind].
    + apply Qlt_bool_true in Es. intros E item. rewrite (IH _ E).
      split; intros [Hin|(Hin & Hs & He)]; auto.
      destruct Hin as [<-|Hin]; auto.
      exfalso. apply (Qlt_not_le _ _ Es Hs).
    + apply Qlt_bool_false in Es.
      destruct (py_index ev (x b)) as [e|err] eqn:Ee; cbn [bind];
        [|discriminate].
      intros E item. rewrite (IH _ E). destruct e; unfold py_append.
      * rewrite in_app_iff. simpl.
        split; [intros [[Hin|[<-|[]]]|(Hin & Hs & He)]
               |intros [Hin|([<-|Hin] & Hs & He)]]; auto 6.
      * split; [intros [Hin|(Hin & Hs & He)]
               |intros [Hin|([<-|Hin] & Hs & He)]]; auto 6.
        congruence.
Qed.

Lemma accept_total (ev : list bool) (best acc : list KillfeedIconMatch) :
  (forall item, In item best -> (SCORE_THRESHOLD <= score item)%Q ->
                exists b, py_index ev (x item) = Ok b) ->
  exists matched, foldM (accept_step ev) best acc = Ok matched.
Proof.
  revert acc. induction best as [|b best IH]; intros acc Hin; simpl.
  - eauto.
  - unfold accept_step at 1.
    destruct (Qlt_bool (score b) SCORE_THRESHOLD) eqn:Es; cbn [bind].
    + apply IH. intros; apply Hin; auto. now right.
    + apply Qlt_bool_false in Es.
      destruct (Hin b) as [e ->]; [now left|exact Es|]. cbn [bind].
      apply IH. intros; apply Hin; auto. now right.
Qed.

(** C3: when the column of every candidate that reaches the threshold is a
    column of the mask, the second loop of [get_killfeed] returns, and it
    accepts a candidate of the best matches if and only if its score is at
    least 0.6 and the mask is true at its column.  A candidate whose score
    is the float 0.6 is accepted where the mask is true; one whose score is
    the float 0.5999 is rejected. *)
Theorem accept_iff_threshold_and_edge (ev : list bool)
  (best : list KillfeedIconMatch) :
  (forall item, In item best -> (SCORE_THRESHOLD <= score item)%Q ->
                exists b, py_index ev (x item) = Ok b) ->
  (exists matched,
      accept ev best = Ok matched
      /\ forall item,
          In item matched <->
          In item best /\ (SCORE_THRESHOLD <= score item)%Q
          /\ py_index ev (x item) = Ok true)
  /\ (forall name col,
        py_index ev col = Ok true ->
        accept ev [mkKillfeedIconMatch name SCORE_THRESHOLD col]
        = Ok [mkKillfeedIconMatch name SCORE_THRESHOLD col]
        /\ accept ev [mkKillfeedIconMatch name SCORE_0_5999 col] = Ok []).
Proof.
  intros Hcols. split.
  - destruct (accept_total ev best [] Hcols) as [matched E].
    exists matched. split; [exact E|].
    intros item. rewrite (accept_scan ev best [] matched E item).
    simpl. tauto.
  - intros name col Hcol. unfold accept, accept_step. simpl.
    change (Qlt_bool SCORE_THRESHOLD SCORE_THRESHOLD) with false.
    change (Qlt_bool SCORE_0_5999 SCORE_THRESHOLD) with true.
    rewrite Hcol. now split.
Qed.

Lemma accept_iff_threshold_and_edge_witness :
  (forall item, In item three_candidates ->
                (SCORE_THRESHOLD <= score item)%Q ->
                exists b, py_index mask_at_4 (x item) = Ok b)
  /\ (exists matched,
        accept mask_at_4 three_candidates = Ok matched
        /\ forall item,
            In item matched <->
            In item three_candidates /\ (SCORE_THRESHOLD <= score item)%Q
            /\ py_index mask_at_4 (x item) = Ok true)
  /\ (forall name col,
        py_index mask_at_4 col = Ok true ->
        accept mask_at_4 [mkKillfeedIconMatch name SCORE_THRESHOLD col]
        = Ok [mkKillfeedIconMatch name SCORE_THRESHOLD col]
        /\ accept mask_at_4 [mkKillfeedIconMatch name SCORE_0_5999 col]
           = Ok []).
Proof.
  assert (Hcols : forall item, In item three_candidates ->
                    (SCORE_THRESHOLD <= score item)%Q ->
                    exists b, py_index mask_at_4 (x item) = Ok b).
  { intros item [<-|[<-|[<-|[]]]] Hs.
    - exists true. reflexivity.
    - exists false. reflexivity.
    - exfalso. revert Hs. vm_compute. intros Hs. now apply Hs. }
  split; [exact Hcols|].
  exact (accept_iff_threshold_and_edge mask_at_4 three_candidates Hcols).
Defined.

Example accept_three_candidates :
  accept mask_at_4 three_candidates
  = Ok [mkKillfeedIconMatch "ana" (9 # 10) 4].
Proof. reflexivity. Qed.

(** ** Non-overlap suppression, sparse scorer *)

Lemma ForallOrdPairs_snoc {A : Type} (R : A -> A -> Prop) (l : list A) (b : A) :
  ForallOrdPairs R l -> Forall (fun a => R a b) l ->
  ForallOrdPairs R (l ++ [b]).
Proof.
  induction 1 as [|a l Ha Hl IH]; intros Hb; simpl.
  - constructor; constructor.
  - inversion Hb; subst. constructor.
    + apply Forall_app. split; [exact Ha|]. constructor; [assumption|constructor].
    + now apply IH.
Qed.

Lemma slice_bound_id (n i : Z) : 0 <= i <= n -> slice_bound n i = i.
Proof.
  intros Hi. unfold slice_bound.
  destruct (i <? 0) eqn:E; [zlia|]. lia.
Qed.

(** The array [firstn a l ++ repeat v (b - a) ++ skipn b l]: the array [l]
    with the cells from [a] to [b - 1] set to [v]. *)
Lemma fill_length {A : Type} (l : list A) (v : A) (a b : nat) :
  (a <= b <= length l)%nat ->
  length (firstn a l ++ repeat v (b - a) ++ skipn b l) = length l.
Proof.
  intros Hab.
  rewrite !length_app, repeat_length, length_firstn, length_skipn. lia.
Qed.

Lemma nth_error_fill {A : Type} (l : list A) (v : A) (a b k : nat) :
  (a <= b <= length l)%nat -> (k < length l)%nat ->
  nth_error (firstn a l ++ repeat v (b - a) ++ skipn b l) k
  = if (a <=? k)%nat && (k <? b)%nat then Some v else nth_error l k.
Proof.
  intros Hab Hk.
  destruct (Nat.leb_spec a k) as [Hak|Hak]; simpl.
  - rewrite nth_error_app2 by (rewrite length_firstn; lia).
    rewrite length_firstn, Nat.min_l by lia.
    destruct (Nat.ltb_spec k b) as [Hkb|Hkb].
    + rewrite nth_error_app1 by (rewrite repeat_length; lia).
      apply nth_error_repeat. lia.
    + rewrite nth_error_app2 by (rewrite repeat_length; lia).
      rewrite repeat_length, nth_error_skipn. f_equal. lia.
  - rewrite nth_error_app1 by (rewrite length_firstn; lia).
    rewrite nth_error_firstn.
    destruct (Nat.ltb_spec k a); [reflexivity|lia].
Qed.

(** The mask after [mask[lo:hi] = [True] * (hi - lo)], for the bounds of
    the suppression loop. *)
Lemma mask_window (mask : list bool) (col : Z) :
  0 <= col < Z.of_nat (length mask) ->
  exists a b : nat,
    py_slice_assign mask (Z.max 0 (col - 5))
      (Z.min (Z.of_nat (length mask)) (col + 5))
      (py_repeat true (Z.min (Z.of_nat (length mask)) (col + 5)
                       - Z.max 0 (col - 5)))
    = firstn a mask ++ repeat true (b - a) ++ skipn b mask
    /\ (a <= b <= length mask)%nat
    /\ Z.of_nat a = Z.max 0 (col - 5)
    /\ Z.of_nat b = Z.min (Z.of_nat (length mask)) (col + 5).
Proof.
  intros Hc.
  set (lo := Z.max 0 (col - 5)).
  set (hi := Z.min (Z.of_nat (length mask)) (col + 5)).
  assert (Hlo : 0 <= lo <= hi) by (subst lo hi; lia).
  assert (Hhi : hi <= Z.of_nat (length mask)) by (subst hi; lia).
  clearbody lo hi.
  exists (Z.to_nat lo), (Z.to_nat hi).
  unfold py_slice_assign, py_repeat.
  rewrite (slice_bound_id _ lo) by lia.
  rewrite (slice_bound_id _ hi) by lia.
  rewrite Z.max_r by lia.
  replace (Z.to_nat (hi - lo)) with (Z.to_nat hi - Z.to_nat lo)%nat by lia.
  split; [reflexivity|]. lia.
Qed.

Lemma mask_window_length (mask : list bool) (col : Z) :
  0 <= col < Z.of_nat (length mask) ->
  length (py_slice_assign mask (Z.max 0 (col - 5))
            (Z.min (Z.of_nat (length mask)) (col + 5))
            (py_repeat true (Z.min (Z.of_nat (length mask)) (col + 5)
                             - Z.max 0 (col - 5))))
  = length mask.
Proof.
  intros Hc. destruct (mask_window mask col Hc) as (a & b & -> & Hab & _).
  now apply fill_length.
Qed.

Lemma mask_window_nth (mask : list bool) (col c : Z) :
  0 <= col < Z.of_nat (length mask) -> 0 <= c < Z.of_nat (length mask) ->
  nth_error (py_slice_assign mask (Z.max 0 (col - 5))
               (Z.min (Z.of_nat (length mask)) (col + 5))
               (py_repeat true (Z.min (Z.of_nat (length mask)) (col + 5)
                                - Z.max 0 (col - 5))))
            (Z.to_nat c)
  = if (col - 5 <=? c) && (c <? col + 5) then Some true
    else nth_error mask (Z.to_nat c).
Proof.
  intros Hcol Hc.
  destruct (mask_window mask col Hcol) as (a & b & -> & Hab & Ha & Hb).
  rewrite nth_error_fill by lia.
  assert (Ea : (a <=? Z.to_nat c)%nat = (col - 5 <=? c)).
  { destruct (Nat.leb_spec a (Z.to_nat c)), (Z.leb_spec (col - 5) c);
      try reflexivity; lia. }
  assert (Eb : (Z.to_nat c <? b)%nat && (col - 5 <=? c)
               = (c <? col + 5) && (col - 5 <=? c)).
  { destruct (Nat.ltb_spec (Z.to_nat c) b), (Z.ltb_spec c (col + 5)),
      (Z.leb_spec (col - 5) c); try reflexivity; lia. }
  rewrite Ea, andb_comm, Eb, andb_comm. reflexivity.
Qed.

Lemma suppress_step_inv (n : nat) (st : list bool * list KillfeedIconMatch)
  (m : KillfeedIconMatch) :
  suppress_inv n st -> 0 <= x m < Z.of_nat n ->
  exists st',
    suppress_step st m = Ok st'
    /\ suppress_inv n st'
    /\ ((snd st' = snd st
         /\ exists a, In a (snd st) /\ x a - 5 <= x m < x a + 5)
        \/ snd st' = snd st ++ [m]).
Proof.
  destruct st as [mask acc]. unfold suppress_inv. simpl.
  intros (Hlen & Hcov & Hback & Hsp) Hm. subst n.
  rewrite py_index_nonneg by lia.
  destruct (nth_error mask (Z.to_nat (x m))) as [covered|] eqn:E.
  2:{ apply nth_error_None in E. lia. }
  cbn [bind]. destruct covered.
  - exists (mask, acc). simpl. repeat split; auto.
    left. split; [reflexivity|]. apply Hback; [lia|exact E].
  - eexists. split; [reflexivity|]. simpl.
    pose proof (mask_window_length mask (x m) Hm) as Hl.
    split; [|now right].
    split; [exact Hl|]. split; [|split].
    + apply Forall_app. split.
      * rewrite Forall_forall in *. intros a Ha c Hc0 Hwin Hc.
        rewrite Hl in Hc. rewrite mask_window_nth by lia.
        destruct ((x m - 5 <=? c) && (c <? x m + 5)); [reflexivity|].
        now apply (Hcov a Ha).
      * constructor; [|constructor]. intros c Hc0 Hwin Hc.
        rewrite Hl in Hc. rewrite mask_window_nth by lia.
        destruct ((x m - 5 <=? c) && (c <? x m + 5)) eqn:Ew;
          [reflexivity|].
        apply andb_false_iff in Ew. destruct Ew; zlia.
    + intros c Hc0 Hc.
      assert (Hcn : c < Z.of_nat (length mask)).
      { assert (Hs : (Z.to_nat c < length mask)%nat); [|lia].
        rewrite <- Hl. apply nth_error_Some. congruence. }
      rewrite mask_window_nth in Hc by lia.
      destruct ((x m - 5 <=? c) && (c <? x m + 5)) eqn:Ew.
      * exists m. split; [apply in_app_iff; right; now left|zlia].
      * destruct (Hback c Hc0 Hc) as (a & Ha & Hwin).
        exists a. split; [apply in_app_iff; now left|exact Hwin].
    + apply ForallOrdPairs_snoc; [exact Hsp|].
      rewrite Forall_forall in *. intros a Ha. unfold apart5.
      assert (Hn : ~ (x a - 5 <= x m < x a + 5)).
      { intros Hwin. rewrite (Hcov a Ha (x m)) in E by lia. discriminate. }
      lia.
Qed.

Lemma suppress_scan_inv (n : nat) (raw : list KillfeedIconMatch)
  (st : list bool * list KillfeedIconMatch) :
  suppress_inv n st ->
  Forall (fun m => 0 <= x m < Z.of_nat n) raw ->
  exists st',
    foldM suppress_step raw st = Ok st'
    /\ suppress_inv n st'
    /\ (forall m, In m (snd st') -> In m (snd st) \/ In m raw)
    /\ (forall m, In m raw ->
          In m (snd st')
          \/ exists a, In a (snd st') /\ x a - 5 <= x m < x a + 5).
Proof.
  revert st. induction raw as [|m raw IH]; intros st Hinv Hraw; simpl.
  - exists st. split; [reflexivity|]. split; [exact Hinv|].
    split; [now left|]. intros m [].
  - inversion Hraw as [|? ? Hm Hraw']; subst.
    destruct (suppress_step_inv n st m Hinv Hm) as (st1 & E1 & Hinv1 & Hst1).
    destruct (IH st1 Hinv1 Hraw') as (st' & E' & Hinv' & Hsub & Hcomp).
    exists st'. rewrite E1. cbn [bind]. split; [exact E'|].
    split; [exact Hinv'|].
    assert (Hmono : forall a, In a (snd st1) -> In a (snd st')).
    { clear - E'. revert st1 E'. induction raw as [|r raw IHr]; intros st1 E' a Ha.
      - simpl in E'. revert E'; intros [= <-]. exact Ha.
      - simpl in E'. destruct (suppress_step st1 r) as [st2|] eqn:E2;
          cbn [bind] in E'; [|discriminate].
        apply (IHr st2 E'). unfold suppress_step in E2.
        destruct st1 as [mask acc].
        destruct (py_index mask (x r)) as [[|]|]; cbn [bind] in E2;
          try discriminate; revert E2; intros [= <-]; simpl in *; auto.
        apply in_app_iff. now left. }
    split.
    + intros a Ha. destruct (Hsub a Ha) as [H1|H1]; [|right; now right].
      destruct Hst1 as [[Heq _] | Heq]; rewrite Heq in H1; [now left|].
      apply in_app_iff in H1. destruct H1 as [H1|[<-|[]]];
        [now left|right; now left].
    + intros a [<-|Ha]; [|now apply Hcomp].
      destruct Hst1 as [(Heq & b & Hb & Hwin)|Heq].
      * right. exists b. split; [apply Hmono; now rewrite Heq|exact Hwin].
      * left. apply Hmono. rewrite Heq. apply in_app_iff. right. now left.
Qed.

Lemma suppress_inv_init (n : nat) : suppress_inv n (repeat false n, []).
Proof.
  unfold suppress_inv. simpl. rewrite repeat_length.
  repeat split; auto; try constructor.
  intros c Hc E. apply nth_error_In, repeat_spec in E. discriminate.
Qed.

(** The suppression loop on candidates that are columns of the mask. *)
Lemma suppress_spec (n : nat) (raw : list KillfeedIconMatch) :
  Forall (fun m => 0 <= x m < Z.of_nat n) raw ->
  exists res,
    suppress n raw = Ok res
    /\ ForallOrdPairs apart5 res
    /\ (forall m, In m res -> In m raw)
    /\ (forall m, In m raw ->
          In m res \/ exists a, In a res /\ x a - 5 <= x m < x a + 5).
Proof.
  intros Hraw.
  destruct (suppress_scan_inv n raw _ (suppress_inv_init n) Hraw)
    as (st' & E & (_ & _ & _ & Hsp) & Hsub & Hcomp).
  exists (snd st'). unfold suppress. rewrite E. cbn [bind].
  repeat split; auto.
  intros m Hm. destruct (Hsub m Hm) as [[]|H]; exact H.
Qed.

Lemma insert_desc_In (m a : KillfeedIconMatch) (l : list KillfeedIconMatch) :
  In a (insert_desc m l) <-> a = m \/ In a l.
Proof.
  induction l as [|y l IH]; simpl.
  - intuition congruence.
  - destruct (Qlt_bool (score m) (score y)); simpl; rewrite ?IH;
      intuition congruence.
Qed.

Lemma sort_by_score_desc_In (a : KillfeedIconMatch)
  (l : list KillfeedIconMatch) :
  In a (sort_by_score_desc l) <-> In a l.
Proof.
  induction l as [|m l IH]; simpl; [tauto|].
  rewrite insert_desc_In, IH. intuition congruence.
Qed.

Lemma discrete_raw_columns `{Externals} (self : KillfeedAnalyzer)
  (img : Image) (ev : list bool) (P : Z -> Prop)
  (cols : list Z) (acc raw : list KillfeedIconMatch) :
  Forall P cols -> Forall (fun m => P (x m)) acc ->
  foldM (discrete_step self img ev) cols acc = Ok raw ->
  Forall (fun m => P (x m)) raw.
Proof.
  revert acc. induction cols as [|c cols IH]; intros acc Hcols Hacc; simpl.
  - now intros [= <-].
  - inversion Hcols; subst.
    destruct (discrete_step self img ev acc c) as [acc1|] eqn:E;
      cbn [bind]; [|discriminate].
    apply IH; auto. unfold discrete_step in E.
    destruct (py_index ev c) as [e|]; cbn [bind] in E; [|discriminate].
    destruct (negb e); [revert E; intros [= <-]; exact Hacc|].
    destruct (foldM _ _ _) as [[bn bs]|]; cbn [bind] in E; [|discriminate].
    revert E; intros [= <-]. apply Forall_app. split; [exact Hacc|].
    constructor; [assumption|constructor].
Qed.

(** The matches of the sparse scorer are at least five columns apart. *)
Lemma discrete_apart `{Externals} (self : KillfeedAnalyzer) (img : Image)
  (ev : list bool) (res : list KillfeedIconMatch) :
  _get_icons_weights_discrete self img ev = Ok res ->
  ForallOrdPairs apart5 res.
Proof.
  unfold _get_icons_weights_discrete.
  destruct (foldM _ _ _) as [raw|] eqn:E; cbn [bind]; [|discriminate].
  apply (discrete_raw_columns self img ev
           (fun c => 0 <= c < Z.of_nat (length ev))) in E.
  - intros Hs.
    destruct (suppress_spec (length ev) (sort_by_score_desc raw))
      as (res' & E' & Hsp & _).
    + rewrite Forall_forall in *. intros m Hm.
      apply E. now apply sort_by_score_desc_In.
    + congruence.
  - apply Forall_forall. intros c Hc. apply In_range in Hc. lia.
  - constructor.
Qed.

(** ** Non-overlap suppression, dense scorer *)

Lemma ForallOrdPairs_app {A : Type} (R : A -> A -> Prop) (l1 l2 : list A) :
  ForallOrdPairs R l1 -> ForallOrdPairs R l2 ->
  (forall a b, In a l1 -> In b l2 -> R a b) ->
  ForallOrdPairs R (l1 ++ l2).
Proof.
  induction 1 as [|a l Ha Hl IH]; intros H2 Hx; simpl; [exact H2|].
  constructor.
  - apply Forall_app. split; [exact Ha|].
    apply Forall_forall. intros b Hb. apply Hx; [now left|exact Hb].
  - apply IH; [exact H2|]. intros; apply Hx; [now right|assumption].
Qed.

Lemma np_slice_assign_repeat {A : Type} (l l' : list A) (lo hi c : Z) (v : A) :
  0 <= lo -> 0 <= hi ->
  np_slice_assign l lo hi (py_repeat v c) = Ok l' ->
  length l' = length l
  /\ forall k : nat,
       (k < length l)%nat ->
       nth_error l' k
       = if (lo <=? Z.of_nat k) && (Z.of_nat k <? hi) then Some v
         else nth_error l k.
Proof.
  intros Hlo Hhi. unfold np_slice_assign, py_repeat.
  set (a := slice_bound (Z.of_nat (length l)) lo).
  set (b := Z.max a (slice_bound (Z.of_nat (length l)) hi)).
  assert (Ha : a = Z.min (Z.of_nat (length l)) lo).
  { subst a. unfold slice_bound. destruct (lo <? 0) eqn:E; [zlia|]. lia. }
  assert (Hb : b = Z.max a (Z.min (Z.of_nat (length l)) hi)).
  { subst b. unfold slice_bound. destruct (hi <? 0) eqn:E; [zlia|]. lia. }
  clearbody a b.
  intros E.
  assert (El : l' = firstn (Z.to_nat a) l
                    ++ repeat v (Z.to_nat b - Z.to_nat a)
                    ++ skipn (Z.to_nat b) l).
  { replace (Z.to_nat b - Z.to_nat a)%nat with (Z.to_nat (b - a)) by lia.
    destruct (Z.to_nat c) as [|[|m]] eqn:Ec; simpl in E.
    - destruct (Z.to_nat (b - a)) eqn:Ek; simpl in E; [|discriminate].
      now revert E; intros [= <-].
    - now revert E; intros [= <-].
    - destruct (Z.to_nat (b - a)) as [|[|k]] eqn:Ek; simpl in E;
        try discriminate.
      destruct (Nat.eqb_spec (length (repeat v m)) k) as [Hm|]; [|discriminate].
      revert E; intros [= <-]. rewrite repeat_length in Hm. subst k.
      reflexivity. }
  subst l'.
  assert (Hab : (Z.to_nat a <= Z.to_nat b <= length l)%nat) by lia.
  split; [now apply fill_length|].
  intros k Hk. rewrite nth_error_fill by lia.
  assert (Ea : (Z.to_nat a <=? k)%nat && (k <? Z.to_nat b)%nat
               = (lo <=? Z.of_nat k) && (Z.of_nat k <? hi)).
  { destruct (Nat.leb_spec (Z.to_nat a) k), (Nat.ltb_spec k (Z.to_nat b)),
      (Z.leb_spec lo (Z.of_nat k)), (Z.ltb_spec (Z.of_nat k) hi);
      try reflexivity; lia. }
  now rewrite Ea.
Qed.

(** [argmax_from] on the rest [l] of an array whose scanned part is [pre]:
    the value found is in the array, at the column found, and every value
    before that column is strictly smaller. *)
Lemma argmax_from_first (l pre : list Q) (best : Q) (bi : nat) :
  nth_error pre bi = Some best ->
  (forall k u, nth_error pre k = Some u -> (u <= best)%Q) ->
  (forall k u, (k < bi)%nat -> nth_error pre k = Some u -> (u < best)%Q) ->
  exists j : nat,
    snd (argmax_from l (Z.of_nat (length pre)) best (Z.of_nat bi)) = Z.of_nat j
    /\ nth_error (pre ++ l) j
       = Some (fst (argmax_from l (Z.of_nat (length pre)) best (Z.of_nat bi)))
    /\ forall k u, (k < j)%nat -> nth_error (pre ++ l) k = Some u ->
         (u < fst (argmax_from l (Z.of_nat (length pre)) best (Z.of_nat bi)))%Q.
Proof.
  revert pre best bi. induction l as [|v l IH]; intros pre best bi Hb Hmax Hfirst.
  - simpl. exists bi. rewrite app_nil_r. auto.
  - simpl.
    assert (Hbi : (bi < length pre)%nat) by (apply nth_error_Some; congruence).
    replace (Z.of_nat (length pre) + 1) with (Z.of_nat (length (pre ++ [v])))
      by (rewrite length_app; simpl; lia).
    replace (pre ++ v :: l) with ((pre ++ [v]) ++ l)
      by (now rewrite <- app_assoc).
    destruct (Qlt_bool best v) eqn:E.
    + apply Qlt_bool_true in E. apply IH.
      * rewrite nth_error_app2 by lia. now rewrite Nat.sub_diag.
      * intros k u Hk. destruct (Nat.lt_ge_cases k (length pre)) as [Hlt|Hge].
        -- rewrite nth_error_app1 in Hk by lia.
           apply Qlt_le_weak. eapply Qle_lt_trans; [eapply Hmax; eauto|exact E].
        -- rewrite nth_error_app2 in Hk by lia.
           destruct (k - length pre)%nat as [|k'] eqn:Ek; simpl in Hk.
           ++ revert Hk; intros [= <-]. apply Qle_refl.
           ++ destruct k'; discriminate.
      * intros k u Hlt Hk. rewrite nth_error_app1 in Hk by lia.
        eapply Qle_lt_trans; [eapply Hmax; eauto|exact E].
    + apply Qlt_bool_false in E. apply IH.
      * rewrite nth_error_app1 by lia. exact Hb.
      * intros k u Hk. destruct (Nat.lt_ge_cases k (length pre)) as [Hlt|Hge].
        -- rewrite nth_error_app1 in Hk by lia. eapply Hmax; eauto.
        -- rewrite nth_error_app2 in Hk by lia.
           destruct (k - length pre)%nat as [|k'] eqn:Ek; simpl in Hk.
           ++ revert Hk; intros [= <-]. exact E.
           ++ destruct k'; discriminate.
      * intros k u Hlt Hk. rewrite nth_error_app1 in Hk by lia.
        eapply Hfirst; eauto.
Qed.

Lemma minMaxLoc_first (a : list Q) (v : Q) (loc : Z) :
  minMaxLoc a = Ok (v, loc) ->
  exists j : nat,
    loc = Z.of_nat j
    /\ nth_error a j = Some v
    /\ forall k u, (k < j)%nat -> nth_error a k = Some u -> (u < v)%Q.
Proof.
  destruct a as [|a0 l]; simpl; [discriminate|].
  intros [= E].
  destruct (argmax_from_first l [a0] a0 0) as (j & Hj & Hn & Hf).
  - reflexivity.
  - intros [|[|k]] u; simpl; try discriminate.
    intros [= <-]. apply Qle_refl.
  - intros k u Hk. lia.
  - simpl in *. rewrite E in *. simpl in *. exists j. auto.
Qed.

Lemma full_step_apart `{Externals} (self : KillfeedAnalyzer) (img : Image)
  (ev : list bool) (acc acc' : list KillfeedIconMatch)
  (name : string) (icon : Image) :
  (forall i, 0 <= i -> py_index ev i = Ok true ->
             2 <= i < KILLFEED_MAX_WIDTH (fstruc self) - 38) ->
  ICON_CHARACTER_WIDTH (icons self) <= 38 ->
  Forall (fun v => (-1 <= v)%Q) (matchTemplate img icon) ->
  full_step self img ev acc (name, icon) = Ok acc' ->
  exists new,
    acc' = acc ++ new
    /\ Forall (fun m => object_name m = name) new
    /\ ForallOrdPairs far5 new.
Proof.
  intros Hev Htw Hmin. unfold full_step.
  destruct (minMaxLoc (matchTemplate img icon)) as [[v1 x1]|] eqn:E1;
    cbn [bind]; [|discriminate].
  destruct (py_index ev x1) as [e1|] eqn:Ee1; cbn [bind]; [|discriminate].
  destruct (np_slice_assign _ _ _ _) as [a'|] eqn:Ea; cbn [bind];
    [|discriminate].
  destruct (minMaxLoc a') as [[v2 x2]|] eqn:E2; cbn [bind]; [|discriminate].
  destruct (py_index ev x2) as [e2|] eqn:Ee2; cbn [bind]; [|discriminate].
  intros [= <-].
  destruct e1, e2.
  2:{ exists [mkKillfeedIconMatch name v1 x1]. repeat constructor. }
  2:{ exists [mkKillfeedIconMatch name v2 x2]. repeat constructor. }
  2:{ exists []. rewrite app_nil_r. repeat constructor. }
  exists [mkKillfeedIconMatch name v1 x1; mkKillfeedIconMatch name v2 x2].
  split; [now rewrite <- app_assoc|]. split; [repeat constructor|].
  constructor; [|repeat constructor]. constructor; [|constructor].
  unfold far5. simpl.
  destruct (minMaxLoc_first _ _ _ E1) as (j1 & -> & Hn1 & _).
  destruct (minMaxLoc_first _ _ _ E2) as (j2 & -> & Hn2 & Hf2).
  assert (H2 : 2 <= Z.of_nat j2 < KILLFEED_MAX_WIDTH (fstruc self) - 38)
    by (apply Hev; [lia|exact Ee2]).
  destruct (Z_lt_le_dec 5 (Z.abs (Z.of_nat j1 - Z.of_nat j2))) as [Hfar|Hnear];
    [exact Hfar|exfalso].
  apply np_slice_assign_repeat in Ea; [|lia|lia].
  destruct Ea as [Hlen Hcells].
  assert (Hj2 : (j2 < length (matchTemplate img icon))%nat).
  { rewrite <- Hlen. apply nth_error_Some. congruence. }
  assert (Hv2 : v2 = (-1)%Q).
  { rewrite (Hcells j2 Hj2) in Hn2.
    destruct ((Z.max (Z.of_nat j1 - 5) 0 <=? Z.of_nat j2)
              && (Z.of_nat j2 <? Z.min (Z.of_nat j1 + 5 + 1)
                                       (KILLFEED_MAX_WIDTH (fstruc self)
                                        - ICON_CHARACTER_WIDTH (icons self))))
      eqn:Ew; [congruence|].
    apply andb_false_iff in Ew. destruct Ew; zlia. }
  subst v2.
  assert (H0 : (0 < length (matchTemplate img icon))%nat) by lia.
  destruct (nth_error a' 0) as [u|] eqn:Eu.
  2:{ apply nth_error_None in Eu. lia. }
  assert (Hu : (u < -1)%Q) by (apply (Hf2 0%nat); [lia|exact Eu]).
  rewrite (Hcells 0%nat H0) in Eu.
  destruct (_ && _) in Eu.
  - revert Eu; intros [= <-]. apply (Qlt_irrefl _ Hu).
  - rewrite Forall_forall in Hmin.
    apply (Qlt_not_le _ _ Hu). apply Hmin. eapply nth_error_In; eauto.
Qed.

Lemma full_scan_apart `{Externals} (self : KillfeedAnalyzer) (img : Image)
  (ev : list bool) (items : list (string * Image))
  (acc res : list KillfeedIconMatch) :
  (forall i, 0 <= i -> py_index ev i = Ok true ->
             2 <= i < KILLFEED_MAX_WIDTH (fstruc self) - 38) ->
  ICON_CHARACTER_WIDTH (icons self) <= 38 ->
  Forall (fun item => Forall (fun v => (-1 <= v)%Q) (matchTemplate img (snd item)))
         items ->
  NoDup (map fst items) ->
  (forall m, In m acc -> ~ In (object_name m) (map fst items)) ->
  ForallOrdPairs same_template_far acc ->
  foldM (full_step self img ev) items acc = Ok res ->
  ForallOrdPairs same_template_far res.
Proof.
  intros Hev Htw. revert acc.
  induction items as [|[name icon] items IH];
    intros acc Hmin Hnd Hnames Hacc; cbn [foldM].
  - now intros [= <-].
  - inversion Hmin as [|? ? Hmin1 Hmin']; subst.
    inversion Hnd as [|? ? Hnotin Hnd']; subst.
    destruct (full_step self img ev acc (name, icon)) as [acc1|] eqn:E;
      cbn [bind]; [|discriminate].
    destruct (full_step_apart self img ev acc acc1 name icon Hev Htw Hmin1 E)
      as (new & -> & Hnew & Hfar).
    rewrite Forall_forall in Hnew.
    apply IH; auto.
    + intros m Hm Hin. apply in_app_iff in Hm. destruct Hm as [Hm|Hm].
      * apply (Hnames m Hm). now right.
      * apply Hnotin. now rewrite <- (Hnew m Hm).
    + apply ForallOrdPairs_app; [exact Hacc| |].
      * clear - Hfar. induction Hfar as [|a l Ha Hl IHl]; constructor; auto.
        eapply Forall_impl; [|exact Ha]. intros b Hb _. exact Hb.
      * intros a b Ha Hb Hname. exfalso.
        apply (Hnames a Ha). left. simpl. rewrite Hname. symmetry.
        now apply Hnew.
Qed.

Lemma suppress_skips_near (n : nat) (pre : list KillfeedIconMatch)
  (st : list bool * list KillfeedIconMatch) (a m : KillfeedIconMatch) :
  Forall (fun c => 0 <= x c < Z.of_nat n) pre ->
  foldM suppress_step pre (repeat false n, []) = Ok st ->
  In a (snd st) ->
  0 <= x m < Z.of_nat n ->
  Z.abs (x m - x a) < 5 ->
  suppress_step st m = Ok st.
Proof.
  intros Hpre Hst Ha Hm Hnear.
  destruct (suppress_scan_inv n pre _ (suppress_inv_init n) Hpre)
    as (st' & E & (Hlen & Hcov & _ & _) & _ & _).
  assert (st' = st) by congruence. subst st'.
  destruct st as [mask acc]. simpl in *.
  rewrite py_index_nonneg by lia.
  rewrite Forall_forall in Hcov.
  rewrite (Hcov a Ha (x m)) by lia. reflexivity.
Qed.

(** C4, as amended.  In the sparse scorer, once a match at column x is
    accepted, every later candidate fewer than five columns away from x is
    suppressed, and any two matches that the scorer returns are at least
    five columns apart.  In the dense scorer, on a mask computed by
    [_validate_edge], with templates no wider than 38 pixels and
    correlation values no smaller than the sentinel -1, the matches
    recorded for one template are more than five columns apart. *)
Theorem suppression_keeps_matches_apart `{Externals} (self : KillfeedAnalyzer)
  (img : Image) (ev : list bool) :
  (forall (n : nat) (pre : list KillfeedIconMatch)
          (st : list bool * list KillfeedIconMatch) (a m : KillfeedIconMatch),
      Forall (fun c => 0 <= x c < Z.of_nat n) pre ->
      foldM suppress_step pre (repeat false n, []) = Ok st ->
      In a (snd st) ->
      0 <= x m < Z.of_nat n ->
      Z.abs (x m - x a) < 5 ->
      suppress_step st m = Ok st)
  /\ (forall res, _get_icons_weights_discrete self img ev = Ok res ->
                  ForallOrdPairs apart5 res)
  /\ (_validate_edge self img = Ok ev ->
      ICON_CHARACTER_WIDTH (icons self) <= 38 ->
      NoDup (map fst (ICONS_CHARACTER (icons self))) ->
      Forall (fun item =>
                Forall (fun v => (-1 <= v)%Q) (matchTemplate img (snd item)))
             (ICONS_CHARACTER (icons self)) ->
      forall res, _get_icons_weights_full self img ev = Ok res ->
                  ForallOrdPairs same_template_far res).
Proof.
  split; [exact suppress_skips_near|]. split.
  - intros res. apply discrete_apart.
  - intros Hev Htw Hnd Hmin res. unfold _get_icons_weights_full.
    destruct (validate_edge_shape self img ev Hev) as (_ & _ & _ & _ & Hcols).
    apply (full_scan_apart self img ev (ICONS_CHARACTER (icons self)) [] res
             Hcols Htw Hmin Hnd); [intros m []|constructor].
Qed.

Lemma suppression_keeps_matches_apart_witness :
  let self := analyzer ana_kills_genji stub_game in
  let ana := mkKillfeedIconMatch "ana" (9 # 10) 10 in
  let near := mkKillfeedIconMatch "genji" (8 # 10) 6 in
  exists ev,
    @_validate_edge stub_cv self (killfeed_image self) = Ok ev
    /\ ICON_CHARACTER_WIDTH (icons self) <= 38
    /\ NoDup (map fst (ICONS_CHARACTER (icons self)))
    /\ Forall (fun item =>
                 Forall (fun v => (-1 <= v)%Q)
                        (stub_matchTemplate (killfeed_image self) (snd item)))
              (ICONS_CHARACTER (icons self))
    /\ (exists st,
          foldM suppress_step [ana] (repeat false 20, []) = Ok st
          /\ In ana (snd st)
          /\ suppress_step st near = Ok st)
    /\ (forall res,
          @_get_icons_weights_discrete stub_cv self (killfeed_image self) ev
          = Ok res -> ForallOrdPairs apart5 res)
    /\ (forall res,
          @_get_icons_weights_full stub_cv self (killfeed_image self) ev
          = Ok res -> ForallOrdPairs same_template_far res).
Proof.
  intros self ana near.
  destruct (@_validate_edge stub_cv self (killfeed_image self)) as [ev|e] eqn:Hev;
    [|exfalso; revert Hev; vm_compute; discriminate].
  assert (Htw : ICON_CHARACTER_WIDTH (icons self) <= 38) by (simpl; lia).
  assert (Hnd : NoDup (map fst (ICONS_CHARACTER (icons self)))).
  { simpl. repeat constructor; simpl; intuition discriminate. }
  assert (Hmin : Forall (fun item =>
                   Forall (fun v => (-1 <= v)%Q)
                          (stub_matchTemplate (killfeed_image self) (snd item)))
                 (ICONS_CHARACTER (icons self))).
  { apply Forall_forall. intros item Hitem.
    apply Forall_forall. intros v Hv. apply Qle_bool_iff.
    assert (Hb : forallb (fun item =>
                   forallb (fun v => Qle_bool (-1) v)
                           (stub_matchTemplate (killfeed_image self) (snd item)))
                 (ICONS_CHARACTER (icons self)) = true)
      by (vm_compute; reflexivity).
    rewrite forallb_forall in Hb. specialize (Hb item Hitem).
    rewrite forallb_forall in Hb. exact (Hb v Hv). }
  destruct (@suppression_keeps_matches_apart stub_cv self (killfeed_image self)
              ev) as (Hnear & Hsparse & Hdense).
  exists ev. split; [reflexivity|]. split; [exact Htw|].
  split; [exact Hnd|]. split; [exact Hmin|]. split; [|split].
  - destruct (foldM suppress_step [ana] (repeat false 20, [])) as [st|e]
      eqn:Hst; [|exfalso; revert Hst; vm_compute; discriminate].
    assert (Hin : In ana (snd st)).
    { assert (Hst' := Hst). vm_compute in Hst'. revert Hst'. intros [= <-].
      now left. }
    exists st. split; [reflexivity|]. split; [exact Hin|].
    apply (Hnear 20%nat [ana] st ana near).
    + repeat constructor; simpl; lia.
    + exact Hst.
    + exact Hin.
    + simpl. lia.
    + simpl. lia.
  - exact Hsparse.
  - exact (Hdense Hev Htw Hnd Hmin).
Defined.

(** C4, as stated, fails.  In the sparse scorer a match at column 4 does
    not suppress a later candidate at column 9, five columns away; in the
    dense scorer the best columns of two templates, 50 and 52, are both
    recorded. *)
Lemma suppression_leaves_matches_within_five :
  suppress 20 [mkKillfeedIconMatch "ana" (9 # 10) 4;
               mkKillfeedIconMatch "genji" (8 # 10) 9]
  = Ok [mkKillfeedIconMatch "ana" (9 # 10) 4;
        mkKillfeedIconMatch "genji" (8 # 10) 9]
  /\ Z.abs (4 - 9) <= 5
  /\ (let self := analyzer two_columns_apart stub_game in
      exists ev a b,
        @_validate_edge stub_cv self (killfeed_image self) = Ok ev
        /\ @_get_icons_weights stub_cv self (killfeed_image self) ev
           = Ok [a; b]
        /\ @matched_icons stub_cv self = Ok (ev, [a; b])
        /\ x a = 50 /\ x b = 52 /\ Z.abs (x a - x b) <= 5).
Proof.
  split; [reflexivity|]. split; [vm_compute; discriminate|].
  intros self.
  destruct (@_validate_edge stub_cv self (killfeed_image self)) as [ev|e] eqn:Hev;
    [|exfalso; revert Hev; vm_compute; discriminate].
  exists ev. do 2 eexists.
  split; [reflexivity|].
  revert Hev. vm_compute. intros [= <-].
  repeat split; discriminate.
Qed.

(** ** The matches accepted by [get_killfeed] *)

Lemma full_scan_columns `{Externals} (self : KillfeedAnalyzer) (img : Image)
  (ev : list bool) (items : list (string * Image))
  (acc res : list KillfeedIconMatch) :
  Forall (fun m => 0 <= x m) acc ->
  foldM (full_step self img ev) items acc = Ok res ->
  Forall (fun m => 0 <= x m) res.
Proof.
  revert acc. induction items as [|[name icon] items IH]; intros acc Hacc;
    cbn [foldM].
  - now intros [= <-].
  - destruct (full_step self img ev acc (name, icon)) as [acc1|] eqn:E;
      cbn [bind]; [|discriminate].
    apply IH. unfold full_step in E.
    destruct (minMaxLoc (matchTemplate img icon)) as [[v1 x1]|] eqn:E1;
      cbn [bind] in E; [|discriminate].
    destruct (py_index ev x1) as [e1|]; cbn [bind] in E; [|discriminate].
    destruct (np_slice_assign _ _ _ _) as [a'|]; cbn [bind] in E;
      [|discriminate].
    destruct (minMaxLoc a') as [[v2 x2]|] eqn:E2; cbn [bind] in E;
      [|discriminate].
    destruct (py_index ev x2) as [e2|]; cbn [bind] in E; [|discriminate].
    destruct (minMaxLoc_first _ _ _ E1) as (j1 & -> & _).
    destruct (minMaxLoc_first _ _ _ E2) as (j2 & -> & _).
    revert E; intros [= <-].
    destruct e1, e2; repeat (apply Forall_app; split); auto;
      constructor; simpl; try lia; constructor.
Qed.

Lemma weights_columns `{Externals} (self : KillfeedAnalyzer) (img : Image)
  (ev : list bool) (ws : list KillfeedIconMatch) :
  _get_icons_weights self img ev = Ok ws -> Forall (fun m => 0 <= x m) ws.
Proof.
  unfold _get_icons_weights. destruct (count_true ev <=? 7).
  - unfold _get_icons_weights_discrete.
    destruct (foldM _ _ _) as [raw|] eqn:E; cbn [bind]; [|discriminate].
    apply (discrete_raw_columns self img ev
             (fun c => 0 <= c < Z.of_nat (length ev))) in E.
    + intros Hs.
      destruct (suppress_spec (length ev) (sort_by_score_desc raw))
        as (res' & E' & _ & Hsub & _).
      * rewrite Forall_forall in *. intros m Hm.
        apply E. now apply sort_by_score_desc_In.
      * assert (res' = ws) by congruence. subst res'.
        rewrite Forall_forall in *. intros m Hm.
        apply Hsub, sort_by_score_desc_In, E in Hm. lia.
    + apply Forall_forall. intros c Hc. apply In_range in Hc. lia.
    + constructor.
  - unfold _get_icons_weights_full. apply full_scan_columns. constructor.
Qed.

Lemma top3_In (ws best : list KillfeedIconMatch) :
  top3 ws = Ok best -> forall m, In m best -> m = no_match \/ In m ws.
Proof.
  intros E m Hm.
  destruct (three_best_scan ws [] _ three_best_init)
    as (best' & E' & a & b & c & rest & -> & _ & _ & Hperm & _).
  unfold top3 in E. assert (best = [a; b; c]) by congruence. subst best.
  assert (Hin : In m ([no_match; no_match; no_match] ++ ws)).
  { eapply Permutation_in; [symmetry; exact Hperm|].
    apply in_app_iff. now left. }
  simpl in Hin. intuition.
Qed.


(** ** Team of an icon *)

Lemma get_icon_team_sampled `{Externals} (self : KillfeedAnalyzer)
  (icon : KillfeedIconMatch) (position col : Z) (row : list Color) (px : Color) :
  sample_column self icon position = Ok col ->
  py_index (killfeed_image self) 0 = Ok row ->
  py_index row col = Ok px ->
  _get_icon_team self icon position
  = Ok (if Qle_bool (color_distance px (color_team1 (game (frame_analyzer self))))
                    (color_distance px (color_team2 (game (frame_analyzer self))))
        then name_team1 (game (frame_analyzer self))
        else name_team2 (game (frame_analyzer self))).
Proof.
  intros Hc Hr Hp. unfold _get_icon_team. rewrite Hc. cbn [bind].
  rewrite Hr. cbn [bind]. rewrite Hp. cbn [bind].
  now destruct (Qle_bool _ _).
Qed.

(** C8: an icon is classified from one pixel of the first line of the row,
    at column [x - 5] for the left position and [x + ICON_CHARACTER_WIDTH
    + 5] for the right position; the team is the one whose colour is at
    the smaller distance from that pixel, and team one on equal
    distances. *)
Theorem icon_team_is_nearest_colour `{Externals} (self : KillfeedAnalyzer)
  (icon : KillfeedIconMatch) (position : Z) (row : list Color) (px : Color) :
  position = LEFT \/ position = RIGHT ->
  py_index (killfeed_image self) 0 = Ok row ->
  py_index row (if position =? LEFT then x icon - 5
                else x icon + ICON_CHARACTER_WIDTH (icons self) + 5) = Ok px ->
  let g := game (frame_analyzer self) in
  let d1 := color_distance px (color_team1 g) in
  let d2 := color_distance px (color_team2 g) in
  sample_column self icon position
  = Ok (if position =? LEFT then x icon - 5
        else x icon + ICON_CHARACTER_WIDTH (icons self) + 5)
  /\ ((d1 < d2)%Q -> _get_icon_team self icon position = Ok (name_team1 g))
  /\ ((d2 < d1)%Q -> _get_icon_team self icon position = Ok (name_team2 g))
  /\ ((d1 == d2)%Q -> _get_icon_team self icon position = Ok (name_team1 g)).
Proof.
  intros Hpos Hrow Hpx g d1 d2.
  assert (Hcol : sample_column self icon position
                 = Ok (if position =? LEFT then x icon - 5
                       else x icon + ICON_CHARACTER_WIDTH (icons self) + 5)).
  { unfold sample_column. destruct Hpos as [-> | ->]; reflexivity. }
  split; [exact Hcol|].
  rewrite (get_icon_team_sampled self icon position _ row px Hcol Hrow Hpx).
  fold g. fold d1. fold d2.
  split; [|split].
  - intros Hlt. apply Qlt_le_weak, Qle_bool_iff in Hlt. now rewrite Hlt.
  - intros Hlt. apply Qlt_bool_true in Hlt. unfold Qlt_bool in Hlt.
    apply negb_true_iff in Hlt. now rewrite Hlt.
  - intros Heq. assert (Hle : (d1 <= d2)%Q) by (rewrite Heq; apply Qle_refl).
    apply Qle_bool_iff in Hle. now rewrite Hle.
Qed.

Lemma icon_team_is_nearest_colour_witness :
  let self := analyzer ana_kills_genji stub_game in
  let icon := mkKillfeedIconMatch "ana" (9 # 10) 10 in
  exists row,
    (LEFT = LEFT \/ LEFT = RIGHT)
    /\ py_index (killfeed_image self) 0 = Ok row
    /\ py_index row (x icon - 5) = Ok bluish
    /\ @sample_column self icon LEFT = Ok 5
    /\ ((euclid2 bluish BLUE_TEAM < euclid2 bluish RED_TEAM)%Q ->
        @_get_icon_team stub_cv self icon LEFT = Ok "blue"%string)
    /\ ((euclid2 bluish RED_TEAM < euclid2 bluish BLUE_TEAM)%Q ->
        @_get_icon_team stub_cv self icon LEFT = Ok "red"%string)
    /\ ((euclid2 bluish BLUE_TEAM == euclid2 bluish RED_TEAM)%Q ->
        @_get_icon_team stub_cv self icon LEFT = Ok "blue"%string).
Proof.
  intros self icon.
  destruct (py_index (killfeed_image self) 0) as [row|e] eqn:Hrow;
    [|exfalso; revert Hrow; vm_compute; discriminate].
  assert (Hpos : LEFT = LEFT \/ LEFT = RIGHT) by now left.
  assert (Hpx : py_index row (if LEFT =? LEFT then x icon - 5
                              else x icon + ICON_CHARACTER_WIDTH (icons self) + 5)
                = Ok bluish).
  { revert Hrow. vm_compute. intros [= <-]. reflexivity. }
  exists row. split; [exact Hpos|]. split; [reflexivity|]. split; [exact Hpx|].
  exact (@icon_team_is_nearest_colour stub_cv self icon LEFT row bluish
           Hpos Hrow Hpx).
Defined.

(** ** Columns sampled for accepted matches *)



(** C10 fails on the code: [_get_icon_team] indexes the row at a column
    that nothing has compared with the bounds of the row.  A match accepted
    at column 3 takes the left position and is sampled at column -2, which
    Python reads without complaint as the last but one pixel of the row, so
    that [get_killfeed] returns an event whose first team comes from the
    far end of the row; a match accepted at column 60 takes the right
    position and is sampled at column 103 of a row of 100 pixels, so that
    [get_killfeed] raises [IndexError]. *)
Lemma sampled_columns_leave_the_row :
  (let self := analyzer ana_at_left_end stub_game in
   exists ev a b row,
     @matched_icons stub_cv self = Ok (ev, [a; b])
     /\ x a = 3
     /\ sample_column self a LEFT = Ok (-2)
     /\ py_index (killfeed_image self) 0 = Ok row
     /\ py_index row (-2) = py_index row 98
     /\ fst (@get_killfeed stub_cv self)
        = Ok (Some (mkKillfeed "test" 12 (Some "red"%string)
                      (Some "red"%string) (Some "ana"%string)
                      (Some "genji"%string) RESURRECTION)))
  /\ (let self := analyzer ana_at_right_end stub_game in
      exists ev a row,
        @matched_icons stub_cv self = Ok (ev, [a])
        /\ x a = 60
        /\ sample_column self a RIGHT = Ok 103
        /\ py_index (killfeed_image self) 0 = Ok row
        /\ length row = 100%nat
        /\ KILLFEED_MAX_WIDTH (fstruc self) = 100
        /\ py_index row 103 = Raise IndexError
        /\ fst (@get_killfeed stub_cv self) = Raise IndexError).
Proof.
  split.
  - intros self.
    destruct (@matched_icons stub_cv self) as [[ev matched]|e] eqn:Hm;
      [|exfalso; revert Hm; vm_compute; discriminate].
    exists ev. do 3 eexists.
    split; [revert Hm; vm_compute; intros [= _ <-]; reflexivity|].
    repeat split; vm_compute; reflexivity.
  - intros self.
    destruct (@matched_icons stub_cv self) as [[ev matched]|e] eqn:Hm;
      [|exfalso; revert Hm; vm_compute; discriminate].
    exists ev. do 2 eexists.
    split; [revert Hm; vm_compute; intros [= _ <-]; reflexivity|].
    repeat split; vm_compute; reflexivity.
Qed.

(** ** Events *)

Lemma get_killfeed_fresh `{Externals} (img : Image) (fa : FrameAnalyzer)
  (ev : list bool) (matched : list KillfeedIconMatch) :
  matched_icons (__init__ img fa) = Ok (ev, matched) ->
  fst (get_killfeed (__init__ img fa))
  = decide_killfeed (__init__ img fa) matched.
Proof.
  intros Hm. unfold get_killfeed. cbn [killfeed __init__ fst].
  now rewrite Hm.
Qed.

(** X16: the decision on a single accepted match.  When its column is
    less than [KILLFEED_MAX_WIDTH - KILLFEED_CHARACTER2_MAX_WIDTH],
    [get_killfeed] returns [None].  Otherwise it classifies the icon with
    the rule of the right position: when the column [x +
    ICON_CHARACTER_WIDTH + 5] is a column of the row it returns a
    self-elimination event naming the matched character, with one of the
    two team names; when that column lies beyond the end of the row the
    call raises [IndexError]. *)
Theorem single_match_decision `{Externals} (img : Image) (fa : FrameAnalyzer)
  (ev : list bool) (m : KillfeedIconMatch) :
  matched_icons (__init__ img fa) = Ok (ev, [m]) ->
  let self := __init__ img fa in
  let limit := KILLFEED_MAX_WIDTH (fa_fstruc fa)
               - KILLFEED_CHARACTER2_MAX_WIDTH (fa_fstruc fa) in
  let col := x m + ICON_CHARACTER_WIDTH (killfeed_icons fa) + 5 in
  (x m < limit -> fst (get_killfeed self) = Ok None)
  /\ (limit <= x m ->
      forall row px, py_index img 0 = Ok row -> py_index row col = Ok px ->
        exists team,
          fst (get_killfeed self)
          = Ok (Some (mkKillfeed "test" (fa_time fa) None (Some team)
                        None (Some (object_name m)) SUICIDE))
          /\ _get_icon_team self m RIGHT = Ok team
          /\ (team = name_team1 (game fa) \/ team = name_team2 (game fa)))
  /\ (limit <= x m ->
      forall row, py_index img 0 = Ok row -> Z.of_nat (length row) <= col ->
        fst (get_killfeed self) = Raise IndexError).
Proof.
  intros Hm self limit col. subst self.
  rewrite (get_killfeed_fresh img fa ev [m] Hm).
  unfold decide_killfeed. cbn [length].
  change (py_index [m] 0) with (Ok m). cbn [bind].
  change (KILLFEED_MAX_WIDTH (fstruc (__init__ img fa))
          - KILLFEED_CHARACTER2_MAX_WIDTH (fstruc (__init__ img fa)))
    with limit.
  split; [|split].
  - intros Hlt. destruct (x m <? limit) eqn:E; [reflexivity|zlia].
  - intros Hge row px Hrow Hpx.
    destruct (x m <? limit) eqn:E; [zlia|].
    unfold _generate_killfeed. cbn [length Nat.eqb].
    change (py_index [m] 0) with (Ok m). cbn [bind].
    rewrite (get_icon_team_sampled (__init__ img fa) m RIGHT col row px
               eq_refl Hrow Hpx).
    cbn [bind]. eexists. split; [reflexivity|]. split; [reflexivity|].
    cbn [frame_analyzer __init__]. destruct (Qle_bool _ _); auto.
  - intros Hge row Hrow Hlen.
    destruct (x m <? limit) eqn:E; [zlia|].
    unfold _generate_killfeed. cbn [length Nat.eqb].
    change (py_index [m] 0) with (Ok m). cbn [bind].
    unfold _get_icon_team.
    change (sample_column (__init__ img fa) m RIGHT) with (Ok col).
    cbn [bind]. change (killfeed_image (__init__ img fa)) with img.
    rewrite Hrow. cbn [bind].
    assert (Hidx : py_index row col = Raise IndexError).
    { unfold py_index. destruct (col <? 0) eqn:E0.
      - destruct ((0 <=? col + Z.of_nat (length row))
                  && (col + Z.of_nat (length row) <? Z.of_nat (length row)))
          eqn:E1; [zlia|reflexivity].
      - destruct ((0 <=? col) && (col <? Z.of_nat (length row))) eqn:E1;
          [zlia|reflexivity]. }
    rewrite Hidx. reflexivity.
Qed.

Lemma single_match_decision_witness :
  let img := row_image ana_alone in
  let fa := stub_frame stub_game in
  let m := mkKillfeedIconMatch "ana" (90 # 100) 50 in
  exists ev,
    @matched_icons stub_cv (__init__ img fa) = Ok (ev, [m])
    /\ (x m < 100 - 60 ->
        fst (@get_killfeed stub_cv (__init__ img fa)) = Ok None)
    /\ (100 - 60 <= x m ->
        forall row px, py_index img 0 = Ok row ->
          py_index row (x m + 38 + 5) = Ok px ->
          exists team,
            fst (@get_killfeed stub_cv (__init__ img fa))
            = Ok (Some (mkKillfeed "test" 12 None (Some team)
                          None (Some "ana"%string) SUICIDE))
            /\ @_get_icon_team stub_cv (__init__ img fa) m RIGHT = Ok team
            /\ (team = "blue"%string \/ team = "red"%string))
    /\ (100 - 60 <= x m ->
        forall row, py_index img 0 = Ok row ->
          Z.of_nat (length row) <= x m + 38 + 5 ->
          fst (@get_killfeed stub_cv (__init__ img fa)) = Raise IndexError).
Proof.
  intros img fa m.
  destruct (@matched_icons stub_cv (__init__ img fa)) as [[ev matched]|e] eqn:Hm;
    [|exfalso; revert Hm; vm_compute; discriminate].
  assert (Hone : matched = [m])
    by (revert Hm; vm_compute; intros [= _ <-]; reflexivity).
  subst matched. exists ev. split; [reflexivity|].
  exact (@single_match_decision stub_cv img fa ev m Hm).
Defined.

Example single_match_right_place :
  fst (@get_killfeed stub_cv (analyzer ana_alone stub_game))
  = Ok (Some (mkKillfeed "test" 12 None (Some "blue"%string)
                None (Some "ana"%string) SUICIDE)).
Proof. vm_compute. reflexivity. Qed.

Example single_match_half_shown :
  fst (@get_killfeed stub_cv (analyzer ana_half_shown stub_game)) = Ok None.
Proof. vm_compute. reflexivity. Qed.

(** C6 fails on the code: on a row of 100 pixels whose one accepted match
    is at column 60, not left of column 100 - 60, [get_killfeed] returns
    neither [None] nor a self-elimination event: [_get_icon_team] reads the
    pixel at column 60 + 38 + 5 = 103 without comparing it with the width
    of the row, and the call raises [IndexError]. *)
Lemma single_match_without_event :
  let self := analyzer ana_at_right_end stub_game in
  exists ev m,
    @matched_icons stub_cv self = Ok (ev, [m])
    /\ KILLFEED_MAX_WIDTH (fstruc self)
       - KILLFEED_CHARACTER2_MAX_WIDTH (fstruc self) <= x m
    /\ fst (@get_killfeed stub_cv self) = Raise IndexError
    /\ forall k, fst (@get_killfeed stub_cv self) <> Ok (Some k).
Proof.
  intros self.
  destruct (@matched_icons stub_cv self) as [[ev matched]|e] eqn:Hm;
    [|exfalso; revert Hm; vm_compute; discriminate].
  exists ev. eexists.
  split; [revert Hm; vm_compute; intros [= _ <-]; reflexivity|].
  split; [vm_compute; discriminate|].
  assert (Hr : fst (@get_killfeed stub_cv self) = Raise IndexError)
    by (vm_compute; reflexivity).
  split; [exact Hr|]. intros k. rewrite Hr. discriminate.
Qed.

Lemma py_slice_first_two {A : Type} (a b : A) (l : list A) :
  py_slice (a :: b :: l) 0 2 = [a; b].
Proof.
  unfold py_slice, slice_bound. cbn [Z.ltb Z.compare].
  replace (Z.max 0 (Z.min (Z.of_nat (length (a :: b :: l))) 0)) with 0
    by (simpl length; lia).
  replace (Z.max 0 (Z.min (Z.of_nat (length (a :: b :: l))) 2)) with 2
    by (simpl length; lia).
  reflexivity.
Qed.

(** C7: when two or more matches are accepted, [get_killfeed] takes the
    first two, the one with the smaller column as the left icon and the
    other as the right icon, classifies the left one with the rule of the
    left position and the right one with the rule of the right position,
    and every event it returns names the two characters in that order; the
    event is a resurrection when the two team names are equal and an
    elimination when they differ. *)
Theorem two_matches_event `{Externals} (img : Image) (fa : FrameAnalyzer)
  (ev : list bool) (m0 m1 : KillfeedIconMatch) (rest : list KillfeedIconMatch) :
  matched_icons (__init__ img fa) = Ok (ev, m0 :: m1 :: rest) ->
  let self := __init__ img fa in
  let left := if x m1 <? x m0 then m1 else m0 in
  let right := if x m1 <? x m0 then m0 else m1 in
  x left <= x right
  /\ fst (get_killfeed self)
     = (team1 <- _get_icon_team self left LEFT ;;
        team2 <- _get_icon_team self right RIGHT ;;
        Ok (Some (mkKillfeed "test" (fa_time fa) (Some team1) (Some team2)
                    (Some (object_name left)) (Some (object_name right))
                    (if String.eqb team1 team2
                     then RESURRECTION else ELIMINATION))))
  /\ (forall team1 team2,
        _get_icon_team self left LEFT = Ok team1 ->
        _get_icon_team self right RIGHT = Ok team2 ->
        exists k,
          fst (get_killfeed self) = Ok (Some k)
          /\ kf_character1 k = Some (object_name left)
          /\ kf_character2 k = Some (object_name right)
          /\ kf_team1 k = Some team1 /\ kf_team2 k = Some team2
          /\ (team1 = team2 -> kf_event k = RESURRECTION)
          /\ (team1 <> team2 -> kf_event k = ELIMINATION)).
Proof.
  intros Hm self left right. subst self.
  assert (Hget : fst (get_killfeed (__init__ img fa))
     = (team1 <- _get_icon_team (__init__ img fa) left LEFT ;;
        team2 <- _get_icon_team (__init__ img fa) right RIGHT ;;
        Ok (Some (mkKillfeed "test" (fa_time fa) (Some team1) (Some team2)
                    (Some (object_name left)) (Some (object_name right))
                    (if String.eqb team1 team2
                     then RESURRECTION else ELIMINATION))))).
  { rewrite (get_killfeed_fresh img fa ev _ Hm).
    unfold decide_killfeed. cbn [length].
    rewrite py_slice_first_two.
    unfold _generate_killfeed. cbn [length Nat.eqb].
    change (py_index [m0; m1] 0) with (Ok m0).
    change (py_index [m0; m1] 1) with (Ok m1).
    cbn [bind]. subst left right.
    destruct (x m1 <? x m0).
    - change (py_index [m1; m0] 0) with (Ok m1).
      change (py_index [m1; m0] 1) with (Ok m0). cbn [bind].
      destruct (_get_icon_team _ m1 LEFT); cbn [bind]; [|reflexivity].
      destruct (_get_icon_team _ m0 RIGHT); reflexivity.
    - change (py_index [m0; m1] 0) with (Ok m0).
      change (py_index [m0; m1] 1) with (Ok m1). cbn [bind].
      destruct (_get_icon_team _ m0 LEFT); cbn [bind]; [|reflexivity].
      destruct (_get_icon_team _ m1 RIGHT); reflexivity. }
  split; [|split].
  - subst left right. destruct (x m1 <? x m0) eqn:E; zlia.
  - exact Hget.
  - intros team1 team2 H1 H2. rewrite Hget, H1. cbn [bind].
    rewrite H2. cbn [bind]. eexists. split; [reflexivity|].
    cbn. repeat split.
    + intros ->. now rewrite String.eqb_refl.
    + intros Hne. apply String.eqb_neq in Hne. now rewrite Hne.
Qed.

Lemma two_matches_event_witness :
  let img := row_image ana_kills_genji in
  let fa := stub_frame stub_game in
  let m0 := mkKillfeedIconMatch "ana" (90 # 100) 10 in
  let m1 := mkKillfeedIconMatch "genji" (80 # 100) 50 in
  exists ev,
    @matched_icons stub_cv (__init__ img fa) = Ok (ev, [m0; m1])
    /\ x m0 <= x m1
    /\ fst (@get_killfeed stub_cv (__init__ img fa))
       = Ok (Some (mkKillfeed "test" 12 (Some "blue"%string)
                     (Some "red"%string) (Some "ana"%string)
                     (Some "genji"%string) ELIMINATION)).
Proof.
  intros img fa m0 m1.
  destruct (@matched_icons stub_cv (__init__ img fa)) as [[ev matched]|e] eqn:Hm;
    [|exfalso; revert Hm; vm_compute; discriminate].
  assert (Htwo : matched = [m0; m1])
    by (revert Hm; vm_compute; intros [= _ <-]; reflexivity).
  subst matched. exists ev. split; [reflexivity|].
  destruct (@two_matches_event stub_cv img fa ev m0 m1 [] Hm)
    as (Hord & Hget & _).
  split; [exact Hord|]. rewrite Hget. vm_compute. reflexivity.
Defined.

Example two_matches_same_team :
  fst (@get_killfeed stub_cv (analyzer ana_revives_genji stub_game))
  = Ok (Some (mkKillfeed "test" 12 (Some "blue"%string) (Some "blue"%string)
                (Some "ana"%string) (Some "genji"%string) RESURRECTION)).
Proof. vm_compute. reflexivity. Qed.

(** ** Exchange of the team colours *)

Lemma matched_icons_swap `{Externals} (img : Image) (fa : FrameAnalyzer) :
  matched_icons (__init__ img (swap_frame_colors fa))
  = matched_icons (__init__ img fa).
Proof. reflexivity. Qed.

Lemma Qle_bool_swap (a b : Q) :
  ~ (a == b)%Q -> Qle_bool b a = negb (Qle_bool a b).
Proof.
  intros Hne. destruct (Qle_bool a b) eqn:E1, (Qle_bool b a) eqn:E2;
    try reflexivity.
  - exfalso. apply Hne. apply Qle_antisym; now apply Qle_bool_iff.
  - exfalso. assert (Hlt : (b < a)%Q) by (apply Qlt_bool_true;
      unfold Qlt_bool; now rewrite E1).
    apply Qlt_le_weak, Qle_bool_iff in Hlt. congruence.
Qed.

Lemma swap_label_team1 (g : Game) : swap_label g (name_team1 g) = name_team2 g.
Proof. unfold swap_label. now rewrite String.eqb_refl. Qed.

Lemma swap_label_team2 (g : Game) : swap_label g (name_team2 g) = name_team1 g.
Proof.
  unfold swap_label. destruct (String.eqb_spec (name_team2 g) (name_team1 g)).
  - congruence.
  - now rewrite String.eqb_refl.
Qed.

Lemma get_icon_team_names `{Externals} (self : KillfeedAnalyzer)
  (icon : KillfeedIconMatch) (position : Z) (t : string) :
  _get_icon_team self icon position = Ok t ->
  t = name_team1 (game (frame_analyzer self))
  \/ t = name_team2 (game (frame_analyzer self)).
Proof.
  unfold _get_icon_team.
  destruct (sample_column self icon position); cbn [bind]; [|discriminate].
  destruct (py_index (killfeed_image self) 0); cbn [bind]; [|discriminate].
  destruct (py_index _ _); cbn [bind]; [|discriminate].
  destruct (Qle_bool _ _); intros [= <-]; auto.
Qed.

Lemma get_icon_team_pixel `{Externals} (self : KillfeedAnalyzer)
  (icon : KillfeedIconMatch) (position : Z) :
  _get_icon_team self icon position
  = (px <- sampled_pixel self icon position ;;
     Ok (if Qle_bool (color_distance px (color_team1 (game (frame_analyzer self))))
                     (color_distance px (color_team2 (game (frame_analyzer self))))
         then name_team1 (game (frame_analyzer self))
         else name_team2 (game (frame_analyzer self)))).
Proof.
  unfold _get_icon_team, sampled_pixel.
  destruct (sample_column self icon position); cbn [bind]; [|reflexivity].
  destruct (py_index (killfeed_image self) 0); cbn [bind]; [|reflexivity].
  destruct (py_index _ _); cbn [bind]; [|reflexivity].
  now destruct (Qle_bool _ _).
Qed.

(** The team of one icon after the exchange of the colours: the other
    label, unless the pixel is equidistant, which gives team one in both
    runs. *)
Lemma get_icon_team_swap `{Externals} (img : Image) (fa : FrameAnalyzer)
  (icon : KillfeedIconMatch) (position : Z) (px : Color) :
  sampled_pixel (__init__ img fa) icon position = Ok px ->
  (~ equidistant (game fa) px ->
   exists t,
     _get_icon_team (__init__ img fa) icon position = Ok t
     /\ _get_icon_team (__init__ img (swap_frame_colors fa)) icon position
        = Ok (swap_label (game fa) t))
  /\ (equidistant (game fa) px ->
      _get_icon_team (__init__ img fa) icon position
      = Ok (name_team1 (game fa))
      /\ _get_icon_team (__init__ img (swap_frame_colors fa)) icon position
         = Ok (name_team1 (game fa))).
Proof.
  intros Hpx. rewrite !get_icon_team_pixel.
  change (sampled_pixel (__init__ img (swap_frame_colors fa)) icon position)
    with (sampled_pixel (__init__ img fa) icon position).
  rewrite Hpx. cbn [bind].
  cbn [frame_analyzer __init__ game swap_frame_colors
       swap_colors color_team1 color_team2 name_team1 name_team2].
  unfold equidistant. split.
  - intros Hno. rewrite (Qle_bool_swap _ _ Hno).
    destruct (Qle_bool _ _); cbn [negb]; eexists; (split; [reflexivity|]).
    + now rewrite swap_label_team1.
    + now rewrite swap_label_team2.
  - intros Heq.
    assert (H1 : Qle_bool (color_distance px (color_team1 (game fa)))
                          (color_distance px (color_team2 (game fa))) = true)
      by (apply Qle_bool_iff; rewrite Heq; apply Qle_refl).
    assert (H2 : Qle_bool (color_distance px (color_team2 (game fa)))
                          (color_distance px (color_team1 (game fa))) = true)
      by (apply Qle_bool_iff; rewrite Heq; apply Qle_refl).
    now rewrite H1, H2.
Qed.

Lemma swap_label_eqb (g : Game) (t1 t2 : string) :
  t1 = name_team1 g \/ t1 = name_team2 g ->
  t2 = name_team1 g \/ t2 = name_team2 g ->
  String.eqb (swap_label g t1) (swap_label g t2) = String.eqb t1 t2.
Proof.
  intros [-> | ->] [-> | ->];
    rewrite ?swap_label_team1, ?swap_label_team2, ?String.eqb_refl;
    try reflexivity.
  - apply String.eqb_sym.
  - apply String.eqb_sym.
Qed.

Lemma get_icon_team_swap_bind `{Externals} (img : Image) (fa : FrameAnalyzer)
  (icon : KillfeedIconMatch) (position : Z) :
  (forall px, sampled_pixel (__init__ img fa) icon position = Ok px ->
              ~ equidistant (game fa) px) ->
  _get_icon_team (__init__ img (swap_frame_colors fa)) icon position
  = (t <- _get_icon_team (__init__ img fa) icon position ;;
     Ok (swap_label (game fa) t)).
Proof.
  intros Hno.
  destruct (sampled_pixel (__init__ img fa) icon position) as [px|e] eqn:Hpx.
  - destruct (get_icon_team_swap img fa icon position px Hpx) as [Hswap _].
    destruct (Hswap (Hno px eq_refl)) as (t & -> & ->). reflexivity.
  - rewrite !get_icon_team_pixel.
    change (sampled_pixel (__init__ img (swap_frame_colors fa)) icon position)
      with (sampled_pixel (__init__ img fa) icon position).
    now rewrite Hpx.
Qed.

Lemma get_icon_team_ok_pixel `{Externals} (self : KillfeedAnalyzer)
  (icon : KillfeedIconMatch) (position : Z) (t : string) :
  _get_icon_team self icon position = Ok t ->
  exists px, sampled_pixel self icon position = Ok px.
Proof.
  rewrite get_icon_team_pixel.
  destruct (sampled_pixel self icon position) as [px|e]; [eauto|discriminate].
Qed.

(** The event of two icons after the exchange of the colours, when the
    pixels read for them are not equidistant. *)
Lemma generate_two_swap `{Externals} (img : Image) (fa : FrameAnalyzer)
  (m0 m1 : KillfeedIconMatch) :
  Forall (fun px => ~ equidistant (game fa) px)
         (until_error
            (map (fun mp => sampled_pixel (__init__ img fa) (fst mp) (snd mp))
                 (if x m1 <? x m0 then [(m1, LEFT); (m0, RIGHT)]
                  else [(m0, LEFT); (m1, RIGHT)]))) ->
  _generate_killfeed (__init__ img (swap_frame_colors fa)) [m0; m1]
  = (k <- _generate_killfeed (__init__ img fa) [m0; m1] ;;
     Ok (swap_labels (game fa) k)).
Proof.
  intros Hno.
  assert (Hgen : forall a b,
            Forall (fun px => ~ equidistant (game fa) px)
                   (until_error [sampled_pixel (__init__ img fa) a LEFT;
                                 sampled_pixel (__init__ img fa) b RIGHT]) ->
            (m0' <- py_index [a; b] 0 ;;
             team1 <- _get_icon_team (__init__ img (swap_frame_colors fa))
                                     m0' LEFT ;;
             m1' <- py_index [a; b] 1 ;;
             team2 <- _get_icon_team (__init__ img (swap_frame_colors fa))
                                     m1' RIGHT ;;
             Ok (mkKillfeed "test" (time (__init__ img (swap_frame_colors fa)))
                   (Some team1) (Some team2)
                   (Some (object_name m0')) (Some (object_name m1'))
                   (if String.eqb team1 team2
                    then RESURRECTION else ELIMINATION)))
            = (k <- (m0' <- py_index [a; b] 0 ;;
                     team1 <- _get_icon_team (__init__ img fa) m0' LEFT ;;
                     m1' <- py_index [a; b] 1 ;;
                     team2 <- _get_icon_team (__init__ img fa) m1' RIGHT ;;
                     Ok (mkKillfeed "test" (time (__init__ img fa))
                           (Some team1) (Some team2)
                           (Some (object_name m0')) (Some (object_name m1'))
                           (if String.eqb team1 team2
                            then RESURRECTION else ELIMINATION))) ;;
               Ok (swap_labels (game fa) k))).
  { clear Hno. intros a b Hno.
    change (py_index [a; b] 0) with (Ok a).
    change (py_index [a; b] 1) with (Ok b). cbn [bind].
    rewrite (get_icon_team_swap_bind img fa a LEFT).
    2:{ intros px Hpx. rewrite Hpx in Hno. cbn [until_error] in Hno.
        now inversion Hno. }
    destruct (_get_icon_team (__init__ img fa) a LEFT) as [t1|] eqn:E1;
      cbn [bind]; [|reflexivity].
    destruct (get_icon_team_ok_pixel _ _ _ _ E1) as (px1 & Hpx1).
    rewrite (get_icon_team_swap_bind img fa b RIGHT).
    2:{ intros px Hpx. rewrite Hpx1, Hpx in Hno. cbn [until_error] in Hno.
        inversion Hno as [|? ? _ Hno']. now inversion Hno'. }
    destruct (_get_icon_team (__init__ img fa) b RIGHT) as [t2|] eqn:E2;
      cbn [bind]; [|reflexivity].
    unfold swap_labels. cbn.
    rewrite (swap_label_eqb (game fa) t1 t2
               (get_icon_team_names _ _ _ _ E1)
               (get_icon_team_names _ _ _ _ E2)).
    reflexivity. }
  unfold _generate_killfeed. cbn [length Nat.eqb].
  change (py_index [m0; m1] 0) with (Ok m0).
  change (py_index [m0; m1] 1) with (Ok m1). cbn [bind].
  destruct (x m1 <? x m0); cbn [map fst snd] in Hno.
  - exact (Hgen m1 m0 Hno).
  - exact (Hgen m0 m1 Hno).
Qed.

(** The event of one icon after the exchange of the colours, when the
    pixel read for it is not equidistant. *)
Lemma generate_one_swap `{Externals} (img : Image) (fa : FrameAnalyzer)
  (a : KillfeedIconMatch) :
  Forall (fun px => ~ equidistant (game fa) px)
         (until_error [sampled_pixel (__init__ img fa) a RIGHT]) ->
  _generate_killfeed (__init__ img (swap_frame_colors fa)) [a]
  = (k <- _generate_killfeed (__init__ img fa) [a] ;;
     Ok (swap_labels (game fa) k)).
Proof.
  intros Hno. unfold _generate_killfeed. cbn [length Nat.eqb].
  change (py_index [a] 0) with (Ok a). cbn [bind].
  rewrite (get_icon_team_swap_bind img fa a RIGHT).
  2:{ intros px Hpx. rewrite Hpx in Hno. cbn [until_error] in Hno.
      now inversion Hno. }
  destruct (_get_icon_team (__init__ img fa) a RIGHT); reflexivity.
Qed.

(** C9, as amended.  When none of the pixels that the analysis reads to
    classify the accepted matches ([pixels_read]: the pixel of each call of
    [_get_icon_team] that [get_killfeed] makes, up to the first read that
    raises) is equidistant from the two team colours, the analysis with the
    two colours exchanged returns what the analysis returns, with each team
    label replaced by the label of the other team: the same exception, no
    event, or the event of the same kind, time and characters.  An icon
    whose pixel is equidistant from the two colours is labelled team one
    in both runs. *)
Theorem swapped_colours_swap_labels `{Externals} (img : Image)
  (fa : FrameAnalyzer) :
  ((forall ev matched,
      matched_icons (__init__ img fa) = Ok (ev, matched) ->
      Forall (fun px => ~ equidistant (game fa) px)
             (pixels_read (__init__ img fa) matched)) ->
   fst (get_killfeed (__init__ img (swap_frame_colors fa)))
   = (r <- fst (get_killfeed (__init__ img fa)) ;;
      Ok (option_map (swap_labels (game fa)) r)))
  /\ (forall icon position px,
        sampled_pixel (__init__ img fa) icon position = Ok px ->
        equidistant (game fa) px ->
        _get_icon_team (__init__ img fa) icon position
        = Ok (name_team1 (game fa))
        /\ _get_icon_team (__init__ img (swap_frame_colors fa)) icon position
           = Ok (name_team1 (game fa))).
Proof.
  split.
  2:{ intros icon position px Hpx Heq.
      exact (proj2 (get_icon_team_swap img fa icon position px Hpx) Heq). }
  intros Hno.
  destruct (matched_icons (__init__ img fa)) as [[ev matched]|e] eqn:Hm.
  2:{ unfold get_killfeed. cbn [killfeed __init__ fst].
      rewrite matched_icons_swap, Hm. reflexivity. }
  assert (Hm' : matched_icons (__init__ img (swap_frame_colors fa))
                = Ok (ev, matched)) by (now rewrite matched_icons_swap).
  rewrite (get_killfeed_fresh _ _ ev matched Hm').
  rewrite (get_killfeed_fresh _ _ ev matched Hm).
  specialize (Hno ev matched eq_refl). clear Hm Hm'.
  unfold decide_killfeed. unfold pixels_read, classified_icons in Hno.
  destruct matched as [|m0 [|m1 rest]]; cbn [length].
  - reflexivity.
  - change (py_index [m0] 0) with (Ok m0). cbn [bind].
    change (fstruc (__init__ img (swap_frame_colors fa)))
      with (fstruc (__init__ img fa)).
    destruct (x m0 <? _); [reflexivity|].
    cbn [map fst snd] in Hno.
    rewrite (generate_one_swap img fa m0 Hno).
    now destruct (_generate_killfeed (__init__ img fa) [m0]).
  - rewrite py_slice_first_two.
    rewrite (generate_two_swap img fa m0 m1 Hno).
    now destruct (_generate_killfeed (__init__ img fa) [m0; m1]).
Qed.

Lemma swapped_colours_swap_labels_witness :
  let img := row_image ana_kills_genji in
  let fa := stub_frame stub_game in
  let ana := mkKillfeedIconMatch "ana" (90 # 100) 10 in
  (forall ev matched,
     @matched_icons stub_cv (__init__ img fa) = Ok (ev, matched) ->
     Forall (fun px => ~ @equidistant stub_cv (game fa) px)
            (pixels_read (__init__ img fa) matched))
  /\ fst (@get_killfeed stub_cv (__init__ img (swap_frame_colors fa)))
     = (r <- fst (@get_killfeed stub_cv (__init__ img fa)) ;;
        Ok (option_map (swap_labels (game fa)) r))
  /\ fst (@get_killfeed stub_cv (__init__ img fa))
     = Ok (Some (mkKillfeed "test" 12 (Some "blue"%string)
                   (Some "red"%string) (Some "ana"%string)
                   (Some "genji"%string) ELIMINATION))
  /\ fst (@get_killfeed stub_cv (__init__ img (swap_frame_colors fa)))
     = Ok (Some (mkKillfeed "test" 12 (Some "red"%string)
                   (Some "blue"%string) (Some "ana"%string)
                   (Some "genji"%string) ELIMINATION))
  /\ sampled_pixel (__init__ img fa) ana RIGHT = Ok BLACK
  /\ @equidistant stub_cv (game fa) BLACK
  /\ @_get_icon_team stub_cv (__init__ img fa) ana RIGHT
     = Ok (name_team1 (game fa))
  /\ @_get_icon_team stub_cv (__init__ img (swap_frame_colors fa)) ana RIGHT
     = Ok (name_team1 (game fa)).
Proof.
  intros img fa ana.
  assert (Hno : forall ev matched,
            @matched_icons stub_cv (__init__ img fa) = Ok (ev, matched) ->
            Forall (fun px => ~ @equidistant stub_cv (game fa) px)
                   (pixels_read (__init__ img fa) matched)).
  { intros ev matched Hm.
    assert (Hmatched : matched = [mkKillfeedIconMatch "ana" (90 # 100) 10;
                                  mkKillfeedIconMatch "genji" (80 # 100) 50])
      by (revert Hm; vm_compute; intros [= _ <-]; reflexivity).
    subst matched. clear Hm.
    assert (Hpx : pixels_read (__init__ img fa)
                    [mkKillfeedIconMatch "ana" (90 # 100) 10;
                     mkKillfeedIconMatch "genji" (80 # 100) 50]
                  = [bluish; reddish]) by (vm_compute; reflexivity).
    rewrite Hpx. repeat constructor; vm_compute; intros [=]. }
  assert (Hpx : sampled_pixel (__init__ img fa) ana RIGHT = Ok BLACK)
    by (vm_compute; reflexivity).
  assert (Heq : @equidistant stub_cv (game fa) BLACK)
    by (vm_compute; reflexivity).
  destruct (@swapped_colours_swap_labels stub_cv img fa) as [Hswap Htie].
  split; [exact Hno|].
  split; [exact (Hswap Hno)|].
  split; [vm_compute; reflexivity|].
  split; [vm_compute; reflexivity|].
  split; [exact Hpx|]. split; [exact Heq|].
  exact (Htie ana RIGHT BLACK Hpx Heq).
Defined.

(** C9, as stated, fails: the pixel left of the first icon is black, at
    the same distance from the two team colours, and the pixel right of
    the second icon is nearest to the second colour.  The analysis returns
    an elimination with the labels blue and red; with the colours exchanged
    it returns a resurrection with the labels blue and blue. *)
Lemma swapped_colours_keep_label_on_tie :
  let img := row_image ana_no_colour_genji_red in
  let fa := stub_frame stub_game in
  @equidistant stub_cv (game fa) BLACK
  /\ sampled_pixel (__init__ img fa)
       (mkKillfeedIconMatch "ana" (90 # 100) 10) LEFT = Ok BLACK
  /\ fst (@get_killfeed stub_cv (__init__ img fa))
     = Ok (Some (mkKillfeed "test" 12 (Some "blue"%string)
                   (Some "red"%string) (Some "ana"%string)
                   (Some "genji"%string) ELIMINATION))
  /\ fst (@get_killfeed stub_cv (__init__ img (swap_frame_colors fa)))
     = Ok (Some (mkKillfeed "test" 12 (Some "blue"%string)
                   (Some "blue"%string) (Some "ana"%string)
                   (Some "genji"%string) RESURRECTION))
  /\ fst (@get_killfeed stub_cv (__init__ img (swap_frame_colors fa)))
     <> Ok (Some (mkKillfeed "test" 12 (Some "red"%string)
                    (Some "blue"%string) (Some "ana"%string)
                    (Some "genji"%string) ELIMINATION)).
Proof.
  intros img fa.
  assert (Hswapped :
            fst (@get_killfeed stub_cv (__init__ img (swap_frame_colors fa)))
            = Ok (Some (mkKillfeed "test" 12 (Some "blue"%string)
                          (Some "blue"%string) (Some "ana"%string)
                          (Some "genji"%string) RESURRECTION)))
    by (vm_compute; reflexivity).
  split; [vm_compute; reflexivity|].
  split; [vm_compute; reflexivity|].
  split; [vm_compute; reflexivity|].
  split; [exact Hswapped|]. rewrite Hswapped. intros [=].
Qed.

(** ** The cache of [get_killfeed] *)

(** An instance whose attribute [killfeed] were set would return it. *)
Lemma get_killfeed_cached `{Externals} (self : KillfeedAnalyzer) (k : Killfeed) :
  killfeed self = Some k -> get_killfeed self = (Ok (Some k), self).
Proof. intros Hk. unfold get_killfeed. now rewrite Hk. Qed.

(** C2 fails on the code: [get_killfeed] leaves the instance as it found
    it, so the attribute [killfeed] of an instance made by [__init__] is
    still [None] after any number of calls and every call computes again.
    On the row [ana_alone] the first call returns a self-elimination event;
    once a caller has assigned a blank row to [killfeed_image], the second
    call returns [None] and not the first result. *)
Theorem get_killfeed_does_not_memoize :
  (forall (cv : Externals) (self : KillfeedAnalyzer),
      snd (@get_killfeed cv self) = self)
  /\ (forall (cv : Externals) (img : Image) (fa : FrameAnalyzer),
         killfeed (snd (@get_killfeed cv (__init__ img fa))) = None
         /\ @get_killfeed cv (snd (@get_killfeed cv (__init__ img fa)))
            = (em <- @matched_icons cv (__init__ img fa) ;;
               @decide_killfeed cv (__init__ img fa) (snd em),
               __init__ img fa))
  /\ (let first := @get_killfeed stub_cv (analyzer ana_alone stub_game) in
      let later := set_killfeed_image (snd first) (row_image []) in
      fst first
      = Ok (Some (mkKillfeed "test" 12 None (Some "blue"%string)
                    None (Some "ana"%string) SUICIDE))
      /\ killfeed (snd first) = None
      /\ fst (@get_killfeed stub_cv later) = Ok None
      /\ fst (@get_killfeed stub_cv later) <> fst first).
Proof.
  assert (Hsame : forall (cv : Externals) (self : KillfeedAnalyzer),
            snd (@get_killfeed cv self) = self).
  { intros cv self. unfold get_killfeed. now destruct (killfeed self). }
  split; [exact Hsame|]. split.
  - intros cv img fa. rewrite Hsame. split; reflexivity.
  - cbv zeta. rewrite Hsame.
    assert (H1 : fst (@get_killfeed stub_cv (analyzer ana_alone stub_game))
                 = Ok (Some (mkKillfeed "test" 12 None (Some "blue"%string)
                               None (Some "ana"%string) SUICIDE)))
      by (vm_compute; reflexivity).
    assert (H2 : fst (@get_killfeed stub_cv
                        (set_killfeed_image (analyzer ana_alone stub_game)
                                            (row_image [])))
                 = Ok None) by (vm_compute; reflexivity).
    rewrite H1, H2. repeat split. intros [=].
Qed.

(** * Further properties of the pipeline *)

(** ** Candidates of the scorers *)

Lemma discrete_raw_valid `{Externals} (self : KillfeedAnalyzer)
  (img : Image) (ev : list bool)
  (cols : list Z) (acc raw : list KillfeedIconMatch) :
  Forall (fun m => py_index ev (x m) = Ok true) acc ->
  foldM (discrete_step self img ev) cols acc = Ok raw ->
  Forall (fun m => py_index ev (x m) = Ok true) raw.
Proof.
  revert acc. induction cols as [|c cols IH]; intros acc Hacc; cbn [foldM].
  - now intros [= <-].
  - destruct (discrete_step self img ev acc c) as [acc1|] eqn:E;
      cbn [bind]; [|discriminate].
    apply IH. unfold discrete_step in E.
    destruct (py_index ev c) as [e|] eqn:Ee; cbn [bind] in E; [|discriminate].
    destruct e; cbn [negb] in E; [|revert E; intros [= <-]; exact Hacc].
    destruct (foldM _ _ _) as [[bn bs]|]; cbn [bind] in E; [|discriminate].
    revert E; intros [= <-]. apply Forall_app. split; [exact Hacc|].
    constructor; [exact Ee|constructor].
Qed.

Lemma full_scan_valid `{Externals} (self : KillfeedAnalyzer) (img : Image)
  (ev : list bool) (items : list (string * Image))
  (acc res : list KillfeedIconMatch) :
  Forall (fun m => py_index ev (x m) = Ok true) acc ->
  foldM (full_step self img ev) items acc = Ok res ->
  Forall (fun m => py_index ev (x m) = Ok true) res.
Proof.
  revert acc. induction items as [|[name icon] items IH]; intros acc Hacc;
    cbn [foldM].
  - now intros [= <-].
  - destruct (full_step self img ev acc (name, icon)) as [acc1|] eqn:E;
      cbn [bind]; [|discriminate].
    apply IH. unfold full_step in E.
    destruct (minMaxLoc (matchTemplate img icon)) as [[v1 x1]|];
      cbn [bind] in E; [|discriminate].
    destruct (py_index ev x1) as [e1|] eqn:Ee1; cbn [bind] in E;
      [|discriminate].
    destruct (np_slice_assign _ _ _ _) as [a'|]; cbn [bind] in E;
      [|discriminate].
    destruct (minMaxLoc a') as [[v2 x2]|]; cbn [bind] in E; [|discriminate].
    destruct (py_index ev x2) as [e2|] eqn:Ee2; cbn [bind] in E;
      [|discriminate].
    revert E; intros [= <-].
    destruct e1, e2; repeat (apply Forall_app; split); auto;
      constructor; simpl; auto.
Qed.

Lemma weights_valid `{Externals} (self : KillfeedAnalyzer) (img : Image)
  (ev : list bool) (ws : list KillfeedIconMatch) :
  _get_icons_weights self img ev = Ok ws ->
  Forall (fun m => py_index ev (x m) = Ok true) ws.
Proof.
  unfold _get_icons_weights. destruct (count_true ev <=? 7).
  - unfold _get_icons_weights_discrete.
    destruct (foldM _ _ _) as [raw|] eqn:E; cbn [bind]; [|discriminate].
    assert (Hcols : Forall (fun m => 0 <= x m < Z.of_nat (length ev)) raw).
    { apply (discrete_raw_columns self img ev
               (fun c => 0 <= c < Z.of_nat (length ev))
               (range 0 (Z.of_nat (length ev))) [] raw);
        [|constructor|exact E].
      apply Forall_forall. intros c Hc. apply In_range in Hc. lia. }
    assert (Hvalid : Forall (fun m => py_index ev (x m) = Ok true) raw).
    { apply (discrete_raw_valid self img ev
               (range 0 (Z.of_nat (length ev))) [] raw);
        [constructor|exact E]. }
    intros Hs.
    destruct (suppress_spec (length ev) (sort_by_score_desc raw))
      as (res' & E' & _ & Hsub & _).
    + rewrite Forall_forall in *. intros m Hm.
      apply Hcols. now apply sort_by_score_desc_In.
    + assert (res' = ws) by congruence. subst res'.
      apply Forall_forall. intros m Hm.
      apply Hsub in Hm. apply (proj1 (sort_by_score_desc_In m raw)) in Hm.
      exact (proj1 (Forall_forall _ _) Hvalid m Hm).
  - unfold _get_icons_weights_full. apply full_scan_valid. constructor.
Qed.

(** X1: every candidate that [_get_icons_weights] returns, by the sparse
    or by the dense scorer, is a column of the mask it was given, and the
    mask is true there. *)
Theorem candidates_pass_edge_validation `{Externals} (self : KillfeedAnalyzer)
  (img : Image) (ev : list bool) (ws : list KillfeedIconMatch) :
  _get_icons_weights self img ev = Ok ws ->
  Forall (fun m => 0 <= x m < Z.of_nat (length ev)
                   /\ py_index ev (x m) = Ok true) ws.
Proof.
  intros Hws.
  pose proof (weights_columns self img ev ws Hws) as Hc.
  pose proof (weights_valid self img ev ws Hws) as Hv.
  rewrite Forall_forall in *. intros m Hm.
  specialize (Hc m Hm). specialize (Hv m Hm).
  pose proof (py_index_Ok_range _ _ _ Hv). repeat split; auto; lia.
Qed.

Lemma candidates_pass_edge_validation_witness :
  let self := analyzer ana_revives_genji stub_game in
  exists ev ws,
    @_validate_edge stub_cv self (killfeed_image self) = Ok ev
    /\ @_get_icons_weights stub_cv self (killfeed_image self) ev = Ok ws
    /\ length ws = 2%nat
    /\ Forall (fun m => 0 <= x m < Z.of_nat (length ev)
                        /\ py_index ev (x m) = Ok true) ws.
Proof.
  intros self.
  destruct (@_validate_edge stub_cv self (killfeed_image self)) as [ev|e] eqn:Hev;
    [|exfalso; revert Hev; vm_compute; intros [=]].
  assert (Hev' := Hev). vm_compute in Hev'. revert Hev'. intros [= <-].
  match type of Hev with _ = Ok ?e => exists e end.
  destruct (@_get_icons_weights stub_cv self (killfeed_image self) _)
    as [ws|e] eqn:Hws;
    [|exfalso; revert Hws; vm_compute; intros [=]].
  exists ws. split; [reflexivity|]. split; [reflexivity|]. split.
  - revert Hws. vm_compute. intros [= <-]. reflexivity.
  - exact (@candidates_pass_edge_validation stub_cv self (killfeed_image self)
             _ ws Hws).
Defined.

(** ** The accepted matches *)

Lemma accept_filter (ev : list bool) (best acc : list KillfeedIconMatch) :
  (forall m, In m best -> (SCORE_THRESHOLD <= score m)%Q ->
             py_index ev (x m) = Ok true) ->
  foldM (accept_step ev) best acc
  = Ok (acc ++ filter (fun m => negb (Qlt_bool (score m) SCORE_THRESHOLD)) best).
Proof.
  revert acc. induction best as [|b best IH]; intros acc Hv; cbn [foldM filter].
  - now rewrite app_nil_r.
  - unfold accept_step at 1.
    destruct (Qlt_bool (score b) SCORE_THRESHOLD) eqn:Es; cbn [bind negb].
    + apply IH. intros; apply Hv; auto. now right.
    + rewrite (Hv b) by
        (try (now left); now apply Qlt_bool_false).
      cbn [bind]. rewrite IH by (intros; apply Hv; auto; now right).
      unfold py_append. now rewrite <- app_assoc.
Qed.

(** What [get_killfeed] has accepted: the entries of the three best
    candidates that reach the threshold. *)
Lemma matched_icons_filter `{Externals} (self : KillfeedAnalyzer)
  (ev : list bool) (ws : list KillfeedIconMatch) :
  _validate_edge self (killfeed_image self) = Ok ev ->
  _get_icons_weights self (killfeed_image self) ev = Ok ws ->
  exists a b c,
    top3 ws = Ok [a; b; c]
    /\ (score b <= score a)%Q /\ (score c <= score b)%Q
    /\ (forall m, In m [a; b; c] -> m = no_match \/ In m ws)
    /\ matched_icons self
       = Ok (ev, filter (fun m => negb (Qlt_bool (score m) SCORE_THRESHOLD))
                        [a; b; c]).
Proof.
  intros Hev Hws.
  destruct (three_best_scan ws [] _ three_best_init)
    as (best & E & a & b & c & rest & -> & Hab & Hbc & _ & _).
  exists a, b, c. split; [exact E|]. split; [exact Hab|]. split; [exact Hbc|].
  split; [apply top3_In; exact E|].
  unfold matched_icons. rewrite Hev. cbn [bind]. rewrite Hws. cbn [bind].
  unfold top3. rewrite E. cbn [bind]. unfold accept.
  rewrite accept_filter; [reflexivity|].
  intros m Hm Hs. destruct (top3_In ws _ E m Hm) as [->|Hin].
  - exfalso. revert Hs. vm_compute. intros Hs. now apply Hs.
  - exact (proj1 (Forall_forall _ _) (weights_valid _ _ _ _ Hws) m Hin).
Qed.

(** X2: once the edge validation and a scorer have returned, the two
    selection loops of [get_killfeed] raise no exception, and the edge
    check of the second loop rejects nothing: the accepted matches are the
    entries of the three best candidates whose score is at least 0.6, in
    the order of the three best. *)
Theorem selection_never_raises `{Externals} (self : KillfeedAnalyzer)
  (ev : list bool) (ws : list KillfeedIconMatch) :
  _validate_edge self (killfeed_image self) = Ok ev ->
  _get_icons_weights self (killfeed_image self) ev = Ok ws ->
  exists best,
    top3 ws = Ok best
    /\ accept ev best
       = Ok (filter (fun m => negb (Qlt_bool (score m) SCORE_THRESHOLD)) best)
    /\ matched_icons self
       = Ok (ev, filter (fun m => negb (Qlt_bool (score m) SCORE_THRESHOLD))
                        best).
Proof.
  intros Hev Hws.
  destruct (matched_icons_filter self ev ws Hev Hws)
    as (a & b & c & E & _ & _ & _ & Hm).
  exists [a; b; c]. split; [exact E|]. split; [|exact Hm].
  revert Hm. unfold matched_icons. rewrite Hev. cbn [bind].
  rewrite Hws. cbn [bind]. rewrite E. cbn [bind].
  destruct (accept ev [a; b; c]); cbn [bind]; [|discriminate].
  now intros [= ->].
Qed.

Lemma selection_never_raises_witness :
  let self := analyzer ana_kills_genji stub_game in
  exists ev ws best,
    @_validate_edge stub_cv self (killfeed_image self) = Ok ev
    /\ @_get_icons_weights stub_cv self (killfeed_image self) ev = Ok ws
    /\ top3 ws = Ok best
    /\ accept ev best
       = Ok (filter (fun m => negb (Qlt_bool (score m) SCORE_THRESHOLD)) best)
    /\ @matched_icons stub_cv self
       = Ok (ev, filter (fun m => negb (Qlt_bool (score m) SCORE_THRESHOLD))
                        best).
Proof.
  intros self.
  destruct (@_validate_edge stub_cv self (killfeed_image self)) as [ev|e] eqn:Hev;
    [|exfalso; revert Hev; vm_compute; intros [=]].
  assert (Hev' := Hev). vm_compute in Hev'. revert Hev'. intros [= <-].
  match type of Hev with _ = Ok ?e => exists e end.
  destruct (@_get_icons_weights stub_cv self (killfeed_image self) _)
    as [ws|e] eqn:Hws;
    [|exfalso; revert Hws; vm_compute; intros [=]].
  destruct (@selection_never_raises stub_cv self _ ws Hev Hws)
    as (best & Hb & Ha & Hm).
  exists ws, best.
  split; [reflexivity|]. split; [reflexivity|]. split; [exact Hb|].
  split; [exact Ha|exact Hm].
Defined.

(** X3: [get_killfeed] accepts at most three matches and keeps them in
    descending order of score, so that the two it uses when more are
    accepted are the two best. *)
Theorem accepted_best_first `{Externals} (self : KillfeedAnalyzer)
  (ev : list bool) (matched : list KillfeedIconMatch) :
  matched_icons self = Ok (ev, matched) ->
  (length matched <= 3)%nat
  /\ ForallOrdPairs (fun a b => (score b <= score a)%Q) matched.
Proof.
  intros Hm.
  assert (Hdec : exists ev' ws,
             _validate_edge self (killfeed_image self) = Ok ev'
             /\ _get_icons_weights self (killfeed_image self) ev' = Ok ws).
  { revert Hm. unfold matched_icons.
    destruct (_validate_edge self (killfeed_image self)) as [ev'|];
      cbn [bind]; [|discriminate].
    destruct (_get_icons_weights self (killfeed_image self) ev') as [ws|]
      eqn:Hws; cbn [bind]; [|discriminate].
    intros _. exists ev', ws. split; [reflexivity|exact Hws]. }
  destruct Hdec as (ev' & ws & Hev & Hws).
  destruct (matched_icons_filter self ev' ws Hev Hws)
    as (a & b & c & _ & Hab & Hbc & _ & Hm').
  rewrite Hm in Hm'. revert Hm'. intros [= _ ->].
  assert (Hac : (score c <= score a)%Q) by (eapply Qle_trans; eauto).
  cbn [filter].
  destruct (negb (Qlt_bool (score a) SCORE_THRESHOLD)),
           (negb (Qlt_bool (score b) SCORE_THRESHOLD)),
           (negb (Qlt_bool (score c) SCORE_THRESHOLD));
    (split; [simpl; lia|]); repeat constructor; assumption.
Qed.

Lemma accepted_best_first_witness :
  let self := analyzer ana_kills_genji stub_game in
  exists ev matched,
    @matched_icons stub_cv self = Ok (ev, matched)
    /\ (length matched <= 3)%nat
    /\ ForallOrdPairs (fun a b => (score b <= score a)%Q) matched.
Proof.
  intros self.
  destruct (@matched_icons stub_cv self) as [[ev matched]|e] eqn:Hm;
    [|exfalso; revert Hm; vm_compute; intros [=]].
  exists ev, matched. split; [reflexivity|].
  exact (@accepted_best_first stub_cv self ev matched Hm).
Defined.

(** ** Rows without an event *)

Lemma accept_placeholders (ev : list bool) :
  accept ev [no_match; no_match; no_match] = Ok [].
Proof. reflexivity. Qed.

Lemma discrete_all_false `{Externals} (self : KillfeedAnalyzer) (img : Image)
  (ev : list bool) (cols : list Z) (acc : list KillfeedIconMatch) :
  Forall (fun c => py_index ev c = Ok false) cols ->
  foldM (discrete_step self img ev) cols acc = Ok acc.
Proof.
  induction 1 as [|c cols Hc _ IH]; cbn [foldM]; [reflexivity|].
  unfold discrete_step at 1. rewrite Hc. cbn [bind negb]. exact IH.
Qed.

Lemma count_true_zero (ev : list bool) :
  count_true ev = 0 -> Forall (fun b => b = false) ev.
Proof.
  unfold count_true. induction ev as [|b ev IH]; intros Hc; constructor.
  - destruct b; [simpl in Hc; lia|reflexivity].
  - apply IH. destruct b; simpl in Hc; [lia|exact Hc].
Qed.

Lemma all_false_index (ev : list bool) (c : Z) :
  Forall (fun b => b = false) ev -> 0 <= c < Z.of_nat (length ev) ->
  py_index ev c = Ok false.
Proof.
  intros Hf Hc. rewrite py_index_nonneg by lia.
  destruct (nth_error ev (Z.to_nat c)) as [b|] eqn:E.
  - apply nth_error_In in E. rewrite Forall_forall in Hf.
    now rewrite (Hf b E).
  - apply nth_error_None in E. lia.
Qed.

(** The analysis of a row whose mask has no valid column. *)
Lemma no_valid_column `{Externals} (img : Image) (fa : FrameAnalyzer)
  (ev : list bool) :
  _validate_edge (__init__ img fa) img = Ok ev ->
  Forall (fun b => b = false) ev ->
  _get_icons_weights (__init__ img fa) img ev = Ok []
  /\ matched_icons (__init__ img fa) = Ok (ev, [])
  /\ fst (get_killfeed (__init__ img fa)) = Ok None.
Proof.
  intros Hev Hf.
  assert (Hws : _get_icons_weights (__init__ img fa) img ev = Ok []).
  { unfold _get_icons_weights.
    assert (Hc : count_true ev = 0).
    { unfold count_true. clear - Hf.
      induction Hf as [|b ev Hb _ IH]; [reflexivity|]. subst b. exact IH. }
    rewrite Hc. cbn [Z.leb Z.compare].
    unfold _get_icons_weights_discrete.
    rewrite discrete_all_false.
    - reflexivity.
    - apply Forall_forall. intros c Hin. apply In_range in Hin.
      apply all_false_index; [exact Hf|lia]. }
  assert (Hm : matched_icons (__init__ img fa) = Ok (ev, [])).
  { unfold matched_icons. cbn [killfeed_image __init__].
    rewrite Hev. cbn [bind]. rewrite Hws. reflexivity. }
  split; [exact Hws|]. split; [exact Hm|].
  now rewrite (get_killfeed_fresh img fa ev [] Hm).
Qed.

(** X4: when the edge validation passes no column, [get_killfeed] returns
    [None]: the sparse scorer is chosen, it returns no candidate, and the
    three placeholders of the selection are all below the threshold. *)
Theorem no_valid_column_no_event `{Externals} (img : Image) (fa : FrameAnalyzer)
  (ev : list bool) :
  _validate_edge (__init__ img fa) img = Ok ev ->
  count_true ev = 0 ->
  _get_icons_weights (__init__ img fa) img ev = Ok []
  /\ fst (get_killfeed (__init__ img fa)) = Ok None.
Proof.
  intros Hev Hc.
  destruct (no_valid_column img fa ev Hev (count_true_zero ev Hc))
    as (Hws & _ & Hk).
  now split.
Qed.

Lemma no_valid_column_no_event_witness :
  let img := row_image [] in
  let fa := stub_frame stub_game in
  exists ev,
    @_validate_edge stub_cv (__init__ img fa) img = Ok ev
    /\ count_true ev = 0
    /\ @_get_icons_weights stub_cv (__init__ img fa) img ev = Ok []
    /\ fst (@get_killfeed stub_cv (__init__ img fa)) = Ok None.
Proof.
  intros img fa.
  destruct (@_validate_edge stub_cv (__init__ img fa) img) as [ev|e] eqn:Hev;
    [|exfalso; revert Hev; vm_compute; intros [=]].
  assert (Hc : count_true ev = 0).
  { assert (Hev' := Hev). vm_compute in Hev'. revert Hev'. intros [= <-].
    reflexivity. }
  exists ev. split; [reflexivity|]. split; [exact Hc|].
  exact (@no_valid_column_no_event stub_cv img fa ev Hev Hc).
Defined.

(** X6: when no candidate of the scorer reaches the score 0.6,
    [get_killfeed] returns [None]. *)
Theorem low_scores_no_event `{Externals} (img : Image) (fa : FrameAnalyzer)
  (ev : list bool) (ws : list KillfeedIconMatch) :
  _validate_edge (__init__ img fa) img = Ok ev ->
  _get_icons_weights (__init__ img fa) img ev = Ok ws ->
  Forall (fun m => (score m < SCORE_THRESHOLD)%Q) ws ->
  matched_icons (__init__ img fa) = Ok (ev, [])
  /\ fst (get_killfeed (__init__ img fa)) = Ok None.
Proof.
  intros Hev Hws Hlow.
  destruct (matched_icons_filter (__init__ img fa) ev ws Hev Hws)
    as (a & b & c & _ & _ & _ & Hin & Hm).
  assert (Hnone : filter (fun m => negb (Qlt_bool (score m) SCORE_THRESHOLD))
                         [a; b; c] = []).
  { assert (Hall : forall m, In m [a; b; c] ->
                     Qlt_bool (score m) SCORE_THRESHOLD = true).
    { intros m Hm'. destruct (Hin m Hm') as [->|Hw]; [reflexivity|].
      apply Qlt_bool_true.
      exact (proj1 (Forall_forall _ _) Hlow m Hw). }
    cbn [filter].
    rewrite (Hall a), (Hall b), (Hall c) by (simpl; auto). reflexivity. }
  rewrite Hnone in Hm. split; [exact Hm|].
  now rewrite (get_killfeed_fresh img fa ev [] Hm).
Qed.

Lemma low_scores_no_event_witness :
  let img := row_image faint_ana in
  let fa := stub_frame stub_game in
  exists ev ws,
    @_validate_edge stub_cv (__init__ img fa) img = Ok ev
    /\ @_get_icons_weights stub_cv (__init__ img fa) img ev = Ok ws
    /\ ws = [mkKillfeedIconMatch "ana" (50 # 100) 50]
    /\ Forall (fun m => (score m < SCORE_THRESHOLD)%Q) ws
    /\ @matched_icons stub_cv (__init__ img fa) = Ok (ev, [])
    /\ fst (@get_killfeed stub_cv (__init__ img fa)) = Ok None.
Proof.
  intros img fa.
  destruct (@_validate_edge stub_cv (__init__ img fa) img) as [ev|e] eqn:Hev;
    [|exfalso; revert Hev; vm_compute; intros [=]].
  assert (Hev' := Hev). vm_compute in Hev'. revert Hev'. intros [= <-].
  match type of Hev with _ = Ok ?e => exists e end.
  destruct (@_get_icons_weights stub_cv (__init__ img fa) img _)
    as [ws|e] eqn:Hws;
    [|exfalso; revert Hws; vm_compute; intros [=]].
  assert (Hws' := Hws). vm_compute in Hws'. revert Hws'. intros [= <-].
  eexists. split; [reflexivity|]. split; [reflexivity|].
  split; [reflexivity|].
  assert (Hlow : Forall (fun m => (score m < SCORE_THRESHOLD)%Q)
                        [mkKillfeedIconMatch "ana" (50 # 100) 50])
    by (repeat constructor).
  split; [exact Hlow|].
  exact (@low_scores_no_event stub_cv img fa _ _ Hev Hws Hlow).
Defined.

(** ** Rows without edges *)

Lemma py_max_In (l : list Q) (m : Q) : py_max l = Ok m -> In m l.
Proof.
  destruct l as [|a l]; simpl; [discriminate|]. intros [= <-].
  revert a. induction l as [|v l IH]; intros a; simpl; [now left|].
  destruct (Qlt_bool a v).
  - destruct (IH v) as [<-|Hin]; auto.
  - destruct (IH a) as [<-|Hin]; auto.
Qed.

Lemma py_slice_incl {A : Type} (l : list A) (lo hi : Z) (v : A) :
  In v (py_slice l lo hi) -> In v l.
Proof.
  unfold py_slice. intros Hin.
  set (a := Z.to_nat (slice_bound (Z.of_nat (length l)) lo)) in *.
  set (k := Z.to_nat (slice_bound (Z.of_nat (length l)) hi
                      - slice_bound (Z.of_nat (length l)) lo)) in *.
  rewrite <- (firstn_skipn a l). apply in_app_iff. right.
  rewrite <- (firstn_skipn k (skipn a l)). apply in_app_iff. now left.
Qed.

Lemma edge_span_sum_blank (e : Gray) :
  Forall (Forall (fun v => v = 0)) (gray_rows e) ->
  Forall (fun s => s = 0) (edge_span_sum e).
Proof.
  intros Hrows. unfold edge_span_sum. apply Forall_forall.
  intros s Hs. apply in_map_iff in Hs. destruct Hs as (j & <- & _).
  assert (Hnth : forall row k, Forall (fun v => v = 0) row -> nth k row 0 = 0).
  { intros row k Hrow. destruct (nth_in_or_default k row 0) as [Hin | Hd];
      [|exact Hd].
    exact (proj1 (Forall_forall _ _) Hrow _ Hin). }
  induction Hrows as [|row rows Hrow _ IH]; simpl; [reflexivity|].
  rewrite IH. unfold edge_span_at. destruct j; [reflexivity|].
  now rewrite !Hnth.
Qed.

Lemma mapM_all_false {A : Type} (f : A -> Result bool) (l : list A) :
  (forall a, In a l -> f a = Ok false) ->
  mapM f l = Ok (repeat false (length l)).
Proof.
  induction l as [|a l IH]; intros Hf; simpl; [reflexivity|].
  rewrite (Hf a) by now left. cbn [bind].
  rewrite IH by (intros; apply Hf; now right). reflexivity.
Qed.

(** X5: on a row in which [cv2.Canny] finds no edge, with templates more
    than two pixels high and an edge map at least [KILLFEED_MAX_WIDTH - 40]
    pixels wide, [_validate_edge] returns a mask that is false everywhere
    and [get_killfeed] returns [None]. *)
Theorem no_edges_no_event `{Externals} (img : Image) (fa : FrameAnalyzer) :
  2 < ICON_CHARACTER_HEIGHT (killfeed_icons fa) ->
  KILLFEED_MAX_WIDTH (fa_fstruc fa) - 40
    <= Z.of_nat (gray_width (Canny img 100 200)) ->
  Forall (Forall (fun v => v = 0)) (gray_rows (Canny img 100 200)) ->
  exists ev,
    _validate_edge (__init__ img fa) img = Ok ev
    /\ Forall (fun b => b = false) ev
    /\ fst (get_killfeed (__init__ img fa)) = Ok None.
Proof.
  intros Hh Hw Hblank.
  set (h := ICON_CHARACTER_HEIGHT (killfeed_icons fa)) in *.
  assert (Htl : (0 < (inject_Z h - 2) / inject_Z h)%Q).
  { apply Qlt_shift_div_l.
    - unfold Qlt, inject_Z. simpl. lia.
    - rewrite Qmult_0_l. unfold Qlt, Qminus, Qplus, Qopp, inject_Z. simpl. lia. }
  assert (Hev : _validate_edge (__init__ img fa) img
                = Ok ([false; false]
                      ++ repeat false
                           (length (range 2 (KILLFEED_MAX_WIDTH (fa_fstruc fa)
                                             - 38)))
                      ++ repeat false 6)).
  { unfold _validate_edge. cbn [icons fstruc __init__]. fold h.
    destruct (h =? 0) eqn:E0; [zlia|].
    rewrite mapM_all_false; [reflexivity|].
    intros i Hi. apply In_range in Hi. unfold edge_valid_at.
    destruct (py_max_total
                (py_slice
                   (map (fun s => (inject_Z s / inject_Z (255 * h))%Q)
                        (edge_span_sum (Canny img 100 200)))
                   (i - 2) (i + 2))) as [ml Hml].
    { intros E. apply (f_equal (@length Q)) in E.
      rewrite py_slice_length in E by lia.
      rewrite length_map in E. unfold edge_span_sum in E.
      rewrite length_map, length_seq in E. simpl in E. lia. }
    rewrite Hml. cbn [bind].
    assert (Hz : (ml == 0)%Q).
    { apply py_max_In, py_slice_incl, in_map_iff in Hml.
      destruct Hml as (s & <- & Hs).
      rewrite (proj1 (Forall_forall _ _)
                 (edge_span_sum_blank _ Hblank) s Hs).
      unfold Qdiv. apply Qmult_0_l. }
    destruct (Qle_bool _ ml) eqn:El; [|reflexivity].
    exfalso. apply Qle_bool_iff in El. rewrite Hz in El.
    exact (Qlt_not_le _ _ Htl El). }
  eexists. split; [exact Hev|].
  assert (Hf : Forall (fun b => b = false)
                 ([false; false]
                  ++ repeat false
                       (length (range 2 (KILLFEED_MAX_WIDTH (fa_fstruc fa)
                                         - 38)))
                  ++ repeat false 6)).
  { repeat (apply Forall_app; split);
      apply Forall_forall; intros b Hb;
      try (apply repeat_spec in Hb; exact Hb).
    destruct Hb as [<-|[<-|[]]]; reflexivity. }
  split; [exact Hf|].
  exact (proj2 (proj2 (no_valid_column img fa _ Hev Hf))).
Qed.

Lemma no_edges_no_event_witness :
  let img := row_image [(50, ana_icon); (93, bluish)]%nat in
  let fa := stub_frame stub_game in
  2 < ICON_CHARACTER_HEIGHT (killfeed_icons fa)
  /\ KILLFEED_MAX_WIDTH (fa_fstruc fa) - 40
     <= Z.of_nat (gray_width (stub_Canny img 100 200))
  /\ Forall (Forall (fun v => v = 0)) (gray_rows (stub_Canny img 100 200))
  /\ exists ev,
       @_validate_edge stub_cv (__init__ img fa) img = Ok ev
       /\ Forall (fun b => b = false) ev
       /\ fst (@get_killfeed stub_cv (__init__ img fa)) = Ok None.
Proof.
  intros img fa.
  assert (Hh : 2 < ICON_CHARACTER_HEIGHT (killfeed_icons fa))
    by (simpl; lia).
  assert (Hw : KILLFEED_MAX_WIDTH (fa_fstruc fa) - 40
               <= Z.of_nat (gray_width (stub_Canny img 100 200)))
    by (vm_compute; intros [=]).
  assert (Hblank : Forall (Forall (fun v => v = 0))
                          (gray_rows (stub_Canny img 100 200))).
  { assert (Hb : forallb (forallb (Z.eqb 0))
                         (gray_rows (stub_Canny img 100 200)) = true)
      by (vm_compute; reflexivity).
    rewrite forallb_forall in Hb.
    apply Forall_forall. intros row Hrow. specialize (Hb row Hrow).
    rewrite forallb_forall in Hb.
    apply Forall_forall. intros v Hv. specialize (Hb v Hv).
    symmetry. now apply Z.eqb_eq. }
  split; [exact Hh|]. split; [exact Hw|]. split; [exact Hblank|].
  exact (@no_edges_no_event stub_cv img fa Hh Hw Hblank).
Defined.

(** ** Names and scores of the candidates *)

Lemma best_icon_spec `{Externals} (patch : Image)
  (items : list (string * Image)) (n0 n : string) (s0 s : Q) :
  foldM (best_icon_step patch) items (n0, s0) = Ok (n, s) ->
  (s0 <= s)%Q
  /\ (forall item, In item items ->
        exists si, _match_template_score patch (snd item) = Ok si
                   /\ (si <= s)%Q)
  /\ ((n, s) = (n0, s0)
      \/ exists item, In item items /\ fst item = n
                      /\ _match_template_score patch (snd item) = Ok s).
Proof.
  revert n0 s0. induction items as [|[name icon] items IH]; intros n0 s0;
    cbn [foldM].
  - intros [= <- <-]. split; [apply Qle_refl|]. split; [intros ? []|now left].
  - unfold best_icon_step at 1.
    destruct (_match_template_score patch icon) as [si|] eqn:Es;
      cbn [bind]; [|discriminate].
    destruct (Qlt_bool s0 si) eqn:Elt; intros E;
      destruct (IH _ _ E) as (Hle & Hall & Hwho).
    + apply Qlt_bool_true in Elt. split; [|split].
      * apply Qlt_le_weak. eapply Qlt_le_trans; eauto.
      * intros item [<-|Hin]; [|now apply Hall].
        exists si. split; [exact Es|exact Hle].
      * right. destruct Hwho as [[= -> ->]|(item & Hin & Hn & Hs)].
        -- exists (name, icon). split; [now left|]. split; [reflexivity|exact Es].
        -- exists item. split; [now right|]. now split.
    + apply Qlt_bool_false in Elt. split; [exact Hle|split].
      * intros item [<-|Hin]; [|now apply Hall].
        exists si. split; [exact Es|]. eapply Qle_trans; eauto.
      * destruct Hwho as [Heq|(item & Hin & Hn & Hs)]; [now left|].
        right. exists item. split; [now right|]. now split.
Qed.

(** The best template of the patch at a column, as the sparse scorer
    computes it. *)
Lemma discrete_raw_best `{Externals} (self : KillfeedAnalyzer) (img : Image)
  (ev : list bool) (cols : list Z) (acc raw : list KillfeedIconMatch) :
  let best_at m :=
    foldM (best_icon_step
             (crop_by_limit img 0 (ICON_CHARACTER_HEIGHT (icons self))
                            (x m) (ICON_CHARACTER_WIDTH (icons self))))
          (ICONS_CHARACTER (icons self)) (EmptyString, (-1)%Q)
    = Ok (object_name m, score m) in
  Forall best_at acc ->
  foldM (discrete_step self img ev) cols acc = Ok raw ->
  Forall best_at raw.
Proof.
  intros best_at. revert acc.
  induction cols as [|c cols IH]; intros acc Hacc; cbn [foldM].
  - now intros [= <-].
  - destruct (discrete_step self img ev acc c) as [acc1|] eqn:E;
      cbn [bind]; [|discriminate].
    apply IH. unfold discrete_step in E.
    destruct (py_index ev c) as [e|]; cbn [bind] in E; [|discriminate].
    destruct (negb e); [revert E; intros [= <-]; exact Hacc|].
    destruct (foldM _ _ _) as [[bn bs]|] eqn:Eb; cbn [bind] in E;
      [|discriminate].
    revert E; intros [= <-]. apply Forall_app. split; [exact Hacc|].
    constructor; [exact Eb|constructor].
Qed.

(** X7: every match of the sparse scorer carries the best score of its
    column: no template scores more on the patch cropped at that column,
    and the match names a template that reaches this score (or has the
    empty name and the score -1, when no template scores above -1). *)
Theorem discrete_match_is_best_template `{Externals} (self : KillfeedAnalyzer)
  (img : Image) (ev : list bool) (res : list KillfeedIconMatch) :
  _get_icons_weights_discrete self img ev = Ok res ->
  forall m, In m res ->
    let patch := crop_by_limit img 0 (ICON_CHARACTER_HEIGHT (icons self))
                               (x m) (ICON_CHARACTER_WIDTH (icons self)) in
    (-1 <= score m)%Q
    /\ (forall item, In item (ICONS_CHARACTER (icons self)) ->
          exists si, _match_template_score patch (snd item) = Ok si
                     /\ (si <= score m)%Q)
    /\ ((object_name m = EmptyString /\ score m = (-1)%Q)
        \/ exists item, In item (ICONS_CHARACTER (icons self))
                        /\ fst item = object_name m
                        /\ _match_template_score patch (snd item)
                           = Ok (score m)).
Proof.
  unfold _get_icons_weights_discrete.
  destruct (foldM _ _ _) as [raw|] eqn:E; cbn [bind]; [|discriminate].
  intros Hs m Hm. cbv zeta.
  assert (Hcols : Forall (fun m => 0 <= x m < Z.of_nat (length ev)) raw).
  { apply (discrete_raw_columns self img ev
             (fun c => 0 <= c < Z.of_nat (length ev))
             (range 0 (Z.of_nat (length ev))) [] raw);
      [|constructor|exact E].
    apply Forall_forall. intros c Hc. apply In_range in Hc. lia. }
  destruct (suppress_spec (length ev) (sort_by_score_desc raw))
    as (res' & E' & _ & Hsub & _).
  { rewrite Forall_forall in *. intros a Ha.
    apply Hcols. now apply sort_by_score_desc_In. }
  assert (res' = res) by congruence. subst res'.
  apply Hsub in Hm. apply (proj1 (sort_by_score_desc_In m raw)) in Hm.
  pose proof (discrete_raw_best self img ev _ [] raw (Forall_nil _) E) as Hb.
  rewrite Forall_forall in Hb. specialize (Hb m Hm).
  destruct (best_icon_spec _ _ _ _ _ _ Hb) as (Hle & Hall & Hwho).
  split; [exact Hle|]. split; [exact Hall|].
  destruct Hwho as [[= -> ->]|Hex]; [left; now split|right; exact Hex].
Qed.

Lemma discrete_match_is_best_template_witness :
  let self := analyzer ana_revives_genji stub_game in
  let img := killfeed_image self in
  exists ev res,
    @_validate_edge stub_cv self img = Ok ev
    /\ @_get_icons_weights_discrete stub_cv self img ev = Ok res
    /\ forall m, In m res ->
         (-1 <= score m)%Q
         /\ (forall item, In item (ICONS_CHARACTER (icons self)) ->
               exists si,
                 @_match_template_score stub_cv
                   (stub_crop_by_limit img 0 6 (x m) 38) (snd item) = Ok si
                 /\ (si <= score m)%Q).
Proof.
  intros self img.
  destruct (@_validate_edge stub_cv self img) as [ev|e] eqn:Hev;
    [|exfalso; revert Hev; vm_compute; intros [=]].
  assert (Hev' := Hev). vm_compute in Hev'. revert Hev'. intros [= <-].
  match type of Hev with _ = Ok ?e => exists e end.
  destruct (@_get_icons_weights_discrete stub_cv self img _)
    as [res|e] eqn:Hres;
    [|exfalso; revert Hres; vm_compute; intros [=]].
  exists res. split; [reflexivity|]. split; [reflexivity|].
  intros m Hm.
  destruct (@discrete_match_is_best_template stub_cv self img _ res Hres m Hm)
    as (Hle & Hall & _).
  split; [exact Hle|exact Hall].
Defined.

Lemma full_step_new `{Externals} (self : KillfeedAnalyzer) (img : Image)
  (ev : list bool) (acc acc' : list KillfeedIconMatch)
  (name : string) (icon : Image) :
  full_step self img ev acc (name, icon) = Ok acc' ->
  exists new,
    acc' = acc ++ new
    /\ (length new <= 2)%nat
    /\ Forall (fun m => object_name m = name) new.
Proof.
  unfold full_step.
  destruct (minMaxLoc (matchTemplate img icon)) as [[v1 x1]|];
    cbn [bind]; [|discriminate].
  destruct (py_index ev x1) as [e1|]; cbn [bind]; [|discriminate].
  destruct (np_slice_assign _ _ _ _) as [a'|]; cbn [bind]; [|discriminate].
  destruct (minMaxLoc a') as [[v2 x2]|]; cbn [bind]; [|discriminate].
  destruct (py_index ev x2) as [e2|]; cbn [bind]; [|discriminate].
  intros [= <-]. destruct e1, e2.
  - exists [mkKillfeedIconMatch name v1 x1; mkKillfeedIconMatch name v2 x2].
    split; [now rewrite <- app_assoc|]. split; [simpl; lia|repeat constructor].
  - exists [mkKillfeedIconMatch name v1 x1].
    split; [reflexivity|]. split; [simpl; lia|repeat constructor].
  - exists [mkKillfeedIconMatch name v2 x2].
    split; [reflexivity|]. split; [simpl; lia|repeat constructor].
  - exists []. split; [now rewrite app_nil_r|]. split; [simpl; lia|constructor].
Qed.

Lemma full_scan_new `{Externals} (self : KillfeedAnalyzer) (img : Image)
  (ev : list bool) (items : list (string * Image))
  (acc res : list KillfeedIconMatch) :
  foldM (full_step self img ev) items acc = Ok res ->
  exists new,
    res = acc ++ new
    /\ (length new <= 2 * length items)%nat
    /\ Forall (fun m => In (object_name m) (map fst items)) new.
Proof.
  revert acc. induction items as [|[name icon] items IH]; intros acc;
    cbn [foldM].
  - intros [= <-]. exists []. split; [now rewrite app_nil_r|].
    split; [simpl; lia|constructor].
  - destruct (full_step self img ev acc (name, icon)) as [acc1|] eqn:E;
      cbn [bind]; [|discriminate].
    intros Hres.
    destruct (full_step_new _ _ _ _ _ _ _ E) as (new1 & -> & Hl1 & Hn1).
    destruct (IH _ Hres) as (new2 & -> & Hl2 & Hn2).
    exists (new1 ++ new2). split; [now rewrite app_assoc|]. split.
    + rewrite length_app. simpl. lia.
    + apply Forall_app. split.
      * eapply Forall_impl; [|exact Hn1]. intros m ->. now left.
      * eapply Forall_impl; [|exact Hn2]. intros m Hm. now right.
Qed.

Lemma matches_named_app (name : string) (l1 l2 : list KillfeedIconMatch) :
  matches_named name (l1 ++ l2)
  = matches_named name l1 ++ matches_named name l2.
Proof. apply filter_app. Qed.

Lemma matches_named_length (name : string) (l : list KillfeedIconMatch) :
  (length (matches_named name l) <= length l)%nat.
Proof.
  unfold matches_named. induction l as [|m l IH]; cbn [filter length].
  - lia.
  - destruct (String.eqb _ _); cbn [length]; lia.
Qed.

Lemma matches_named_other (name other : string)
  (l : list KillfeedIconMatch) :
  Forall (fun m => object_name m = other) l ->
  String.eqb other name = false ->
  matches_named name l = [].
Proof.
  intros Hall Hne. unfold matches_named.
  induction Hall as [|m l Hm _ IH]; cbn [filter]; [reflexivity|].
  now rewrite Hm, Hne.
Qed.

Lemma templates_named_absent (name : string) (items : list (string * Image)) :
  ~ In name (map fst items) -> templates_named name items = [].
Proof.
  unfold templates_named.
  induction items as [|[n i] items IH]; cbn [filter map fst];
    [reflexivity|].
  intros Hnot. destruct (String.eqb_spec n name) as [->|_].
  - exfalso. apply Hnot. now left.
  - apply IH. intros Hin. apply Hnot. now right.
Qed.

Lemma templates_named_nodup (name : string) (items : list (string * Image)) :
  NoDup (map fst items) -> (length (templates_named name items) <= 1)%nat.
Proof.
  induction items as [|[n i] items IH]; cbn [map fst]; intros Hnd.
  - simpl. lia.
  - inversion Hnd as [|? ? Hnot Hnd']; subst.
    unfold templates_named. cbn [filter fst].
    destruct (String.eqb_spec n name) as [->|_].
    + fold (templates_named name items).
      rewrite (templates_named_absent name items Hnot). simpl. lia.
    + exact (IH Hnd').
Qed.

Lemma full_scan_named `{Externals} (self : KillfeedAnalyzer) (img : Image)
  (ev : list bool) (items : list (string * Image))
  (acc res : list KillfeedIconMatch) :
  foldM (full_step self img ev) items acc = Ok res ->
  exists new,
    res = acc ++ new
    /\ forall name,
         (length (matches_named name new)
          <= 2 * length (templates_named name items))%nat.
Proof.
  revert acc. induction items as [|[name0 icon] items IH]; intros acc;
    cbn [foldM].
  - intros [= <-]. exists []. split; [now rewrite app_nil_r|].
    intros name. simpl. lia.
  - destruct (full_step self img ev acc (name0, icon)) as [acc1|] eqn:E;
      cbn [bind]; [|discriminate].
    intros Hres.
    destruct (full_step_new _ _ _ _ _ _ _ E) as (new1 & -> & Hl1 & Hn1).
    destruct (IH _ Hres) as (new2 & -> & Hcount).
    exists (new1 ++ new2). split; [now rewrite app_assoc|].
    intros name. rewrite matches_named_app, length_app.
    specialize (Hcount name).
    unfold templates_named at 1. cbn [filter fst].
    fold (templates_named name items).
    destruct (String.eqb name0 name) eqn:En.
    + pose proof (matches_named_length name new1). cbn [length]. lia.
    + rewrite (matches_named_other name name0 new1 Hn1 En). simpl. lia.
Qed.

(** X8: for every name, the dense scorer returns at most two matches
    under that name for each template that the library holds under it:
    at most two matches under any one name when the names of the library
    are distinct.  Every match it returns names a template of the library,
    and it returns at most twice as many matches as the library has
    templates. *)
Theorem full_at_most_two_per_template `{Externals} (self : KillfeedAnalyzer)
  (img : Image) (ev : list bool) (res : list KillfeedIconMatch) :
  _get_icons_weights_full self img ev = Ok res ->
  (forall name,
      (length (matches_named name res)
       <= 2 * length (templates_named name (ICONS_CHARACTER (icons self))))%nat)
  /\ (NoDup (map fst (ICONS_CHARACTER (icons self))) ->
      forall name, (length (matches_named name res) <= 2)%nat)
  /\ Forall (fun m => In (object_name m)
                         (map fst (ICONS_CHARACTER (icons self)))) res
  /\ (length res <= 2 * length (ICONS_CHARACTER (icons self)))%nat.
Proof.
  unfold _get_icons_weights_full. intros E.
  destruct (full_scan_named _ _ _ _ _ _ E) as (new & Hres & Hcount).
  simpl in Hres. subst new.
  destruct (full_scan_new _ _ _ _ _ _ E) as (new & -> & Hl & Hn).
  split; [exact Hcount|]. split; [|now split].
  intros Hnd name.
  pose proof (Hcount name).
  pose proof (templates_named_nodup name _ Hnd). lia.
Qed.

Lemma full_at_most_two_per_template_witness :
  let self := analyzer ana_kills_genji stub_game in
  let img := killfeed_image self in
  exists ev res,
    @_validate_edge stub_cv self img = Ok ev
    /\ @_get_icons_weights_full stub_cv self img ev = Ok res
    /\ NoDup (map fst (ICONS_CHARACTER (icons self)))
    /\ (forall name,
          (length (matches_named name res)
           <= 2 * length (templates_named name
                            (ICONS_CHARACTER (icons self))))%nat)
    /\ (forall name, (length (matches_named name res) <= 2)%nat)
    /\ Forall (fun m => In (object_name m) ["ana"%string; "genji"%string]) res
    /\ (length res <= 2 * 2)%nat.
Proof.
  intros self img.
  destruct (@_validate_edge stub_cv self img) as [ev|e] eqn:Hev;
    [|exfalso; revert Hev; vm_compute; intros [=]].
  assert (Hev' := Hev). vm_compute in Hev'. revert Hev'. intros [= <-].
  match type of Hev with _ = Ok ?e => exists e end.
  destruct (@_get_icons_weights_full stub_cv self img _)
    as [res|e] eqn:Hres;
    [|exfalso; revert Hres; vm_compute; intros [=]].
  assert (Hnd : NoDup (map fst (ICONS_CHARACTER (icons self)))).
  { simpl. repeat constructor; simpl; intuition discriminate. }
  destruct (@full_at_most_two_per_template stub_cv self img _ res Hres)
    as (Hcount & Htwo & Hnames & Hlen).
  exists res. split; [reflexivity|]. split; [reflexivity|].
  split; [exact Hnd|]. split; [exact Hcount|].
  split; [exact (Htwo Hnd)|]. split; [exact Hnames|exact Hlen].
Defined.

(** ** Shape of the returned event *)

Lemma weights_names `{Externals} (self : KillfeedAnalyzer) (img : Image)
  (ev : list bool) (ws : list KillfeedIconMatch) :
  _get_icons_weights self img ev = Ok ws ->
  Forall (fun m => In (object_name m) (map fst (ICONS_CHARACTER (icons self)))
                   \/ score m = (-1)%Q) ws.
Proof.
  unfold _get_icons_weights. destruct (count_true ev <=? 7).
  - unfold _get_icons_weights_discrete.
    destruct (foldM _ _ _) as [raw|] eqn:E; cbn [bind]; [|discriminate].
    intros Hs.
    assert (Hcols : Forall (fun m => 0 <= x m < Z.of_nat (length ev)) raw).
    { apply (discrete_raw_columns self img ev
               (fun c => 0 <= c < Z.of_nat (length ev))
               (range 0 (Z.of_nat (length ev))) [] raw);
        [|constructor|exact E].
      apply Forall_forall. intros c Hc. apply In_range in Hc. lia. }
    destruct (suppress_spec (length ev) (sort_by_score_desc raw))
      as (res' & E' & _ & Hsub & _).
    { rewrite Forall_forall in *. intros a Ha.
      apply Hcols. now apply sort_by_score_desc_In. }
    assert (res' = ws) by congruence. subst res'.
    pose proof (discrete_raw_best self img ev _ [] raw (Forall_nil _) E) as Hb.
    rewrite Forall_forall in Hb.
    apply Forall_forall. intros m Hm.
    apply Hsub in Hm. apply (proj1 (sort_by_score_desc_In m raw)) in Hm.
    destruct (best_icon_spec _ _ _ _ _ _ (Hb m Hm)) as (_ & _ & Hwho).
    destruct Hwho as [[= _ ->]|(item & Hin & Hn & _)]; [now right|].
    left. rewrite <- Hn. now apply in_map.
  - unfold _get_icons_weights_full. intros E.
    destruct (full_scan_new _ _ _ _ _ _ E) as (new & -> & _ & Hn).
    eapply Forall_impl; [|exact Hn]. intros m Hm. now left.
Qed.

Lemma accepted_from_candidates `{Externals} (self : KillfeedAnalyzer)
  (ev : list bool) (matched : list KillfeedIconMatch) :
  matched_icons self = Ok (ev, matched) ->
  forall m, In m matched ->
    (SCORE_THRESHOLD <= score m)%Q
    /\ In (object_name m) (map fst (ICONS_CHARACTER (icons self))).
Proof.
  unfold matched_icons.
  destruct (_validate_edge self (killfeed_image self)) as [ev'|] eqn:Hev;
    cbn [bind]; [|discriminate].
  destruct (_get_icons_weights self (killfeed_image self) ev') as [ws|] eqn:Hws;
    cbn [bind]; [|discriminate].
  destruct (top3 ws) as [best|] eqn:Hbest; cbn [bind]; [|discriminate].
  destruct (accept ev' best) as [matched'|] eqn:Hacc; cbn [bind];
    [|discriminate].
  intros [= <- <-] m Hm.
  apply (accept_scan ev' best [] matched' Hacc) in Hm.
  destruct Hm as [[]|(Hin & Hs & _)].
  split; [exact Hs|].
  assert (Hlow : ~ (SCORE_THRESHOLD <= -1)%Q)
    by (vm_compute; intros Hc; now apply Hc).
  destruct (top3_In ws best Hbest m Hin) as [->|Hw]; [now elim Hlow|].
  destruct (proj1 (Forall_forall _ _) (weights_names _ _ _ _ Hws) m Hw)
    as [Hn|Hminus]; [exact Hn|].
  rewrite Hminus in Hs. now elim Hlow.
Qed.

(** X9: an event that [get_killfeed] returns has the identifier "test" and
    the time of the frame; its second character is a template of the
    library that reached the score 0.6, with one of the two team names.
    Either it is a self-elimination without first character and first
    team, or its first character is such a template too, with one of the
    two team names, and the event is a resurrection when the two teams are
    equal and an elimination when they differ. *)
Theorem returned_event_shape `{Externals} (img : Image) (fa : FrameAnalyzer)
  (k : Killfeed) :
  fst (get_killfeed (__init__ img fa)) = Ok (Some k) ->
  let names := map fst (ICONS_CHARACTER (killfeed_icons fa)) in
  let is_team t := t = name_team1 (game fa) \/ t = name_team2 (game fa) in
  kf_id k = "test"%string
  /\ kf_time k = fa_time fa
  /\ (exists n2 t2,
        kf_character2 k = Some n2 /\ kf_team2 k = Some t2
        /\ In n2 names /\ is_team t2)
  /\ ((kf_event k = SUICIDE /\ kf_character1 k = None /\ kf_team1 k = None)
      \/ (exists n1 t1,
             kf_character1 k = Some n1 /\ kf_team1 k = Some t1
             /\ In n1 names /\ is_team t1
             /\ ((kf_event k = RESURRECTION /\ kf_team1 k = kf_team2 k)
                 \/ (kf_event k = ELIMINATION
                     /\ kf_team1 k <> kf_team2 k)))).
Proof.
  intros Hk names is_team.
  destruct (matched_icons (__init__ img fa)) as [[ev matched]|e] eqn:Hm.
  2:{ revert Hk. unfold get_killfeed. cbn [killfeed __init__ fst].
      rewrite Hm. discriminate. }
  rewrite (get_killfeed_fresh img fa ev matched Hm) in Hk.
  pose proof (accepted_from_candidates _ ev matched Hm) as Hacc.
  clear Hm. revert Hk. unfold decide_killfeed.
  destruct matched as [|m0 [|m1 rest]]; cbn [length].
  - discriminate.
  - change (py_index [m0] 0) with (Ok m0). cbn [bind].
    destruct (x m0 <? _); [discriminate|].
    unfold _generate_killfeed. cbn [length Nat.eqb].
    change (py_index [m0] 0) with (Ok m0). cbn [bind].
    destruct (_get_icon_team (__init__ img fa) m0 RIGHT) as [t|] eqn:Et;
      cbn [bind]; [|discriminate].
    intros [= <-]. cbn.
    split; [reflexivity|]. split; [reflexivity|]. split.
    + exists (object_name m0), t. repeat split.
      * apply (Hacc m0). now left.
      * exact (get_icon_team_names _ _ _ _ Et).
    + left. repeat split.
  - rewrite py_slice_first_two.
    unfold _generate_killfeed. cbn [length Nat.eqb].
    change (py_index [m0; m1] 0) with (Ok m0).
    change (py_index [m0; m1] 1) with (Ok m1). cbn [bind].
    assert (Hgen : forall a b, In a (m0 :: m1 :: rest) ->
              In b (m0 :: m1 :: rest) ->
              (k0 <- (a' <- py_index [a; b] 0 ;;
                      team1 <- _get_icon_team (__init__ img fa) a' LEFT ;;
                      b' <- py_index [a; b] 1 ;;
                      team2 <- _get_icon_team (__init__ img fa) b' RIGHT ;;
                      Ok (mkKillfeed "test" (time (__init__ img fa))
                            (Some team1) (Some team2)
                            (Some (object_name a')) (Some (object_name b'))
                            (if String.eqb team1 team2
                             then RESURRECTION else ELIMINATION))) ;;
               Ok (Some k0)) = Ok (Some k) ->
              kf_id k = "test"%string
              /\ kf_time k = fa_time fa
              /\ (exists n2 t2,
                    kf_character2 k = Some n2 /\ kf_team2 k = Some t2
                    /\ In n2 names /\ is_team t2)
              /\ ((kf_event k = SUICIDE /\ kf_character1 k = None
                   /\ kf_team1 k = None)
                  \/ (exists n1 t1,
                         kf_character1 k = Some n1 /\ kf_team1 k = Some t1
                         /\ In n1 names /\ is_team t1
                         /\ ((kf_event k = RESURRECTION
                              /\ kf_team1 k = kf_team2 k)
                             \/ (kf_event k = ELIMINATION
                                 /\ kf_team1 k <> kf_team2 k))))).
    { intros a b Ha Hb.
      change (py_index [a; b] 0) with (Ok a).
      change (py_index [a; b] 1) with (Ok b). cbn [bind].
      destruct (_get_icon_team (__init__ img fa) a LEFT) as [t1|] eqn:E1;
        cbn [bind]; [|discriminate].
      destruct (_get_icon_team (__init__ img fa) b RIGHT) as [t2|] eqn:E2;
        cbn [bind]; [|discriminate].
      intros [= <-]. cbn.
      split; [reflexivity|]. split; [reflexivity|]. split.
      - exists (object_name b), t2. repeat split.
        + apply (Hacc b Hb).
        + exact (get_icon_team_names _ _ _ _ E2).
      - right. exists (object_name a), t1.
        split; [reflexivity|]. split; [reflexivity|].
        split; [apply (Hacc a Ha)|].
        split; [exact (get_icon_team_names _ _ _ _ E1)|].
        destruct (String.eqb_spec t1 t2) as [->|Hne].
        + left. now split.
        + right. split; [reflexivity|]. intros [= Heq]. now apply Hne. }
    destruct (x m1 <? x m0).
    + apply Hgen; simpl; auto.
    + apply Hgen; simpl; auto.
Qed.

Lemma returned_event_shape_witness :
  let img := row_image ana_kills_genji in
  let fa := stub_frame stub_game in
  exists k,
    fst (@get_killfeed stub_cv (__init__ img fa)) = Ok (Some k)
    /\ kf_id k = "test"%string
    /\ kf_time k = 12%Q
    /\ (exists n2 t2,
          kf_character2 k = Some n2 /\ kf_team2 k = Some t2
          /\ In n2 ["ana"%string; "genji"%string]
          /\ (t2 = "blue"%string \/ t2 = "red"%string))
    /\ ((kf_event k = SUICIDE /\ kf_character1 k = None
         /\ kf_team1 k = None)
        \/ (exists n1 t1,
               kf_character1 k = Some n1 /\ kf_team1 k = Some t1
               /\ In n1 ["ana"%string; "genji"%string]
               /\ (t1 = "blue"%string \/ t1 = "red"%string)
               /\ ((kf_event k = RESURRECTION /\ kf_team1 k = kf_team2 k)
                   \/ (kf_event k = ELIMINATION
                       /\ kf_team1 k <> kf_team2 k)))).
Proof.
  intros img fa.
  destruct (fst (@get_killfeed stub_cv (__init__ img fa))) as [[k|]|e] eqn:Hk;
    [| exfalso; revert Hk; vm_compute; intros [=]
     | exfalso; revert Hk; vm_compute; intros [=]].
  exists k. split; [reflexivity|].
  exact (@returned_event_shape stub_cv img fa k Hk).
Defined.

(** ** Order and coverage of the sparse scorer *)

Lemma insert_desc_sorted (m : KillfeedIconMatch) (l : list KillfeedIconMatch) :
  ForallOrdPairs (fun a b => (score b <= score a)%Q) l ->
  ForallOrdPairs (fun a b => (score b <= score a)%Q) (insert_desc m l).
Proof.
  induction 1 as [|y l Hy Hl IH]; simpl.
  - repeat constructor.
  - destruct (Qlt_bool (score m) (score y)) eqn:E.
    + apply Qlt_bool_true in E. constructor; [|exact IH].
      apply Forall_forall. intros z Hz. apply insert_desc_In in Hz.
      destruct Hz as [->|Hz]; [now apply Qlt_le_weak|].
      exact (proj1 (Forall_forall _ _) Hy z Hz).
    + apply Qlt_bool_false in E. constructor.
      * constructor; [exact E|].
        eapply Forall_impl; [|exact Hy]. intros z Hz.
        exact (Qle_trans _ _ _ Hz E).
      * constructor; assumption.
Qed.

Lemma sort_by_score_desc_sorted (l : list KillfeedIconMatch) :
  ForallOrdPairs (fun a b => (score b <= score a)%Q) (sort_by_score_desc l).
Proof.
  induction l as [|m l IH]; simpl; [constructor|].
  now apply insert_desc_sorted.
Qed.

Lemma ForallOrdPairs_remove {A : Type} (R : A -> A -> Prop)
  (l1 l2 : list A) (m : A) :
  ForallOrdPairs R (l1 ++ m :: l2) -> ForallOrdPairs R (l1 ++ l2).
Proof.
  induction l1 as [|a l1 IH]; simpl; intros Hp.
  - now inversion Hp.
  - inversion Hp as [|? ? Ha Hl]; subst. constructor; [|now apply IH].
    apply Forall_app in Ha. destruct Ha as [H1 H2].
    apply Forall_app. split; [exact H1|]. now inversion H2.
Qed.

Lemma suppress_scan_order (R : KillfeedIconMatch -> KillfeedIconMatch -> Prop)
  (raw : list KillfeedIconMatch) (st st' : list bool * list KillfeedIconMatch) :
  ForallOrdPairs R (snd st ++ raw) ->
  foldM suppress_step raw st = Ok st' ->
  ForallOrdPairs R (snd st').
Proof.
  revert st. induction raw as [|m raw IH]; intros [mask acc]; cbn [foldM snd].
  - rewrite app_nil_r. now intros Hp [= <-].
  - intros Hp. unfold suppress_step at 1.
    destruct (py_index mask (x m)) as [covered|]; cbn [bind]; [|discriminate].
    destruct covered.
    + apply IH. cbn [snd]. eapply ForallOrdPairs_remove. exact Hp.
    + apply IH. cbn [snd]. now rewrite <- app_assoc.
Qed.

Lemma discrete_raw_complete `{Externals} (self : KillfeedAnalyzer)
  (img : Image) (ev : list bool)
  (cols : list Z) (acc raw : list KillfeedIconMatch) :
  foldM (discrete_step self img ev) cols acc = Ok raw ->
  (forall m, In m acc -> In m raw)
  /\ (forall c, In c cols -> py_index ev c = Ok true ->
        exists m, In m raw /\ x m = c).
Proof.
  revert acc. induction cols as [|c cols IH]; intros acc; cbn [foldM].
  - intros [= <-]. split; [auto|intros ? []].
  - destruct (discrete_step self img ev acc c) as [acc1|] eqn:E;
      cbn [bind]; [|discriminate].
    intros Hraw. destruct (IH _ Hraw) as [Hsub Hall].
    unfold discrete_step in E.
    destruct (py_index ev c) as [e|] eqn:Ee; cbn [bind] in E; [|discriminate].
    destruct e; cbn [negb] in E.
    + destruct (foldM _ _ _) as [[bn bs]|]; cbn [bind] in E; [|discriminate].
      revert E; intros [= <-]. split.
      * intros m Hm. apply Hsub, in_app_iff. now left.
      * intros c' [<-|Hc'] Hv; [|now apply Hall].
        eexists. split; [apply Hsub, in_app_iff; right; now left|reflexivity].
    + revert E; intros [= <-]. split; [exact Hsub|].
      intros c' [<-|Hc'] Hv; [congruence|now apply Hall].
Qed.

(** X10: the matches of the sparse scorer come in descending order of
    score, and every column that passes the edge validation lies in the
    window, from x - 5 to x + 4, of a match at column x that the scorer
    returns. *)
Theorem discrete_sorted_and_covering `{Externals} (self : KillfeedAnalyzer)
  (img : Image) (ev : list bool) (res : list KillfeedIconMatch) :
  _get_icons_weights_discrete self img ev = Ok res ->
  ForallOrdPairs (fun a b => (score b <= score a)%Q) res
  /\ (forall c, 0 <= c -> py_index ev c = Ok true ->
        exists a, In a res /\ x a - 5 <= c < x a + 5).
Proof.
  unfold _get_icons_weights_discrete.
  destruct (foldM _ _ _) as [raw|] eqn:E; cbn [bind]; [|discriminate].
  intros Hs. split.
  - revert Hs. unfold suppress.
    destruct (foldM suppress_step _ _) as [st'|] eqn:Es; cbn [bind];
      [|discriminate].
    intros [= <-].
    apply (suppress_scan_order _ (sort_by_score_desc raw)
             (repeat false (length ev), []) st'); [|exact Es].
    apply sort_by_score_desc_sorted.
  - intros c Hc Hv.
    assert (Hcols : Forall (fun m => 0 <= x m < Z.of_nat (length ev)) raw).
    { apply (discrete_raw_columns self img ev
               (fun c => 0 <= c < Z.of_nat (length ev))
               (range 0 (Z.of_nat (length ev))) [] raw);
        [|constructor|exact E].
      apply Forall_forall. intros c' Hc'. apply In_range in Hc'. lia. }
    destruct (suppress_spec (length ev) (sort_by_score_desc raw))
      as (res' & E' & _ & _ & Hcomp).
    { rewrite Forall_forall in *. intros a Ha.
      apply Hcols. now apply sort_by_score_desc_In. }
    assert (res' = res) by congruence. subst res'.
    destruct (discrete_raw_complete self img ev _ [] raw E) as [_ Hall].
    destruct (Hall c) as (m & Hm & <-); [|exact Hv|].
    { apply In_range. pose proof (py_index_Ok_range _ _ _ Hv). lia. }
    destruct (Hcomp m) as [Hin|Hex].
    + now apply sort_by_score_desc_In.
    + exists m. split; [exact Hin|lia].
    + exact Hex.
Qed.

Lemma discrete_sorted_and_covering_witness :
  let self := analyzer ana_revives_genji stub_game in
  let img := killfeed_image self in
  exists ev res,
    @_validate_edge stub_cv self img = Ok ev
    /\ @_get_icons_weights_discrete stub_cv self img ev = Ok res
    /\ ForallOrdPairs (fun a b => (score b <= score a)%Q) res
    /\ (forall c, 0 <= c -> py_index ev c = Ok true ->
          exists a, In a res /\ x a - 5 <= c < x a + 5).
Proof.
  intros self img.
  destruct (@_validate_edge stub_cv self img) as [ev|e] eqn:Hev;
    [|exfalso; revert Hev; vm_compute; intros [=]].
  assert (Hev' := Hev). vm_compute in Hev'. revert Hev'. intros [= <-].
  match type of Hev with _ = Ok ?e => exists e end.
  destruct (@_get_icons_weights_discrete stub_cv self img _)
    as [res|e] eqn:Hres;
    [|exfalso; revert Hres; vm_compute; intros [=]].
  exists res. split; [reflexivity|]. split; [reflexivity|].
  exact (@discrete_sorted_and_covering stub_cv self img _ res Hres).
Defined.

(** ** Meaning of the edge mask *)

Lemma mapM_nth {A B : Type} (f : A -> Result B) (l : list A) (r : list B)
  (k : nat) (a : A) :
  mapM f l = Ok r -> nth_error l k = Some a ->
  exists b, nth_error r k = Some b /\ f a = Ok b.
Proof.
  revert r k. induction l as [|a0 l IH]; intros r k; simpl.
  - intros _ Hk. destruct k; discriminate.
  - destruct (f a0) as [b0|] eqn:E0; cbn [bind]; [|discriminate].
    destruct (mapM f l) as [bs|]; cbn [bind]; [|discriminate].
    intros [= <-] Hk. destruct k; simpl in *.
    + revert Hk; intros [= <-]. eauto.
    + now apply IH.
Qed.

Lemma range_nth (lo hi : Z) (k : nat) :
  (k < Z.to_nat (hi - lo))%nat ->
  nth_error (range lo hi) k = Some (lo + Z.of_nat k).
Proof.
  intros Hk. unfold range.
  rewrite nth_error_map, nth_error_seq.
  destruct (Nat.ltb_spec k (Z.to_nat (hi - lo))); [reflexivity|lia].
Qed.

Lemma py_max_upper (l : list Q) (m : Q) :
  py_max l = Ok m -> forall v, In v l -> (v <= m)%Q.
Proof.
  destruct l as [|a l]; simpl; [discriminate|]. intros [= <-].
  assert (Hmono : forall l a, (a <= fold_left (fun m v => if Qlt_bool m v
                                                         then v else m) l a)%Q).
  { clear. induction l as [|v l IH]; intros a; simpl; [apply Qle_refl|].
    destruct (Qlt_bool a v) eqn:E; [|apply IH].
    apply Qlt_bool_true in E.
    eapply Qle_trans; [apply Qlt_le_weak; exact E|apply IH]. }
  revert a. induction l as [|w l IH]; intros a v Hin; simpl.
  - destruct Hin as [Heq|[]]. subst v. apply Qle_refl.
  - destruct Hin as [Heq|[Heq|Hin]].
    + subst v. destruct (Qlt_bool a w) eqn:E; [|apply Hmono].
      apply Qlt_bool_true in E.
      eapply Qle_trans; [apply Qlt_le_weak; exact E|apply Hmono].
    + subst v. destruct (Qlt_bool a w) eqn:E; [apply Hmono|].
      apply Qlt_bool_false in E.
      eapply Qle_trans; [exact E|apply Hmono].
    + apply IH. now right.
Qed.

Lemma In_py_slice {A : Type} (l : list A) (lo hi : Z) (v : A) :
  0 <= lo -> 0 <= hi ->
  (In v (py_slice l lo hi)
   <-> exists j, lo <= j < hi /\ nth_error l (Z.to_nat j) = Some v).
Proof.
  intros Hlo Hhi. unfold py_slice, slice_bound.
  destruct (lo <? 0) eqn:E1; [zlia|].
  destruct (hi <? 0) eqn:E2; [zlia|]. clear E1 E2.
  set (n := Z.of_nat (length l)).
  set (a := Z.max 0 (Z.min n lo)).
  set (b := Z.max 0 (Z.min n hi)).
  assert (Ha : a = Z.min n lo) by (subst a n; lia).
  assert (Hb : b = Z.min n hi) by (subst b n; lia).
  assert (Hn : n = Z.of_nat (length l)) by reflexivity.
  clearbody a b n. split.
  - intros Hin. apply In_nth_error in Hin. destruct Hin as [k Hk].
    rewrite nth_error_firstn in Hk.
    destruct (Nat.ltb_spec k (Z.to_nat (b - a))) as [Hlt|]; [|discriminate].
    rewrite nth_error_skipn in Hk.
    assert (Hlen : (Z.to_nat a + k < length l)%nat)
      by (apply nth_error_Some; congruence).
    exists (lo + Z.of_nat k). split; [lia|].
    rewrite <- Hk. f_equal. lia.
  - intros (j & Hj & Hv).
    assert (Hlen : (Z.to_nat j < length l)%nat)
      by (apply nth_error_Some; congruence).
    apply (nth_error_In _ (Z.to_nat (j - lo))).
    rewrite nth_error_firstn.
    destruct (Nat.ltb_spec (Z.to_nat (j - lo)) (Z.to_nat (b - a))); [|lia].
    rewrite nth_error_skipn. rewrite <- Hv. f_equal. lia.
Qed.

Lemma py_max_reaches (sums : list Q) (lo hi : Z) (t : Q) :
  0 <= lo -> 0 <= hi ->
  ((exists m, py_max (py_slice sums lo hi) = Ok m /\ Qle_bool t m = true)
   <-> window_reaches sums lo hi t).
Proof.
  intros Hlo Hhi. unfold window_reaches. split.
  - intros (m & Hm & Ht). apply Qle_bool_iff in Ht.
    apply py_max_In, In_py_slice in Hm; [|lia|lia].
    destruct Hm as (j & Hj & Hv). exists j, m. auto.
  - intros (j & v & Hj & Hv & Ht).
    assert (Hin : In v (py_slice sums lo hi))
      by (apply In_py_slice; [lia|lia|eauto]).
    destruct (py_max_total (py_slice sums lo hi)) as [m Hm].
    { intros E. rewrite E in Hin. exact Hin. }
    exists m. split; [exact Hm|]. apply Qle_bool_iff.
    eapply Qle_trans; [exact Ht|]. exact (py_max_upper _ _ Hm v Hin).
Qed.

Lemma edge_valid_at_true (sums : list Q) (tl tr : Q) (i : Z) :
  2 <= i ->
  (edge_valid_at sums tl tr i = Ok true
   <-> window_reaches sums (i - 2) (i + 2) tl
       /\ window_reaches sums (i + 33) (i + 37) tr).
Proof.
  intros Hi.
  rewrite <- (py_max_reaches sums (i - 2) (i + 2) tl) by lia.
  rewrite <- (py_max_reaches sums (i + 33) (i + 37) tr) by lia.
  unfold edge_valid_at. split.
  - destruct (py_max (py_slice sums (i - 2) (i + 2))) as [ml|];
      cbn [bind]; [|discriminate].
    destruct (Qle_bool tl ml) eqn:El; [|discriminate].
    destruct (py_max (py_slice sums (i + 33) (i + 37))) as [mr|];
      cbn [bind]; [|discriminate].
    intros [= Er]. split; eauto.
  - intros [(ml & -> & El) (mr & -> & Er)]. cbn [bind].
    now rewrite El, Er.
Qed.

(** X11: the entry [i] of the mask, for a column [i] from 2 to
    [KILLFEED_MAX_WIDTH - 39], is true exactly when one of the normalized
    sums at the columns [i - 2] to [i + 1] is at least (H - 2) / H and one
    of those at the columns [i + 33] to [i + 36] is at least (H - 5) / H,
    for the template height H. *)
Theorem mask_entry_meaning `{Externals} (self : KillfeedAnalyzer) (img : Image)
  (mask : list bool) (i : Z) :
  _validate_edge self img = Ok mask ->
  2 <= i < KILLFEED_MAX_WIDTH (fstruc self) - 38 ->
  let h := inject_Z (ICON_CHARACTER_HEIGHT (icons self)) in
  let sums := normalized_edge_sum self img in
  (exists b, py_index mask i = Ok b)
  /\ (py_index mask i = Ok true
      <-> window_reaches sums (i - 2) (i + 2) ((h - 2) / h)
          /\ window_reaches sums (i + 33) (i + 37) ((h - 5) / h)).
Proof.
  intros Hmask Hi h sums. revert Hmask. unfold _validate_edge.
  destruct (ICON_CHARACTER_HEIGHT (icons self) =? 0); [discriminate|].
  fold (normalized_edge_sum self img). fold sums. fold h.
  destruct (mapM _ _) as [flags|] eqn:E; cbn [bind]; [|discriminate].
  set (m := [false; false] ++ flags ++ repeat false 6).
  intros [= <-]. subst m.
  assert (Hk : nth_error (range 2 (KILLFEED_MAX_WIDTH (fstruc self) - 38))
                         (Z.to_nat (i - 2)) = Some i).
  { rewrite range_nth by lia. f_equal. lia. }
  destruct (mapM_nth _ _ _ _ _ E Hk) as (b & Hb & Hf).
  assert (Hidx : py_index ([false; false] ++ flags ++ repeat false 6) i
                 = Ok b).
  { rewrite py_index_nonneg by lia.
    rewrite nth_error_app2 by (simpl; lia).
    assert (Hlt : (Z.to_nat (i - 2) < length flags)%nat)
      by (apply nth_error_Some; congruence).
    rewrite nth_error_app1 by (simpl; lia).
    replace (Z.to_nat i - length [false; false])%nat with (Z.to_nat (i - 2))
      by (simpl; lia).
    now rewrite Hb. }
  split; [eauto|]. rewrite Hidx.
  rewrite <- (edge_valid_at_true sums _ _ i) by lia. rewrite Hf.
  split; intros [= ->]; reflexivity.
Qed.

Lemma mask_entry_meaning_witness :
  let self := analyzer ana_alone stub_game in
  let img := killfeed_image self in
  exists mask,
    @_validate_edge stub_cv self img = Ok mask
    /\ 2 <= 50 < KILLFEED_MAX_WIDTH (fstruc self) - 38
    /\ py_index mask 50 = Ok true
    /\ window_reaches (@normalized_edge_sum stub_cv self img) 48 52
                      ((inject_Z 6 - 2) / inject_Z 6)
    /\ window_reaches (@normalized_edge_sum stub_cv self img) 83 87
                      ((inject_Z 6 - 5) / inject_Z 6).
Proof.
  intros self img.
  destruct (@_validate_edge stub_cv self img) as [mask|e] eqn:Hmask;
    [|exfalso; revert Hmask; vm_compute; intros [=]].
  assert (Hi : 2 <= 50 < KILLFEED_MAX_WIDTH (fstruc self) - 38)
    by (simpl; lia).
  assert (Htrue : py_index mask 50 = Ok true).
  { assert (Hm' := Hmask). vm_compute in Hm'. revert Hm'. intros [= <-].
    reflexivity. }
  exists mask. split; [reflexivity|]. split; [exact Hi|].
  split; [exact Htrue|].
  destruct (@mask_entry_meaning stub_cv self img mask 50 Hmask Hi)
    as [_ Hiff].
  exact (proj1 Hiff Htrue).
Defined.

(** ** The first loop as a sort *)

Lemma insert_desc_behind (a m : KillfeedIconMatch)
  (l : list KillfeedIconMatch) :
  insert_desc a (insert_behind m l) = insert_behind m (insert_desc a l).
Proof.
  induction l as [|y l IH]; simpl.
  - destruct (Qlt_bool (score a) (score m)); reflexivity.
  - destruct (Qlt_bool (score y) (score m)) eqn:Eym,
             (Qlt_bool (score a) (score y)) eqn:Eay; simpl;
      rewrite ?Eym, ?Eay.
    + assert (Eam : Qlt_bool (score a) (score m) = true).
      { apply Qlt_bool_true. apply Qlt_bool_true in Eym, Eay.
        eapply Qlt_trans; eauto. }
      now rewrite Eam.
    + destruct (Qlt_bool (score a) (score m)); simpl;
        rewrite ?Eym, ?Eay; reflexivity.
    + now rewrite IH.
    + assert (Eam : Qlt_bool (score a) (score m) = false).
      { apply Qlt_bool_false. apply Qlt_bool_false in Eym, Eay.
        eapply Qle_trans; eauto. }
      now rewrite Eam.
Qed.

Lemma sort_by_score_desc_snoc (l : list KillfeedIconMatch)
  (m : KillfeedIconMatch) :
  sort_by_score_desc (l ++ [m]) = insert_behind m (sort_by_score_desc l).
Proof.
  induction l as [|a l IH]; simpl; [reflexivity|].
  unfold sort_by_score_desc in *. simpl. now rewrite IH, insert_desc_behind.
Qed.

Lemma insert_desc_length (m : KillfeedIconMatch) (l : list KillfeedIconMatch) :
  length (insert_desc m l) = S (length l).
Proof.
  induction l as [|y l IH]; simpl; [reflexivity|].
  destruct (Qlt_bool (score m) (score y)); simpl; [now rewrite IH|reflexivity].
Qed.

Lemma sort_by_score_desc_length (l : list KillfeedIconMatch) :
  length (sort_by_score_desc l) = length l.
Proof.
  induction l as [|m l IH]; simpl; [reflexivity|].
  now rewrite insert_desc_length, IH.
Qed.

Lemma top3_scan_sort (items seen : list KillfeedIconMatch) :
  (3 <= length seen)%nat ->
  foldM top3_step items (firstn 3 (sort_by_score_desc seen))
  = Ok (firstn 3 (sort_by_score_desc (seen ++ items))).
Proof.
  revert seen. induction items as [|m items IH]; intros seen Hlen; cbn [foldM].
  - now rewrite app_nil_r.
  - assert (Hstep : top3_step (firstn 3 (sort_by_score_desc seen)) m
                    = Ok (firstn 3 (sort_by_score_desc (seen ++ [m])))).
    { pose proof (sort_by_score_desc_length seen) as Hl.
      rewrite (sort_by_score_desc_snoc seen m).
      destruct (sort_by_score_desc seen) as [|a [|b [|c rest]]];
        simpl in Hl; try lia.
      change (firstn 3 (a :: b :: c :: rest)) with [a; b; c].
      rewrite top3_step_three. f_equal. simpl.
      destruct (Qlt_bool (score a) (score m)); [reflexivity|].
      destruct (Qlt_bool (score b) (score m)); [reflexivity|].
      destruct (Qlt_bool (score c) (score m)); reflexivity. }
    rewrite Hstep. cbn [bind].
    rewrite IH by (rewrite length_app; simpl; lia).
    now rewrite <- app_assoc.
Qed.

(** X12: the first loop of [get_killfeed] returns the first three entries
    of the stable sort, in descending order of score, of the three
    placeholders followed by the candidates: what
    [sorted(placeholders + candidates, key=get_score, reverse=True)[:3]]
    gives. *)
Theorem top3_is_stable_sort_prefix (icons_weights : list KillfeedIconMatch) :
  top3 icons_weights
  = Ok (firstn 3 (sort_by_score_desc
                    ([no_match; no_match; no_match] ++ icons_weights))).
Proof.
  unfold top3.
  exact (top3_scan_sort icons_weights [no_match; no_match; no_match]
           (Nat.le_refl 3)).
Qed.

(** ** Exceptions *)

(** [_get_icon_team] raises [KeyError] for a position that is neither
    [LEFT] nor [RIGHT], before it reads the image. *)
Theorem invalid_position_raises `{Externals} (self : KillfeedAnalyzer)
  (icon : KillfeedIconMatch) (position : Z) :
  position <> LEFT -> position <> RIGHT ->
  _get_icon_team self icon position = Raise KeyError.
Proof.
  intros Hl Hr. unfold _get_icon_team, sample_column.
  destruct (position =? LEFT) eqn:El; [zlia|].
  destruct (position =? RIGHT) eqn:Er; [zlia|]. reflexivity.
Qed.

Lemma invalid_position_raises_witness :
  2 <> LEFT /\ 2 <> RIGHT
  /\ @_get_icon_team stub_cv (__init__ [] (stub_frame stub_game))
       (mkKillfeedIconMatch "ana" (9 # 10) 10) 2 = Raise KeyError.
Proof.
  assert (Hl : 2 <> LEFT) by discriminate.
  assert (Hr : 2 <> RIGHT) by discriminate.
  split; [exact Hl|]. split; [exact Hr|].
  exact (@invalid_position_raises stub_cv (__init__ [] (stub_frame stub_game))
           (mkKillfeedIconMatch "ana" (9 # 10) 10) 2 Hl Hr).
Defined.

(** With a template height of zero, [get_killfeed] raises
    [ZeroDivisionError] on every row. *)
Theorem zero_height_raises `{Externals} (img : Image) (fa : FrameAnalyzer) :
  ICON_CHARACTER_HEIGHT (killfeed_icons fa) = 0 ->
  _validate_edge (__init__ img fa) img = Raise ZeroDivisionError
  /\ fst (get_killfeed (__init__ img fa)) = Raise ZeroDivisionError.
Proof.
  intros Hh.
  assert (Hev : _validate_edge (__init__ img fa) img = Raise ZeroDivisionError).
  { unfold _validate_edge. cbn [icons __init__]. now rewrite Hh. }
  split; [exact Hev|].
  unfold get_killfeed, matched_icons. cbn [killfeed killfeed_image __init__ fst].
  now rewrite Hev.
Qed.

Lemma zero_height_raises_witness :
  let fa := mkFrameAnalyzer (mkFrameStructure 100 60)
              (mkKillfeedIcons 38 0 []) 12 stub_game in
  ICON_CHARACTER_HEIGHT (killfeed_icons fa) = 0
  /\ @_validate_edge stub_cv (__init__ (row_image ana_alone) fa)
       (row_image ana_alone) = Raise ZeroDivisionError
  /\ fst (@get_killfeed stub_cv (__init__ (row_image ana_alone) fa))
     = Raise ZeroDivisionError.
Proof.
  intros fa.
  assert (Hh : ICON_CHARACTER_HEIGHT (killfeed_icons fa) = 0) by reflexivity.
  split; [exact Hh|].
  exact (@zero_height_raises stub_cv (row_image ana_alone) fa Hh).
Defined.

Lemma py_index_error {A : Type} (l : list A) (i : Z) (e : PyError) :
  py_index l i = Raise e -> e = IndexError.
Proof.
  unfold py_index. destruct (_ && _).
  - destruct (nth_error l _); [discriminate|]. now intros [= <-].
  - now intros [= <-].
Qed.

Lemma get_icon_team_error `{Externals} (self : KillfeedAnalyzer)
  (icon : KillfeedIconMatch) (position : Z) (e : PyError) :
  position = LEFT \/ position = RIGHT ->
  _get_icon_team self icon position = Raise e -> e = IndexError.
Proof.
  intros Hpos. unfold _get_icon_team.
  assert (Hcol : exists col, sample_column self icon position = Ok col).
  { unfold sample_column. destruct Hpos as [-> | ->]; eexists; reflexivity. }
  destruct Hcol as [col ->]. cbn [bind].
  destruct (py_index (killfeed_image self) 0) as [row|e0] eqn:Er;
    cbn [bind]; [|intros [= <-]; exact (py_index_error _ _ _ Er)].
  destruct (py_index row col) as [px|e1] eqn:Ep; cbn [bind];
    [|intros [= <-]; exact (py_index_error _ _ _ Ep)].
  destruct (Qle_bool _ _); discriminate.
Qed.

(** X13: once the matches are accepted, the only exception that
    [get_killfeed] raises is [IndexError], for a team pixel outside the
    row; it calls [_get_icon_team] with [LEFT] and [RIGHT] only, so that
    [KeyError] is never raised. *)
Theorem classification_raises_index_error_only `{Externals} (img : Image)
  (fa : FrameAnalyzer) (ev : list bool) (matched : list KillfeedIconMatch)
  (e : PyError) :
  matched_icons (__init__ img fa) = Ok (ev, matched) ->
  fst (get_killfeed (__init__ img fa)) = Raise e ->
  e = IndexError.
Proof.
  intros Hm. rewrite (get_killfeed_fresh img fa ev matched Hm).
  clear Hm. unfold decide_killfeed.
  assert (Hleft : LEFT = LEFT \/ LEFT = RIGHT) by now left.
  assert (Hright : RIGHT = LEFT \/ RIGHT = RIGHT) by now right.
  destruct matched as [|m0 [|m1 rest]]; cbn [length].
  - discriminate.
  - change (py_index [m0] 0) with (Ok m0). cbn [bind].
    destruct (x m0 <? _); [discriminate|].
    unfold _generate_killfeed. cbn [length Nat.eqb].
    change (py_index [m0] 0) with (Ok m0). cbn [bind].
    destruct (_get_icon_team (__init__ img fa) m0 RIGHT) as [t|e0] eqn:Et;
      cbn [bind]; [discriminate|].
    intros [= <-]. exact (get_icon_team_error _ _ _ _ Hright Et).
  - rewrite py_slice_first_two.
    unfold _generate_killfeed. cbn [length Nat.eqb].
    change (py_index [m0; m1] 0) with (Ok m0).
    change (py_index [m0; m1] 1) with (Ok m1). cbn [bind].
    assert (Hgen : forall a b,
              (k0 <- (a' <- py_index [a; b] 0 ;;
                      team1 <- _get_icon_team (__init__ img fa) a' LEFT ;;
                      b' <- py_index [a; b] 1 ;;
                      team2 <- _get_icon_team (__init__ img fa) b' RIGHT ;;
                      Ok (mkKillfeed "test" (time (__init__ img fa))
                            (Some team1) (Some team2)
                            (Some (object_name a')) (Some (object_name b'))
                            (if String.eqb team1 team2
                             then RESURRECTION else ELIMINATION))) ;;
               Ok (Some k0)) = Raise e -> e = IndexError).
    { intros a b.
      change (py_index [a; b] 0) with (Ok a).
      change (py_index [a; b] 1) with (Ok b). cbn [bind].
      destruct (_get_icon_team (__init__ img fa) a LEFT) as [t1|e1] eqn:E1;
        cbn [bind];
        [|intros [= <-]; exact (get_icon_team_error _ _ _ _ Hleft E1)].
      destruct (_get_icon_team (__init__ img fa) b RIGHT) as [t2|e2] eqn:E2;
        cbn [bind];
        [discriminate
        |intros [= <-]; exact (get_icon_team_error _ _ _ _ Hright E2)]. }
    destruct (x m1 <? x m0); apply Hgen.
Qed.

Lemma classification_raises_index_error_only_witness :
  let img := row_image ana_at_right_end in
  let fa := stub_frame stub_game in
  exists ev matched e,
    @matched_icons stub_cv (__init__ img fa) = Ok (ev, matched)
    /\ fst (@get_killfeed stub_cv (__init__ img fa)) = Raise e
    /\ e = IndexError.
Proof.
  intros img fa.
  destruct (@matched_icons stub_cv (__init__ img fa)) as [[ev matched]|e0]
    eqn:Hm; [|exfalso; revert Hm; vm_compute; intros [=]].
  destruct (fst (@get_killfeed stub_cv (__init__ img fa))) as [k|e] eqn:Hk;
    [exfalso; revert Hk; vm_compute; intros [=]|].
  exists ev, matched, e. split; [reflexivity|]. split; [reflexivity|].
  exact (@classification_raises_index_error_only stub_cv img fa ev matched e
           Hm Hk).
Defined.

(** ** An empty library *)

Lemma foldM_total {A S : Type} (f : S -> A -> Result S) (l : list A) (s : S) :
  (forall s a, In a l -> exists s', f s a = Ok s') ->
  exists r, foldM f l s = Ok r.
Proof.
  revert s. induction l as [|a l IH]; intros s Hf; cbn [foldM]; [eauto|].
  destruct (Hf s a) as [s' ->]; [now left|]. cbn [bind].
  apply IH. intros; apply Hf; now right.
Qed.

(** X14: with an empty template library, on every row for which the edge
    validation returns, the scorers return and [get_killfeed] returns
    [None]. *)
Theorem empty_library_no_event `{Externals} (img : Image) (fa : FrameAnalyzer)
  (ev : list bool) :
  ICONS_CHARACTER (killfeed_icons fa) = [] ->
  _validate_edge (__init__ img fa) img = Ok ev ->
  (exists ws, _get_icons_weights (__init__ img fa) img ev = Ok ws
              /\ Forall (fun m => score m = (-1)%Q) ws)
  /\ fst (get_killfeed (__init__ img fa)) = Ok None.
Proof.
  intros Hempty Hev.
  assert (Hws : exists ws, _get_icons_weights (__init__ img fa) img ev = Ok ws).
  { unfold _get_icons_weights. destruct (count_true ev <=? 7).
    - unfold _get_icons_weights_discrete.
      destruct (foldM_total (discrete_step (__init__ img fa) img ev)
                  (range 0 (Z.of_nat (length ev))) []) as [raw Hraw].
      { intros acc c Hc. apply In_range in Hc. unfold discrete_step.
        rewrite py_index_nonneg by lia.
        destruct (nth_error ev (Z.to_nat c)) as [e|] eqn:E.
        2:{ apply nth_error_None in E. lia. }
        cbn [bind]. destruct (negb e); [eauto|].
        cbn [icons __init__]. rewrite Hempty. cbn [foldM bind]. eauto. }
      rewrite Hraw. cbn [bind].
      destruct (suppress_spec (length ev) (sort_by_score_desc raw))
        as (res & Hres & _).
      + assert (Hcols : Forall (fun m => 0 <= x m < Z.of_nat (length ev)) raw).
        { apply (discrete_raw_columns (__init__ img fa) img ev
                   (fun c => 0 <= c < Z.of_nat (length ev))
                   (range 0 (Z.of_nat (length ev))) [] raw);
            [|constructor|exact Hraw].
          apply Forall_forall. intros c Hc. apply In_range in Hc. lia. }
        rewrite Forall_forall in *. intros a Ha.
        apply Hcols. now apply sort_by_score_desc_In.
      + eauto.
    - unfold _get_icons_weights_full. cbn [icons __init__].
      rewrite Hempty. cbn [foldM]. eauto. }
  destruct Hws as [ws Hws].
  assert (Hminus : Forall (fun m => score m = (-1)%Q) ws).
  { pose proof (weights_names _ _ _ _ Hws) as Hn.
    cbn [icons __init__] in Hn. rewrite Hempty in Hn.
    eapply Forall_impl; [|exact Hn]. intros m [[]|Hs]. exact Hs. }
  split; [eauto|].
  assert (Hev' : _validate_edge (__init__ img fa)
                   (killfeed_image (__init__ img fa)) = Ok ev) by exact Hev.
  destruct (matched_icons_filter (__init__ img fa) ev ws Hev' Hws)
    as (a & b & c & _ & _ & _ & Hin & Hm).
  assert (Hnone : filter (fun m => negb (Qlt_bool (score m) SCORE_THRESHOLD))
                         [a; b; c] = []).
  { assert (Hall : forall m, In m [a; b; c] ->
                     Qlt_bool (score m) SCORE_THRESHOLD = true).
    { intros m Hm'. destruct (Hin m Hm') as [->|Hw]; [reflexivity|].
      now rewrite (proj1 (Forall_forall _ _) Hminus m Hw). }
    cbn [filter].
    rewrite (Hall a), (Hall b), (Hall c) by (simpl; auto). reflexivity. }
  rewrite Hnone in Hm.
  now rewrite (get_killfeed_fresh img fa ev [] Hm).
Qed.

Lemma empty_library_no_event_witness :
  let img := row_image ana_alone in
  let fa := mkFrameAnalyzer (mkFrameStructure 100 60)
              (mkKillfeedIcons 38 6 []) 12 stub_game in
  exists ev,
    ICONS_CHARACTER (killfeed_icons fa) = []
    /\ @_validate_edge stub_cv (__init__ img fa) img = Ok ev
    /\ (exists ws,
          @_get_icons_weights stub_cv (__init__ img fa) img ev = Ok ws
          /\ Forall (fun m => score m = (-1)%Q) ws)
    /\ fst (@get_killfeed stub_cv (__init__ img fa)) = Ok None.
Proof.
  intros img fa.
  destruct (@_validate_edge stub_cv (__init__ img fa) img) as [ev|e] eqn:Hev;
    [|exfalso; revert Hev; vm_compute; intros [=]].
  assert (Hempty : ICONS_CHARACTER (killfeed_icons fa) = []) by reflexivity.
  exists ev. split; [exact Hempty|]. split; [reflexivity|].
  exact (@empty_library_no_event stub_cv img fa ev Hempty Hev).
Defined.
